(** * Mesh repository: fetch pipeline, disk cache and registry

    A shallow embedding of [indra/newview/llmeshrepository.cpp].  Every
    definition below is the pure-state reading of the C++ function whose
    name it carries: member variables become record fields, mutation
    becomes explicit state passing, external collaborators (the LLSD
    decoder, the volume unpacker, the HTTP transport, the allocator and
    the thread-pool queue) become inputs. *)

From Stdlib Require Import ZArith QArith Lia.
From Stdlib.Strings Require Import Byte.
From stdpp Require Import gmap list strings.

Open Scope Z_scope.

(** ** Machine integers

    [U32] and [S32] values are integers in [Z]; a conversion between
    the two is written out with its wrap-around. *)

Definition wrapU32 (z : Z) : Z := z mod 2 ^ 32.
Definition wrapS32 (z : Z) : Z := (z + 2 ^ 31) mod 2 ^ 32 - 2 ^ 31.
Definition wrapU64 (z : Z) : Z := z mod 2 ^ 64.

Definition llmin (a b : Z) : Z := if a <? b then a else b.
Definition llmax (a b : Z) : Z := if a <? b then b else a.
Definition llclamp (a lo hi : Z) : Z :=
  if a <? lo then lo else if hi <? a then hi else a.

(** ** Constants of the translation unit *)

Definition CACHE_PREAMBLE_VERSION : Z := 1.
Definition CACHE_PREAMBLE_SIZE : Z := 12.
Definition MESH_HEADER_SIZE : Z := 4096.
Definition LARGE_MESH_FETCH_THRESHOLD : Z := 2 ^ 21.
Definition DOWNLOAD_RETRY_LIMIT : Z := 8.
Definition DOWNLOAD_RETRY_DELAY : Q := 1 # 2.
Definition MAX_MESH_VERSION : Z := 999.

(** ** Request statistics and the retry timer *)

(** Modelled from the spec: the [LLTimer] member of [RequestStats]; the
    class lives outside this translation unit.  The model keeps the
    clock reading taken by [reset] and the absolute deadline put in
    place by [setTimerExpirySec]; a timer has expired once the clock
    has reached the deadline. *)
Record LLTimer := {
  mStarted : bool;
  mLastClock : Q;
  mExpiration : Q
}.

Definition timer_fresh : LLTimer :=
  {| mStarted := false; mLastClock := 0; mExpiration := 0 |}.

Definition timer_reset (now : Q) (t : LLTimer) : LLTimer :=
  {| mStarted := true; mLastClock := now; mExpiration := 0 |}.

Definition setTimerExpirySec (now : Q) (secs : Q) (t : LLTimer) : LLTimer :=
  {| mStarted := mStarted t; mLastClock := mLastClock t;
     mExpiration := (now + secs)%Q |}.

Definition getStarted (t : LLTimer) : bool := mStarted t.

Definition hasExpired (now : Q) (t : LLTimer) : bool :=
  if Qlt_le_dec now (mExpiration t) then false else true.

Record RequestStats := {
  mRetries : Z;            (* U32 *)
  mTimer : LLTimer
}.

(** A request record as its constructor leaves it: no retries yet and
    a timer that was never started. *)
Definition RequestStats_new : RequestStats :=
  {| mRetries := 0; mTimer := timer_fresh |}.

(** [RequestStats::updateTime]: [modifier = 1 << mRetries] is read
    before the increment. *)
Definition updateTime (now : Q) (r : RequestStats) : RequestStats :=
  let modifier := wrapU32 (Z.shiftl 1 (mRetries r)) in
  {| mRetries := wrapU32 (mRetries r + 1);
     mTimer := setTimerExpirySec now
                 (DOWNLOAD_RETRY_DELAY * inject_Z modifier)%Q
                 (timer_reset now (mTimer r)) |}.

Definition canRetry (r : RequestStats) : bool :=
  mRetries r <? DOWNLOAD_RETRY_LIMIT.

Definition isDelayed (now : Q) (r : RequestStats) : bool :=
  getStarted (mTimer r) && negb (hasExpired now (mTimer r)).




(** The delay in force on a record: deadline minus the clock reading
    taken when the timer was reset. *)
Definition delay (r : RequestStats) : Q :=
  (mExpiration (mTimer r) - mLastClock (mTimer r))%Q.

(** ** Identifiers, volume parameters, byte buffers *)

(** A mesh identifier ([LLUUID]) is a 128-bit value; [0] is the null id. *)
Abbreviation LLUUID := N.

Record LLVolumeParams := { getSculptID : LLUUID }.

(** A [U8*] buffer. *)
Abbreviation buffer := (list byte).

(** The bytes [pos, pos + n) of a buffer ([data + pos], [n] bytes). *)
Definition slice (pos n : Z) (b : buffer) : buffer :=
  take (Z.to_nat n) (drop (Z.to_nat pos) b).

(** ** Per-LOD arrays

    The four levels of detail, named as in [header_lod]; an index
    outside [0, 3] has no element. *)

Record Lods (A : Type) := mkLods {
  lowest_lod : A; low_lod : A; medium_lod : A; high_lod : A
}.
Arguments mkLods {A}.
Arguments lowest_lod {A}.
Arguments low_lod {A}.
Arguments medium_lod {A}.
Arguments high_lod {A}.

(** Modelled from the spec: [LLModel::NUM_LODS] and
    [LLVolumeLODGroup::NUM_LODS] are declared outside this translation
    unit; the four levels 0 (lowest) to 3 (highest) are those of
    [header_lod]. *)
Definition NUM_LODS : Z := 4.

Definition lod_get {A} (a : Lods A) (i : Z) : option A :=
  match i with
  | 0 => Some (lowest_lod a)
  | 1 => Some (low_lod a)
  | 2 => Some (medium_lod a)
  | 3 => Some (high_lod a)
  | _ => None
  end.

Definition lod_set {A} (a : Lods A) (i : Z) (x : A) : Lods A :=
  match i with
  | 0 => mkLods x (low_lod a) (medium_lod a) (high_lod a)
  | 1 => mkLods (lowest_lod a) x (medium_lod a) (high_lod a)
  | 2 => mkLods (lowest_lod a) (low_lod a) x (high_lod a)
  | 3 => mkLods (lowest_lod a) (low_lod a) (medium_lod a) x
  | _ => a
  end.

Definition lod_fill {A} (x : A) : Lods A := mkLods x x x x.

Definition lod_indices : list Z := [0; 1; 2; 3].

(** ** Mesh header *)

(** The members of [LLMeshHeader] the functions below read and write;
    the class itself is declared outside this translation unit. *)
Record LLMeshHeader := {
  mVersion : Z;
  mSkinOffset : Z;
  mSkinSize : Z;
  mPhysicsConvexOffset : Z;
  mPhysicsConvexSize : Z;
  mPhysicsMeshOffset : Z;
  mPhysicsMeshSize : Z;
  mLodOffset : Lods Z;
  mLodSize : Lods Z;
  mHeaderSize : Z;
  m404 : bool;
  mSkinInCache : bool;
  mPhysicsConvexInCache : bool;
  mPhysicsMeshInCache : bool;
  mLodInCache : Lods bool
}.

Definition set_m404 (v : bool) (h : LLMeshHeader) : LLMeshHeader :=
  {| mVersion := mVersion h; mSkinOffset := mSkinOffset h; mSkinSize := mSkinSize h;
     mPhysicsConvexOffset := mPhysicsConvexOffset h;
     mPhysicsConvexSize := mPhysicsConvexSize h;
     mPhysicsMeshOffset := mPhysicsMeshOffset h;
     mPhysicsMeshSize := mPhysicsMeshSize h;
     mLodOffset := mLodOffset h; mLodSize := mLodSize h;
     mHeaderSize := mHeaderSize h; m404 := v;
     mSkinInCache := mSkinInCache h;
     mPhysicsConvexInCache := mPhysicsConvexInCache h;
     mPhysicsMeshInCache := mPhysicsMeshInCache h;
     mLodInCache := mLodInCache h |}.

Definition set_mHeaderSize (v : Z) (h : LLMeshHeader) : LLMeshHeader :=
  {| mVersion := mVersion h; mSkinOffset := mSkinOffset h; mSkinSize := mSkinSize h;
     mPhysicsConvexOffset := mPhysicsConvexOffset h;
     mPhysicsConvexSize := mPhysicsConvexSize h;
     mPhysicsMeshOffset := mPhysicsMeshOffset h;
     mPhysicsMeshSize := mPhysicsMeshSize h;
     mLodOffset := mLodOffset h; mLodSize := mLodSize h;
     mHeaderSize := v; m404 := m404 h;
     mSkinInCache := mSkinInCache h;
     mPhysicsConvexInCache := mPhysicsConvexInCache h;
     mPhysicsMeshInCache := mPhysicsMeshInCache h;
     mLodInCache := mLodInCache h |}.

(** All seven presence bits at once. *)
Definition set_in_cache (skin convex phys : bool) (lods : Lods bool)
    (h : LLMeshHeader) : LLMeshHeader :=
  {| mVersion := mVersion h; mSkinOffset := mSkinOffset h; mSkinSize := mSkinSize h;
     mPhysicsConvexOffset := mPhysicsConvexOffset h;
     mPhysicsConvexSize := mPhysicsConvexSize h;
     mPhysicsMeshOffset := mPhysicsMeshOffset h;
     mPhysicsMeshSize := mPhysicsMeshSize h;
     mLodOffset := mLodOffset h; mLodSize := mLodSize h;
     mHeaderSize := mHeaderSize h; m404 := m404 h;
     mSkinInCache := skin;
     mPhysicsConvexInCache := convex;
     mPhysicsMeshInCache := phys;
     mLodInCache := lods |}.

(** The "for safety just mark everything as missing" block. *)
Definition clear_in_cache (h : LLMeshHeader) : LLMeshHeader :=
  set_in_cache false false false (lod_fill false) h.

(** Modelled from the spec: [LLMeshHeader::getFlags] and
    [LLMeshHeader::setFromFlags], declared with the class outside this
    translation unit.  The flags word carries one presence bit per
    sub-section: the four LODs, then skin, physics-convex and
    physics-mesh. *)
Definition FLAG_SKIN : Z := Z.shiftl 1 NUM_LODS.
Definition FLAG_PHYSCONVEX : Z := Z.shiftl 1 (NUM_LODS + 1).
Definition FLAG_PHYSMESH : Z := Z.shiftl 1 (NUM_LODS + 2).

Definition flag_if (b : bool) (bit : Z) : Z := if b then bit else 0.

Definition getFlags (h : LLMeshHeader) : Z :=
  Z.lor (flag_if (mSkinInCache h) FLAG_SKIN)
 (Z.lor (flag_if (mPhysicsConvexInCache h) FLAG_PHYSCONVEX)
 (Z.lor (flag_if (mPhysicsMeshInCache h) FLAG_PHYSMESH)
 (Z.lor (flag_if (lowest_lod (mLodInCache h)) (Z.shiftl 1 0))
 (Z.lor (flag_if (low_lod (mLodInCache h)) (Z.shiftl 1 1))
 (Z.lor (flag_if (medium_lod (mLodInCache h)) (Z.shiftl 1 2))
        (flag_if (high_lod (mLodInCache h)) (Z.shiftl 1 3))))))).

Definition has_flag (flags bit : Z) : bool := negb (Z.land flags bit =? 0).

Definition setFromFlags (flags : Z) (h : LLMeshHeader) : LLMeshHeader :=
  set_in_cache (has_flag flags FLAG_SKIN)
               (has_flag flags FLAG_PHYSCONVEX)
               (has_flag flags FLAG_PHYSMESH)
               (mkLods (has_flag flags (Z.shiftl 1 0))
                       (has_flag flags (Z.shiftl 1 1))
                       (has_flag flags (Z.shiftl 1 2))
                       (has_flag flags (Z.shiftl 1 3)))
               h.

(** [LLMeshRepository::getActualMeshLOD(LLMeshHeader&, S32)]: the LOD
    that can stand in for [lod], or [-1]; the header comes back marked
    404 when it has no LOD at all. *)
Definition lod_size_positive (h : LLMeshHeader) (i : Z) : bool :=
  match lod_get (mLodSize h) i with
  | Some s => 0 <? s
  | None => false
  end.

Definition getActualMeshLOD (h : LLMeshHeader) (lod : Z) : Z * LLMeshHeader :=
  let lod := llclamp lod 0 3 in
  if m404 h then (-1, h)
  else if MAX_MESH_VERSION <? mVersion h then (-1, h)
  else if lod_size_positive h lod then (lod, h)
  else
    (* search down to find the next available lower lod *)
    match find (lod_size_positive h) (reverse (seqZ 0 lod)) with
    | Some i => (i, h)
    | None =>
      (* search up to find the next available higher lod *)
      match find (lod_size_positive h) (seqZ (lod + 1) (NUM_LODS - (lod + 1))) with
      | Some i => (i, h)
      | None => (-1, set_m404 true h)
      end
    end.

(** ** External collaborators

    Decoders and the default header live in other libraries of the
    viewer; the pipeline only looks at their results. *)

Inductive DecodeResult :=
| DecodeError                                   (* fromBinary returned false *)
| DecodedNotMap                                 (* !header_data.isMap() *)
| DecodedMap (h : LLMeshHeader) (tellg : Z).    (* header.fromLLSD, stream.tellg() *)

(** A decoded volume: one list of vertex indices per face. *)
Abbreviation LLVolume := (list (list Z)).

Class Externals := {
  (** the structured-data value type *)
  LLSD : Type;
  (** [LLSD()] *)
  LLSD_undef : LLSD;
  (** [LLMeshHeader header;] *)
  LLMeshHeader_default : LLMeshHeader;
  (** [strip_deprecated_header(data, dsize, &header_size)]: number of
      bytes skipped, remaining size, and the value left in
      [header_size] *)
  strip_deprecated_header : buffer -> Z -> Z * Z * Z;
  (** [LLSDSerialize::fromBinary] followed by [fromLLSD] *)
  fromBinary : buffer -> Z -> DecodeResult;
  (** [LLUZipHelper::unzip_llsd]; [None] for any result but [ZR_OK]
      and for [std::bad_alloc] *)
  unzip_llsd : buffer -> Z -> option LLSD;
  (** [LLVolume::unpackVolumeFaces] *)
  unpackVolumeFaces : buffer -> Z -> option LLVolume;
  (** [LLUUID::asString] *)
  asString : LLUUID -> string;
  (** [LLFileSystem::getMaxSize] *)
  getMaxSize : Z
}.

(** What the environment answers during one call: whether the agent
    has a region, whether [new (std::nothrow)] succeeds, whether the
    parse pool accepts a task, the handle the transport hands out
    ([None] is [LLCORE_HTTP_HANDLE_INVALID]), the
    [HttpRangeRequestsDisable] setting and whether the application is
    exiting. *)
Record Oracle := {
  has_region : bool;
  new_ok : bool;
  post_ok : bool;
  http_handle : option Z;
  disable_range_req : bool;
  app_exiting : bool           (* LLApp::isExiting() *)
}.

Section Pipeline.
Context `{Ext : Externals}.

(** ** Requests, handlers, completions *)

Record UUIDBasedRequest := {
  ur_mId : LLUUID;
  ur_stats : RequestStats
}.

Record LODRequest := {
  lr_mMeshParams : LLVolumeParams;
  lr_mLOD : Z;
  lr_stats : RequestStats
}.

Record HeaderRequest := {
  hr_mMeshParams : LLVolumeParams;
  hr_stats : RequestStats
}.

Definition new_UUIDBasedRequest (id : LLUUID) : UUIDBasedRequest :=
  {| ur_mId := id; ur_stats := RequestStats_new |}.
Definition new_LODRequest (p : LLVolumeParams) (lod : Z) : LODRequest :=
  {| lr_mMeshParams := p; lr_mLOD := lod; lr_stats := RequestStats_new |}.
Definition new_HeaderRequest (p : LLVolumeParams) : HeaderRequest :=
  {| hr_mMeshParams := p; hr_stats := RequestStats_new |}.

(** The five handler classes. *)
Inductive HandlerKind :=
| LLMeshHeaderHandler
| LLMeshLODHandler (mLOD : Z)
| LLMeshSkinInfoHandler
| LLMeshDecompositionHandler
| LLMeshPhysicsShapeHandler.

Record LLMeshHandlerBase := {
  hKind : HandlerKind;
  hMeshID : LLUUID;           (* mMeshParams.getSculptID() or mMeshID *)
  mProcessed : bool;
  mHttpHandle : Z;
  mOffset : Z;                (* U32 *)
  mRequestedBytes : Z         (* U32 *)
}.

Inductive PolicyClass := mHttpPolicyClass | mHttpLegacyPolicyClass | mHttpLargePolicyClass.

(** One [requestGetByteRange] accepted by the transport. *)
Record HttpGet := {
  get_policy : PolicyClass;
  get_url : string;
  get_offset : Z;
  get_len : Z
}.

Record LoadedMesh := {
  lm_mVolume : LLVolume;
  lm_mMeshParams : LLVolumeParams;
  lm_mLOD : Z
}.

Record LLMeshSkinInfo := {
  si_mMeshID : LLUUID;
  si_skin : LLSD
}.

Record Decomposition := {
  dc_mMeshID : LLUUID;
  dc_decomp : option LLSD;            (* hull data, when built from LLSD *)
  dc_mPhysicsShapeMesh : list Z       (* mPositions, one entry per index *)
}.

(** A closure posted to the parse pool by a cache read. *)
Inductive PoolTask :=
| CachedLodTask (params : LLVolumeParams) (lod : Z) (buf : buffer) (size : Z)
| CachedSkinTask (mesh_id : LLUUID) (buf : buffer) (size : Z).

(** A closure posted to the worker's work queue by the main thread. *)
Inductive WorkItem :=
| EraseSkin (id : LLUUID).            (* mThread->mSkinMap.erase(id) *)

Inductive EMeshProcessingResult :=
| MESH_OK | MESH_NO_DATA | MESH_OUT_OF_MEMORY | MESH_HTTP_REQUEST_FAILED
| MESH_PARSE_FAILURE | MESH_INVALID | MESH_UNKNOWN.

(** The static counters the worker touches. *)
Record Counters := {
  sMeshRequestCount : Z;
  sHTTPRequestCount : Z;
  sHTTPLargeRequestCount : Z;
  sLODProcessing : Z;
  sCacheBytesRead : Z;
  sCacheReads : Z;
  sCacheBytesWritten : Z;
  sCacheBytesHeaders : Z;
  sCacheWrites : Z;
  sHTTPRetryCount : Z;
  sHTTPErrorCount : Z;
  sBytesReceived : Z;
  sActiveHeaderRequests : Z;
  sActiveLODRequests : Z;
  sActiveSkinRequests : Z
}.

(** ** Worker state

    The members of [LLMeshRepoThread] the fetch path reads and writes,
    the requests the transport has accepted ([mHttpRequest]), and the
    per-asset cache blobs behind [LLFileSystem] ([mDisk]); an asset
    without a blob has size 0. *)
Record LLMeshRepoThread := {
  mMeshHeader : gmap LLUUID LLMeshHeader;
  mPendingLOD : gmap LLUUID (Lods Z);
  mSkinRequests : list UUIDBasedRequest;
  mLODReqQ : list LODRequest;
  mHeaderReqQ : list HeaderRequest;
  mHttpRequestSet : list LLMeshHandlerBase;
  mHttpRequest : list HttpGet;
  mLoadedQ : list LoadedMesh;
  mUnavailableQ : list LODRequest;
  mSkinInfoQ : list LLMeshSkinInfo;
  mSkinUnavailableQ : list UUIDBasedRequest;
  mDecompositionQ : list Decomposition;
  mSkinMap : gmap LLUUID LLMeshSkinInfo;
  mMeshThreadPool : list PoolTask;
  mWorkQueue : list WorkItem;
  mShuttingDown : bool;
  mGetMeshCapability : string;
  mLegacyGetMeshCapability : string;
  mLegacyGetMesh2Capability : string;
  mLegacyGetMeshVersion : Z;
  mCounters : Counters;
  mDisk : gmap LLUUID buffer
}.

(** Field updates. *)

Definition with_mMeshHeader v (st : LLMeshRepoThread) : LLMeshRepoThread :=
  {| mMeshHeader := v;
     mPendingLOD := mPendingLOD st;
     mSkinRequests := mSkinRequests st;
     mLODReqQ := mLODReqQ st;
     mHeaderReqQ := mHeaderReqQ st;
     mHttpRequestSet := mHttpRequestSet st;
     mHttpRequest := mHttpRequest st;
     mLoadedQ := mLoadedQ st;
     mUnavailableQ := mUnavailableQ st;
     mSkinInfoQ := mSkinInfoQ st;
     mSkinUnavailableQ := mSkinUnavailableQ st;
     mDecompositionQ := mDecompositionQ st;
     mSkinMap := mSkinMap st;
     mMeshThreadPool := mMeshThreadPool st;
     mWorkQueue := mWorkQueue st;
     mShuttingDown := mShuttingDown st;
     mGetMeshCapability := mGetMeshCapability st;
     mLegacyGetMeshCapability := mLegacyGetMeshCapability st;
     mLegacyGetMesh2Capability := mLegacyGetMesh2Capability st;
     mLegacyGetMeshVersion := mLegacyGetMeshVersion st;
     mCounters := mCounters st;
     mDisk := mDisk st |}.

Definition with_mPendingLOD v (st : LLMeshRepoThread) : LLMeshRepoThread :=
  {| mMeshHeader := mMeshHeader st;
     mPendingLOD := v;
     mSkinRequests := mSkinRequests st;
     mLODReqQ := mLODReqQ st;
     mHeaderReqQ := mHeaderReqQ st;
     mHttpRequestSet := mHttpRequestSet st;
     mHttpRequest := mHttpRequest st;
     mLoadedQ := mLoadedQ st;
     mUnavailableQ := mUnavailableQ st;
     mSkinInfoQ := mSkinInfoQ st;
     mSkinUnavailableQ := mSkinUnavailableQ st;
     mDecompositionQ := mDecompositionQ st;
     mSkinMap := mSkinMap st;
     mMeshThreadPool := mMeshThreadPool st;
     mWorkQueue := mWorkQueue st;
     mShuttingDown := mShuttingDown st;
     mGetMeshCapability := mGetMeshCapability st;
     mLegacyGetMeshCapability := mLegacyGetMeshCapability st;
     mLegacyGetMesh2Capability := mLegacyGetMesh2Capability st;
     mLegacyGetMeshVersion := mLegacyGetMeshVersion st;
     mCounters := mCounters st;
     mDisk := mDisk st |}.

Definition with_mSkinRequests v (st : LLMeshRepoThread) : LLMeshRepoThread :=
  {| mMeshHeader := mMeshHeader st;
     mPendingLOD := mPendingLOD st;
     mSkinRequests := v;
     mLODReqQ := mLODReqQ st;
     mHeaderReqQ := mHeaderReqQ st;
     mHttpRequestSet := mHttpRequestSet st;
     mHttpRequest := mHttpRequest st;
     mLoadedQ := mLoadedQ st;
     mUnavailableQ := mUnavailableQ st;
     mSkinInfoQ := mSkinInfoQ st;
     mSkinUnavailableQ := mSkinUnavailableQ st;
     mDecompositionQ := mDecompositionQ st;
     mSkinMap := mSkinMap st;
     mMeshThreadPool := mMeshThreadPool st;
     mWorkQueue := mWorkQueue st;
     mShuttingDown := mShuttingDown st;
     mGetMeshCapability := mGetMeshCapability st;
     mLegacyGetMeshCapability := mLegacyGetMeshCapability st;
     mLegacyGetMesh2Capability := mLegacyGetMesh2Capability st;
     mLegacyGetMeshVersion := mLegacyGetMeshVersion st;
     mCounters := mCounters st;
     mDisk := mDisk st |}.

Definition with_mLODReqQ v (st : LLMeshRepoThread) : LLMeshRepoThread :=
  {| mMeshHeader := mMeshHeader st;
     mPendingLOD := mPendingLOD st;
     mSkinRequests := mSkinRequests st;
     mLODReqQ := v;
     mHeaderReqQ := mHeaderReqQ st;
     mHttpRequestSet := mHttpRequestSet st;
     mHttpRequest := mHttpRequest st;
     mLoadedQ := mLoadedQ st;
     mUnavailableQ := mUnavailableQ st;
     mSkinInfoQ := mSkinInfoQ st;
     mSkinUnavailableQ := mSkinUnavailableQ st;
     mDecompositionQ := mDecompositionQ st;
     mSkinMap := mSkinMap st;
     mMeshThreadPool := mMeshThreadPool st;
     mWorkQueue := mWorkQueue st;
     mShuttingDown := mShuttingDown st;
     mGetMeshCapability := mGetMeshCapability st;
     mLegacyGetMeshCapability := mLegacyGetMeshCapability st;
     mLegacyGetMesh2Capability := mLegacyGetMesh2Capability st;
     mLegacyGetMeshVersion := mLegacyGetMeshVersion st;
     mCounters := mCounters st;
     mDisk := mDisk st |}.

Definition with_mHeaderReqQ v (st : LLMeshRepoThread) : LLMeshRepoThread :=
  {| mMeshHeader := mMeshHeader st;
     mPendingLOD := mPendingLOD st;
     mSkinRequests := mSkinRequests st;
     mLODReqQ := mLODReqQ st;
     mHeaderReqQ := v;
     mHttpRequestSet := mHttpRequestSet st;
     mHttpRequest := mHttpRequest st;
     mLoadedQ := mLoadedQ st;
     mUnavailableQ := mUnavailableQ st;
     mSkinInfoQ := mSkinInfoQ st;
     mSkinUnavailableQ := mSkinUnavailableQ st;
     mDecompositionQ := mDecompositionQ st;
     mSkinMap := mSkinMap st;
     mMeshThreadPool := mMeshThreadPool st;
     mWorkQueue := mWorkQueue st;
     mShuttingDown := mShuttingDown st;
     mGetMeshCapability := mGetMeshCapability st;
     mLegacyGetMeshCapability := mLegacyGetMeshCapability st;
     mLegacyGetMesh2Capability := mLegacyGetMesh2Capability st;
     mLegacyGetMeshVersion := mLegacyGetMeshVersion st;
     mCounters := mCounters st;
     mDisk := mDisk st |}.

Definition with_mHttpRequestSet v (st : LLMeshRepoThread) : LLMeshRepoThread :=
  {| mMeshHeader := mMeshHeader st;
     mPendingLOD := mPendingLOD st;
     mSkinRequests := mSkinRequests st;
     mLODReqQ := mLODReqQ st;
     mHeaderReqQ := mHeaderReqQ st;
     mHttpRequestSet := v;
     mHttpRequest := mHttpRequest st;
     mLoadedQ := mLoadedQ st;
     mUnavailableQ := mUnavailableQ st;
     mSkinInfoQ := mSkinInfoQ st;
     mSkinUnavailableQ := mSkinUnavailableQ st;
     mDecompositionQ := mDecompositionQ st;
     mSkinMap := mSkinMap st;
     mMeshThreadPool := mMeshThreadPool st;
     mWorkQueue := mWorkQueue st;
     mShuttingDown := mShuttingDown st;
     mGetMeshCapability := mGetMeshCapability st;
     mLegacyGetMeshCapability := mLegacyGetMeshCapability st;
     mLegacyGetMesh2Capability := mLegacyGetMesh2Capability st;
     mLegacyGetMeshVersion := mLegacyGetMeshVersion st;
     mCounters := mCounters st;
     mDisk := mDisk st |}.

Definition with_mHttpRequest v (st : LLMeshRepoThread) : LLMeshRepoThread :=
  {| mMeshHeader := mMeshHeader st;
     mPendingLOD := mPendingLOD st;
     mSkinRequests := mSkinRequests st;
     mLODReqQ := mLODReqQ st;
     mHeaderReqQ := mHeaderReqQ st;
     mHttpRequestSet := mHttpRequestSet st;
     mHttpRequest := v;
     mLoadedQ := mLoadedQ st;
     mUnavailableQ := mUnavailableQ st;
     mSkinInfoQ := mSkinInfoQ st;
     mSkinUnavailableQ := mSkinUnavailableQ st;
     mDecompositionQ := mDecompositionQ st;
     mSkinMap := mSkinMap st;
     mMeshThreadPool := mMeshThreadPool st;
     mWorkQueue := mWorkQueue st;
     mShuttingDown := mShuttingDown st;
     mGetMeshCapability := mGetMeshCapability st;
     mLegacyGetMeshCapability := mLegacyGetMeshCapability st;
     mLegacyGetMesh2Capability := mLegacyGetMesh2Capability st;
     mLegacyGetMeshVersion := mLegacyGetMeshVersion st;
     mCounters := mCounters st;
     mDisk := mDisk st |}.

Definition with_mLoadedQ v (st : LLMeshRepoThread) : LLMeshRepoThread :=
  {| mMeshHeader := mMeshHeader st;
     mPendingLOD := mPendingLOD st;
     mSkinRequests := mSkinRequests st;
     mLODReqQ := mLODReqQ st;
     mHeaderReqQ := mHeaderReqQ st;
     mHttpRequestSet := mHttpRequestSet st;
     mHttpRequest := mHttpRequest st;
     mLoadedQ := v;
     mUnavailableQ := mUnavailableQ st;
     mSkinInfoQ := mSkinInfoQ st;
     mSkinUnavailableQ := mSkinUnavailableQ st;
     mDecompositionQ := mDecompositionQ st;
     mSkinMap := mSkinMap st;
     mMeshThreadPool := mMeshThreadPool st;
     mWorkQueue := mWorkQueue st;
     mShuttingDown := mShuttingDown st;
     mGetMeshCapability := mGetMeshCapability st;
     mLegacyGetMeshCapability := mLegacyGetMeshCapability st;
     mLegacyGetMesh2Capability := mLegacyGetMesh2Capability st;
     mLegacyGetMeshVersion := mLegacyGetMeshVersion st;
     mCounters := mCounters st;
     mDisk := mDisk st |}.

Definition with_mUnavailableQ v (st : LLMeshRepoThread) : LLMeshRepoThread :=
  {| mMeshHeader := mMeshHeader st;
     mPendingLOD := mPendingLOD st;
     mSkinRequests := mSkinRequests st;
     mLODReqQ := mLODReqQ st;
     mHeaderReqQ := mHeaderReqQ st;
     mHttpRequestSet := mHttpRequestSet st;
     mHttpRequest := mHttpRequest st;
     mLoadedQ := mLoadedQ st;
     mUnavailableQ := v;
     mSkinInfoQ := mSkinInfoQ st;
     mSkinUnavailableQ := mSkinUnavailableQ st;
     mDecompositionQ := mDecompositionQ st;
     mSkinMap := mSkinMap st;
     mMeshThreadPool := mMeshThreadPool st;
     mWorkQueue := mWorkQueue st;
     mShuttingDown := mShuttingDown st;
     mGetMeshCapability := mGetMeshCapability st;
     mLegacyGetMeshCapability := mLegacyGetMeshCapability st;
     mLegacyGetMesh2Capability := mLegacyGetMesh2Capability st;
     mLegacyGetMeshVersion := mLegacyGetMeshVersion st;
     mCounters := mCounters st;
     mDisk := mDisk st |}.

Definition with_mSkinInfoQ v (st : LLMeshRepoThread) : LLMeshRepoThread :=
  {| mMeshHeader := mMeshHeader st;
     mPendingLOD := mPendingLOD st;
     mSkinRequests := mSkinRequests st;
     mLODReqQ := mLODReqQ st;
     mHeaderReqQ := mHeaderReqQ st;
     mHttpRequestSet := mHttpRequestSet st;
     mHttpRequest := mHttpRequest st;
     mLoadedQ := mLoadedQ st;
     mUnavailableQ := mUnavailableQ st;
     mSkinInfoQ := v;
     mSkinUnavailableQ := mSkinUnavailableQ st;
     mDecompositionQ := mDecompositionQ st;
     mSkinMap := mSkinMap st;
     mMeshThreadPool := mMeshThreadPool st;
     mWorkQueue := mWorkQueue st;
     mShuttingDown := mShuttingDown st;
     mGetMeshCapability := mGetMeshCapability st;
     mLegacyGetMeshCapability := mLegacyGetMeshCapability st;
     mLegacyGetMesh2Capability := mLegacyGetMesh2Capability st;
     mLegacyGetMeshVersion := mLegacyGetMeshVersion st;
     mCounters := mCounters st;
     mDisk := mDisk st |}.

Definition with_mSkinUnavailableQ v (st : LLMeshRepoThread) : LLMeshRepoThread :=
  {| mMeshHeader := mMeshHeader st;
     mPendingLOD := mPendingLOD st;
     mSkinRequests := mSkinRequests st;
     mLODReqQ := mLODReqQ st;
     mHeaderReqQ := mHeaderReqQ st;
     mHttpRequestSet := mHttpRequestSet st;
     mHttpRequest := mHttpRequest st;
     mLoadedQ := mLoadedQ st;
     mUnavailableQ := mUnavailableQ st;
     mSkinInfoQ := mSkinInfoQ st;
     mSkinUnavailableQ := v;
     mDecompositionQ := mDecompositionQ st;
     mSkinMap := mSkinMap st;
     mMeshThreadPool := mMeshThreadPool st;
     mWorkQueue := mWorkQueue st;
     mShuttingDown := mShuttingDown st;
     mGetMeshCapability := mGetMeshCapability st;
     mLegacyGetMeshCapability := mLegacyGetMeshCapability st;
     mLegacyGetMesh2Capability := mLegacyGetMesh2Capability st;
     mLegacyGetMeshVersion := mLegacyGetMeshVersion st;
     mCounters := mCounters st;
     mDisk := mDisk st |}.

Definition with_mDecompositionQ v (st : LLMeshRepoThread) : LLMeshRepoThread :=
  {| mMeshHeader := mMeshHeader st;
     mPendingLOD := mPendingLOD st;
     mSkinRequests := mSkinRequests st;
     mLODReqQ := mLODReqQ st;
     mHeaderReqQ := mHeaderReqQ st;
     mHttpRequestSet := mHttpRequestSet st;
     mHttpRequest := mHttpRequest st;
     mLoadedQ := mLoadedQ st;
     mUnavailableQ := mUnavailableQ st;
     mSkinInfoQ := mSkinInfoQ st;
     mSkinUnavailableQ := mSkinUnavailableQ st;
     mDecompositionQ := v;
     mSkinMap := mSkinMap st;
     mMeshThreadPool := mMeshThreadPool st;
     mWorkQueue := mWorkQueue st;
     mShuttingDown := mShuttingDown st;
     mGetMeshCapability := mGetMeshCapability st;
     mLegacyGetMeshCapability := mLegacyGetMeshCapability st;
     mLegacyGetMesh2Capability := mLegacyGetMesh2Capability st;
     mLegacyGetMeshVersion := mLegacyGetMeshVersion st;
     mCounters := mCounters st;
     mDisk := mDisk st |}.

Definition with_mSkinMap v (st : LLMeshRepoThread) : LLMeshRepoThread :=
  {| mMeshHeader := mMeshHeader st;
     mPendingLOD := mPendingLOD st;
     mSkinRequests := mSkinRequests st;
     mLODReqQ := mLODReqQ st;
     mHeaderReqQ := mHeaderReqQ st;
     mHttpRequestSet := mHttpRequestSet st;
     mHttpRequest := mHttpRequest st;
     mLoadedQ := mLoadedQ st;
     mUnavailableQ := mUnavailableQ st;
     mSkinInfoQ := mSkinInfoQ st;
     mSkinUnavailableQ := mSkinUnavailableQ st;
     mDecompositionQ := mDecompositionQ st;
     mSkinMap := v;
     mMeshThreadPool := mMeshThreadPool st;
     mWorkQueue := mWorkQueue st;
     mShuttingDown := mShuttingDown st;
     mGetMeshCapability := mGetMeshCapability st;
     mLegacyGetMeshCapability := mLegacyGetMeshCapability st;
     mLegacyGetMesh2Capability := mLegacyGetMesh2Capability st;
     mLegacyGetMeshVersion := mLegacyGetMeshVersion st;
     mCounters := mCounters st;
     mDisk := mDisk st |}.

Definition with_mMeshThreadPool v (st : LLMeshRepoThread) : LLMeshRepoThread :=
  {| mMeshHeader := mMeshHeader st;
     mPendingLOD := mPendingLOD st;
     mSkinRequests := mSkinRequests st;
     mLODReqQ := mLODReqQ st;
     mHeaderReqQ := mHeaderReqQ st;
     mHttpRequestSet := mHttpRequestSet st;
     mHttpRequest := mHttpRequest st;
     mLoadedQ := mLoadedQ st;
     mUnavailableQ := mUnavailableQ st;
     mSkinInfoQ := mSkinInfoQ st;
     mSkinUnavailableQ := mSkinUnavailableQ st;
     mDecompositionQ := mDecompositionQ st;
     mSkinMap := mSkinMap st;
     mMeshThreadPool := v;
     mWorkQueue := mWorkQueue st;
     mShuttingDown := mShuttingDown st;
     mGetMeshCapability := mGetMeshCapability st;
     mLegacyGetMeshCapability := mLegacyGetMeshCapability st;
     mLegacyGetMesh2Capability := mLegacyGetMesh2Capability st;
     mLegacyGetMeshVersion := mLegacyGetMeshVersion st;
     mCounters := mCounters st;
     mDisk := mDisk st |}.

Definition with_mWorkQueue v (st : LLMeshRepoThread) : LLMeshRepoThread :=
  {| mMeshHeader := mMeshHeader st;
     mPendingLOD := mPendingLOD st;
     mSkinRequests := mSkinRequests st;
     mLODReqQ := mLODReqQ st;
     mHeaderReqQ := mHeaderReqQ st;
     mHttpRequestSet := mHttpRequestSet st;
     mHttpRequest := mHttpRequest st;
     mLoadedQ := mLoadedQ st;
     mUnavailableQ := mUnavailableQ st;
     mSkinInfoQ := mSkinInfoQ st;
     mSkinUnavailableQ := mSkinUnavailableQ st;
     mDecompositionQ := mDecompositionQ st;
     mSkinMap := mSkinMap st;
     mMeshThreadPool := mMeshThreadPool st;
     mWorkQueue := v;
     mShuttingDown := mShuttingDown st;
     mGetMeshCapability := mGetMeshCapability st;
     mLegacyGetMeshCapability := mLegacyGetMeshCapability st;
     mLegacyGetMesh2Capability := mLegacyGetMesh2Capability st;
     mLegacyGetMeshVersion := mLegacyGetMeshVersion st;
     mCounters := mCounters st;
     mDisk := mDisk st |}.

Definition with_mCounters v (st : LLMeshRepoThread) : LLMeshRepoThread :=
  {| mMeshHeader := mMeshHeader st;
     mPendingLOD := mPendingLOD st;
     mSkinRequests := mSkinRequests st;
     mLODReqQ := mLODReqQ st;
     mHeaderReqQ := mHeaderReqQ st;
     mHttpRequestSet := mHttpRequestSet st;
     mHttpRequest := mHttpRequest st;
     mLoadedQ := mLoadedQ st;
     mUnavailableQ := mUnavailableQ st;
     mSkinInfoQ := mSkinInfoQ st;
     mSkinUnavailableQ := mSkinUnavailableQ st;
     mDecompositionQ := mDecompositionQ st;
     mSkinMap := mSkinMap st;
     mMeshThreadPool := mMeshThreadPool st;
     mWorkQueue := mWorkQueue st;
     mShuttingDown := mShuttingDown st;
     mGetMeshCapability := mGetMeshCapability st;
     mLegacyGetMeshCapability := mLegacyGetMeshCapability st;
     mLegacyGetMesh2Capability := mLegacyGetMesh2Capability st;
     mLegacyGetMeshVersion := mLegacyGetMeshVersion st;
     mCounters := v;
     mDisk := mDisk st |}.

Definition with_mDisk v (st : LLMeshRepoThread) : LLMeshRepoThread :=
  {| mMeshHeader := mMeshHeader st;
     mPendingLOD := mPendingLOD st;
     mSkinRequests := mSkinRequests st;
     mLODReqQ := mLODReqQ st;
     mHeaderReqQ := mHeaderReqQ st;
     mHttpRequestSet := mHttpRequestSet st;
     mHttpRequest := mHttpRequest st;
     mLoadedQ := mLoadedQ st;
     mUnavailableQ := mUnavailableQ st;
     mSkinInfoQ := mSkinInfoQ st;
     mSkinUnavailableQ := mSkinUnavailableQ st;
     mDecompositionQ := mDecompositionQ st;
     mSkinMap := mSkinMap st;
     mMeshThreadPool := mMeshThreadPool st;
     mWorkQueue := mWorkQueue st;
     mShuttingDown := mShuttingDown st;
     mGetMeshCapability := mGetMeshCapability st;
     mLegacyGetMeshCapability := mLegacyGetMeshCapability st;
     mLegacyGetMesh2Capability := mLegacyGetMesh2Capability st;
     mLegacyGetMeshVersion := mLegacyGetMeshVersion st;
     mCounters := mCounters st;
     mDisk := v |}.


(** Counter updates; the request and cache counters are [U32], the
    active-request counters [S32]. *)

Definition add_sMeshRequestCount (d : Z) (c : Counters) : Counters :=
  {| sMeshRequestCount := wrapU32 (sMeshRequestCount c + d);
     sHTTPRequestCount := sHTTPRequestCount c;
     sHTTPLargeRequestCount := sHTTPLargeRequestCount c;
     sLODProcessing := sLODProcessing c;
     sCacheBytesRead := sCacheBytesRead c;
     sCacheReads := sCacheReads c;
     sCacheBytesWritten := sCacheBytesWritten c;
     sCacheBytesHeaders := sCacheBytesHeaders c;
     sCacheWrites := sCacheWrites c;
     sHTTPRetryCount := sHTTPRetryCount c;
     sHTTPErrorCount := sHTTPErrorCount c;
     sBytesReceived := sBytesReceived c;
     sActiveHeaderRequests := sActiveHeaderRequests c;
     sActiveLODRequests := sActiveLODRequests c;
     sActiveSkinRequests := sActiveSkinRequests c |}.

Definition add_sHTTPRequestCount (d : Z) (c : Counters) : Counters :=
  {| sMeshRequestCount := sMeshRequestCount c;
     sHTTPRequestCount := wrapU32 (sHTTPRequestCount c + d);
     sHTTPLargeRequestCount := sHTTPLargeRequestCount c;
     sLODProcessing := sLODProcessing c;
     sCacheBytesRead := sCacheBytesRead c;
     sCacheReads := sCacheReads c;
     sCacheBytesWritten := sCacheBytesWritten c;
     sCacheBytesHeaders := sCacheBytesHeaders c;
     sCacheWrites := sCacheWrites c;
     sHTTPRetryCount := sHTTPRetryCount c;
     sHTTPErrorCount := sHTTPErrorCount c;
     sBytesReceived := sBytesReceived c;
     sActiveHeaderRequests := sActiveHeaderRequests c;
     sActiveLODRequests := sActiveLODRequests c;
     sActiveSkinRequests := sActiveSkinRequests c |}.

Definition add_sHTTPLargeRequestCount (d : Z) (c : Counters) : Counters :=
  {| sMeshRequestCount := sMeshRequestCount c;
     sHTTPRequestCount := sHTTPRequestCount c;
     sHTTPLargeRequestCount := wrapU32 (sHTTPLargeRequestCount c + d);
     sLODProcessing := sLODProcessing c;
     sCacheBytesRead := sCacheBytesRead c;
     sCacheReads := sCacheReads c;
     sCacheBytesWritten := sCacheBytesWritten c;
     sCacheBytesHeaders := sCacheBytesHeaders c;
     sCacheWrites := sCacheWrites c;
     sHTTPRetryCount := sHTTPRetryCount c;
     sHTTPErrorCount := sHTTPErrorCount c;
     sBytesReceived := sBytesReceived c;
     sActiveHeaderRequests := sActiveHeaderRequests c;
     sActiveLODRequests := sActiveLODRequests c;
     sActiveSkinRequests := sActiveSkinRequests c |}.

Definition add_sLODProcessing (d : Z) (c : Counters) : Counters :=
  {| sMeshRequestCount := sMeshRequestCount c;
     sHTTPRequestCount := sHTTPRequestCount c;
     sHTTPLargeRequestCount := sHTTPLargeRequestCount c;
     sLODProcessing := wrapU32 (sLODProcessing c + d);
     sCacheBytesRead := sCacheBytesRead c;
     sCacheReads := sCacheReads c;
     sCacheBytesWritten := sCacheBytesWritten c;
     sCacheBytesHeaders := sCacheBytesHeaders c;
     sCacheWrites := sCacheWrites c;
     sHTTPRetryCount := sHTTPRetryCount c;
     sHTTPErrorCount := sHTTPErrorCount c;
     sBytesReceived := sBytesReceived c;
     sActiveHeaderRequests := sActiveHeaderRequests c;
     sActiveLODRequests := sActiveLODRequests c;
     sActiveSkinRequests := sActiveSkinRequests c |}.

Definition add_sCacheBytesRead (d : Z) (c : Counters) : Counters :=
  {| sMeshRequestCount := sMeshRequestCount c;
     sHTTPRequestCount := sHTTPRequestCount c;
     sHTTPLargeRequestCount := sHTTPLargeRequestCount c;
     sLODProcessing := sLODProcessing c;
     sCacheBytesRead := wrapU32 (sCacheBytesRead c + d);
     sCacheReads := sCacheReads c;
     sCacheBytesWritten := sCacheBytesWritten c;
     sCacheBytesHeaders := sCacheBytesHeaders c;
     sCacheWrites := sCacheWrites c;
     sHTTPRetryCount := sHTTPRetryCount c;
     sHTTPErrorCount := sHTTPErrorCount c;
     sBytesReceived := sBytesReceived c;
     sActiveHeaderRequests := sActiveHeaderRequests c;
     sActiveLODRequests := sActiveLODRequests c;
     sActiveSkinRequests := sActiveSkinRequests c |}.

Definition add_sCacheReads (d : Z) (c : Counters) : Counters :=
  {| sMeshRequestCount := sMeshRequestCount c;
     sHTTPRequestCount := sHTTPRequestCount c;
     sHTTPLargeRequestCount := sHTTPLargeRequestCount c;
     sLODProcessing := sLODProcessing c;
     sCacheBytesRead := sCacheBytesRead c;
     sCacheReads := wrapU32 (sCacheReads c + d);
     sCacheBytesWritten := sCacheBytesWritten c;
     sCacheBytesHeaders := sCacheBytesHeaders c;
     sCacheWrites := sCacheWrites c;
     sHTTPRetryCount := sHTTPRetryCount c;
     sHTTPErrorCount := sHTTPErrorCount c;
     sBytesReceived := sBytesReceived c;
     sActiveHeaderRequests := sActiveHeaderRequests c;
     sActiveLODRequests := sActiveLODRequests c;
     sActiveSkinRequests := sActiveSkinRequests c |}.

Definition add_sCacheBytesWritten (d : Z) (c : Counters) : Counters :=
  {| sMeshRequestCount := sMeshRequestCount c;
     sHTTPRequestCount := sHTTPRequestCount c;
     sHTTPLargeRequestCount := sHTTPLargeRequestCount c;
     sLODProcessing := sLODProcessing c;
     sCacheBytesRead := sCacheBytesRead c;
     sCacheReads := sCacheReads c;
     sCacheBytesWritten := wrapU32 (sCacheBytesWritten c + d);
     sCacheBytesHeaders := sCacheBytesHeaders c;
     sCacheWrites := sCacheWrites c;
     sHTTPRetryCount := sHTTPRetryCount c;
     sHTTPErrorCount := sHTTPErrorCount c;
     sBytesReceived := sBytesReceived c;
     sActiveHeaderRequests := sActiveHeaderRequests c;
     sActiveLODRequests := sActiveLODRequests c;
     sActiveSkinRequests := sActiveSkinRequests c |}.

Definition add_sCacheBytesHeaders (d : Z) (c : Counters) : Counters :=
  {| sMeshRequestCount := sMeshRequestCount c;
     sHTTPRequestCount := sHTTPRequestCount c;
     sHTTPLargeRequestCount := sHTTPLargeRequestCount c;
     sLODProcessing := sLODProcessing c;
     sCacheBytesRead := sCacheBytesRead c;
     sCacheReads := sCacheReads c;
     sCacheBytesWritten := sCacheBytesWritten c;
     sCacheBytesHeaders := wrapU32 (sCacheBytesHeaders c + d);
     sCacheWrites := sCacheWrites c;
     sHTTPRetryCount := sHTTPRetryCount c;
     sHTTPErrorCount := sHTTPErrorCount c;
     sBytesReceived := sBytesReceived c;
     sActiveHeaderRequests := sActiveHeaderRequests c;
     sActiveLODRequests := sActiveLODRequests c;
     sActiveSkinRequests := sActiveSkinRequests c |}.

Definition add_sCacheWrites (d : Z) (c : Counters) : Counters :=
  {| sMeshRequestCount := sMeshRequestCount c;
     sHTTPRequestCount := sHTTPRequestCount c;
     sHTTPLargeRequestCount := sHTTPLargeRequestCount c;
     sLODProcessing := sLODProcessing c;
     sCacheBytesRead := sCacheBytesRead c;
     sCacheReads := sCacheReads c;
     sCacheBytesWritten := sCacheBytesWritten c;
     sCacheBytesHeaders := sCacheBytesHeaders c;
     sCacheWrites := wrapU32 (sCacheWrites c + d);
     sHTTPRetryCount := sHTTPRetryCount c;
     sHTTPErrorCount := sHTTPErrorCount c;
     sBytesReceived := sBytesReceived c;
     sActiveHeaderRequests := sActiveHeaderRequests c;
     sActiveLODRequests := sActiveLODRequests c;
     sActiveSkinRequests := sActiveSkinRequests c |}.

Definition add_sHTTPRetryCount (d : Z) (c : Counters) : Counters :=
  {| sMeshRequestCount := sMeshRequestCount c;
     sHTTPRequestCount := sHTTPRequestCount c;
     sHTTPLargeRequestCount := sHTTPLargeRequestCount c;
     sLODProcessing := sLODProcessing c;
     sCacheBytesRead := sCacheBytesRead c;
     sCacheReads := sCacheReads c;
     sCacheBytesWritten := sCacheBytesWritten c;
     sCacheBytesHeaders := sCacheBytesHeaders c;
     sCacheWrites := sCacheWrites c;
     sHTTPRetryCount := wrapU32 (sHTTPRetryCount c + d);
     sHTTPErrorCount := sHTTPErrorCount c;
     sBytesReceived := sBytesReceived c;
     sActiveHeaderRequests := sActiveHeaderRequests c;
     sActiveLODRequests := sActiveLODRequests c;
     sActiveSkinRequests := sActiveSkinRequests c |}.

Definition add_sHTTPErrorCount (d : Z) (c : Counters) : Counters :=
  {| sMeshRequestCount := sMeshRequestCount c;
     sHTTPRequestCount := sHTTPRequestCount c;
     sHTTPLargeRequestCount := sHTTPLargeRequestCount c;
     sLODProcessing := sLODProcessing c;
     sCacheBytesRead := sCacheBytesRead c;
     sCacheReads := sCacheReads c;
     sCacheBytesWritten := sCacheBytesWritten c;
     sCacheBytesHeaders := sCacheBytesHeaders c;
     sCacheWrites := sCacheWrites c;
     sHTTPRetryCount := sHTTPRetryCount c;
     sHTTPErrorCount := wrapU32 (sHTTPErrorCount c + d);
     sBytesReceived := sBytesReceived c;
     sActiveHeaderRequests := sActiveHeaderRequests c;
     sActiveLODRequests := sActiveLODRequests c;
     sActiveSkinRequests := sActiveSkinRequests c |}.

Definition add_sBytesReceived (d : Z) (c : Counters) : Counters :=
  {| sMeshRequestCount := sMeshRequestCount c;
     sHTTPRequestCount := sHTTPRequestCount c;
     sHTTPLargeRequestCount := sHTTPLargeRequestCount c;
     sLODProcessing := sLODProcessing c;
     sCacheBytesRead := sCacheBytesRead c;
     sCacheReads := sCacheReads c;
     sCacheBytesWritten := sCacheBytesWritten c;
     sCacheBytesHeaders := sCacheBytesHeaders c;
     sCacheWrites := sCacheWrites c;
     sHTTPRetryCount := sHTTPRetryCount c;
     sHTTPErrorCount := sHTTPErrorCount c;
     sBytesReceived := wrapU32 (sBytesReceived c + d);
     sActiveHeaderRequests := sActiveHeaderRequests c;
     sActiveLODRequests := sActiveLODRequests c;
     sActiveSkinRequests := sActiveSkinRequests c |}.

Definition add_sActiveHeaderRequests (d : Z) (c : Counters) : Counters :=
  {| sMeshRequestCount := sMeshRequestCount c;
     sHTTPRequestCount := sHTTPRequestCount c;
     sHTTPLargeRequestCount := sHTTPLargeRequestCount c;
     sLODProcessing := sLODProcessing c;
     sCacheBytesRead := sCacheBytesRead c;
     sCacheReads := sCacheReads c;
     sCacheBytesWritten := sCacheBytesWritten c;
     sCacheBytesHeaders := sCacheBytesHeaders c;
     sCacheWrites := sCacheWrites c;
     sHTTPRetryCount := sHTTPRetryCount c;
     sHTTPErrorCount := sHTTPErrorCount c;
     sBytesReceived := sBytesReceived c;
     sActiveHeaderRequests := wrapS32 (sActiveHeaderRequests c + d);
     sActiveLODRequests := sActiveLODRequests c;
     sActiveSkinRequests := sActiveSkinRequests c |}.

Definition add_sActiveLODRequests (d : Z) (c : Counters) : Counters :=
  {| sMeshRequestCount := sMeshRequestCount c;
     sHTTPRequestCount := sHTTPRequestCount c;
     sHTTPLargeRequestCount := sHTTPLargeRequestCount c;
     sLODProcessing := sLODProcessing c;
     sCacheBytesRead := sCacheBytesRead c;
     sCacheReads := sCacheReads c;
     sCacheBytesWritten := sCacheBytesWritten c;
     sCacheBytesHeaders := sCacheBytesHeaders c;
     sCacheWrites := sCacheWrites c;
     sHTTPRetryCount := sHTTPRetryCount c;
     sHTTPErrorCount := sHTTPErrorCount c;
     sBytesReceived := sBytesReceived c;
     sActiveHeaderRequests := sActiveHeaderRequests c;
     sActiveLODRequests := wrapS32 (sActiveLODRequests c + d);
     sActiveSkinRequests := sActiveSkinRequests c |}.

Definition add_sActiveSkinRequests (d : Z) (c : Counters) : Counters :=
  {| sMeshRequestCount := sMeshRequestCount c;
     sHTTPRequestCount := sHTTPRequestCount c;
     sHTTPLargeRequestCount := sHTTPLargeRequestCount c;
     sLODProcessing := sLODProcessing c;
     sCacheBytesRead := sCacheBytesRead c;
     sCacheReads := sCacheReads c;
     sCacheBytesWritten := sCacheBytesWritten c;
     sCacheBytesHeaders := sCacheBytesHeaders c;
     sCacheWrites := sCacheWrites c;
     sHTTPRetryCount := sHTTPRetryCount c;
     sHTTPErrorCount := sHTTPErrorCount c;
     sBytesReceived := sBytesReceived c;
     sActiveHeaderRequests := sActiveHeaderRequests c;
     sActiveLODRequests := sActiveLODRequests c;
     sActiveSkinRequests := wrapS32 (sActiveSkinRequests c + d) |}.


Definition count (f : Counters -> Counters) (st : LLMeshRepoThread) : LLMeshRepoThread :=
  with_mCounters (f (mCounters st)) st.

(** ** The cache blob behind [LLFileSystem] *)

Definition file_getSize (st : LLMeshRepoThread) (id : LLUUID) : Z :=
  match mDisk st !! id with
  | Some b => Z.of_nat (length b)
  | None => 0
  end.

(** [file.seek(pos); file.read(buffer, n)] *)
Definition file_read (st : LLMeshRepoThread) (id : LLUUID) (pos n : Z) : buffer :=
  slice pos n (default [] (mDisk st !! id)).

(** Bytes written at [pos]; a position past the end pads with zeros. *)
Definition write_at (pos : Z) (data : buffer) (b : buffer) : buffer :=
  let p := Z.to_nat pos in
  take p b ++ replicate (p - length b)%nat x00 ++ data
         ++ drop (p + length data)%nat b.

Definition file_write (id : LLUUID) (pos : Z) (data : buffer)
    (st : LLMeshRepoThread) : LLMeshRepoThread :=
  with_mDisk (<[id := write_at pos data (default [] (mDisk st !! id))]> (mDisk st)) st.

Definition byte_of_Z (z : Z) : byte :=
  default x00 (Byte.of_N (Z.to_N (z mod 256))).

(** The four bytes of a 32-bit word as laid out in memory. *)
Definition le32 (z : Z) : buffer :=
  [byte_of_Z z; byte_of_Z (z / 2 ^ 8); byte_of_Z (z / 2 ^ 16); byte_of_Z (z / 2 ^ 24)].

(** [write_preamble(file, header_bytes, flags)] on a file just opened. *)
Definition write_preamble (id : LLUUID) (header_bytes flags : Z)
    (st : LLMeshRepoThread) : LLMeshRepoThread :=
  let st := count (add_sCacheBytesWritten CACHE_PREAMBLE_SIZE) st in
  file_write id 0 (le32 CACHE_PREAMBLE_VERSION ++ le32 header_bytes ++ le32 flags) st.

(** "make sure buffer isn't all 0's by checking the first 1KB": the
    value of [zero] when the loop ends. *)
Definition first_kb_zero (buf : buffer) (size : Z) : bool :=
  forallb (fun b => Byte.eqb b x00) (take (Z.to_nat (llmin size 1024)) buf).

(** ** Request entry points of the worker *)

Definition hasHeader (st : LLMeshRepoThread) (mesh_id : LLUUID) : bool :=
  bool_decide (is_Some (mMeshHeader st !! mesh_id)).

Definition loadMeshSkinInfo (mesh_id : LLUUID) (st : LLMeshRepoThread) : LLMeshRepoThread :=
  with_mSkinRequests (mSkinRequests st ++ [new_UUIDBasedRequest mesh_id]) st.

(** [mLODReqQ.push(req); sLODProcessing++] *)
Definition push_LODRequest (req : LODRequest) (st : LLMeshRepoThread) : LLMeshRepoThread :=
  count (add_sLODProcessing 1) (with_mLODReqQ (mLODReqQ st ++ [req]) st).

(** [LLMeshRepoThread::loadMeshLOD].  [None] stands for the undefined
    [array[lod]++] on a new pending entry when [lod] is not an index of
    the array. *)
Definition loadMeshLOD (mesh_params : LLVolumeParams) (lod : Z)
    (st : LLMeshRepoThread) : option LLMeshRepoThread :=
  let mesh_id := getSculptID mesh_params in
  if hasHeader st mesh_id then
    (* if we have the header, request LOD byte range *)
    Some (push_LODRequest (new_LODRequest mesh_params lod) st)
  else
    match mPendingLOD st !! mesh_id with
    | Some pending =>
      (* append this lod request to existing header request *)
      match lod_get pending lod with
      | Some n =>
        Some (with_mPendingLOD
                (<[mesh_id := lod_set pending lod (wrapS32 (n + 1))]> (mPendingLOD st)) st)
      | None => Some st                        (* "Invalid LOD request" *)
      end
    | None =>
      (* if no header request is pending, fetch header *)
      let array := lod_fill 0 in
      match lod_get array lod with
      | Some n =>
        let st := with_mPendingLOD
                    (<[mesh_id := lod_set array lod (wrapS32 (n + 1))]> (mPendingLOD st)) st in
        Some (with_mHeaderReqQ (mHeaderReqQ st ++ [new_HeaderRequest mesh_params]) st)
      | None => None
      end
    end.

Definition lockAndLoadMeshLOD (o : Oracle) (mesh_params : LLVolumeParams) (lod : Z)
    (st : LLMeshRepoThread) : option LLMeshRepoThread :=
  if negb (app_exiting o) then loadMeshLOD mesh_params lod st else Some st.

(** ** Capability URL and byte-range GET *)

Definition nonempty (s : string) : bool := negb (String.eqb s EmptyString).

Definition constructUrl (o : Oracle) (st : LLMeshRepoThread) (mesh_id : LLUUID) : string * Z :=
  if has_region o then
    let '(res_url, res_version) :=
      if nonempty (mGetMeshCapability st) && (mLegacyGetMeshVersion st =? 0)
      then (mGetMeshCapability st, 0)
      else if nonempty (mLegacyGetMesh2Capability st) && (1 <? mLegacyGetMeshVersion st)
      then (mLegacyGetMesh2Capability st, 2)
      else (mLegacyGetMeshCapability st, 1) in
    if nonempty res_url
    then (res_url +:+ "/?mesh_id=" +:+ asString mesh_id, res_version)
    else (res_url, res_version)
  else (EmptyString, 0).

(** [LLMeshRepoThread::getByteRange]: the handle, or [None] with
    nothing submitted. *)
Definition getByteRange (o : Oracle) (url : string) (legacy_cap_version : Z)
    (offset len : Z) (st : LLMeshRepoThread) : option Z * LLMeshRepoThread :=
  let off := if disable_range_req o then 0 else offset in
  let ln := if disable_range_req o then 0 else len in
  if len <? LARGE_MESH_FETCH_THRESHOLD then
    let policy := if (legacy_cap_version =? 0) || (legacy_cap_version =? 2)
                  then mHttpPolicyClass else mHttpLegacyPolicyClass in
    match http_handle o with
    | Some h =>
      (Some h,
       count (add_sHTTPRequestCount 1)
         (with_mHttpRequest
            (mHttpRequest st ++ [{| get_policy := policy; get_url := url;
                                    get_offset := off; get_len := ln |}]) st))
    | None => (None, st)
    end
  else
    match http_handle o with
    | Some h =>
      (Some h,
       count (add_sHTTPLargeRequestCount 1)
         (with_mHttpRequest
            (mHttpRequest st ++ [{| get_policy := mHttpLargePolicyClass; get_url := url;
                                    get_offset := off; get_len := ln |}]) st))
    | None => (None, st)
    end.

(** ** Handler construction and destruction *)

Definition new_handler (k : HandlerKind) (id : LLUUID) (offset requested_bytes : Z)
    : LLMeshHandlerBase :=
  {| hKind := k; hMeshID := id; mProcessed := false; mHttpHandle := 0;
     mOffset := wrapU32 offset; mRequestedBytes := wrapU32 requested_bytes |}.

Definition with_mHttpHandle (h : Z) (hd : LLMeshHandlerBase) : LLMeshHandlerBase :=
  {| hKind := hKind hd; hMeshID := hMeshID hd; mProcessed := mProcessed hd;
     mHttpHandle := h; mOffset := mOffset hd; mRequestedBytes := mRequestedBytes hd |}.

Definition with_mProcessed (b : bool) (hd : LLMeshHandlerBase) : LLMeshHandlerBase :=
  {| hKind := hKind hd; hMeshID := hMeshID hd; mProcessed := b;
     mHttpHandle := mHttpHandle hd; mOffset := mOffset hd;
     mRequestedBytes := mRequestedBytes hd |}.

(** The constructors of the header, LOD and skin handlers bump their
    active-request counter. *)
Definition construct_handler (k : HandlerKind) (st : LLMeshRepoThread) : LLMeshRepoThread :=
  match k with
  | LLMeshHeaderHandler => count (add_sActiveHeaderRequests 1) st
  | LLMeshLODHandler _ => count (add_sActiveLODRequests 1) st
  | LLMeshSkinInfoHandler => count (add_sActiveSkinRequests 1) st
  | _ => st
  end.

(** The destructors: a header or LOD handler that dies unprocessed
    puts its request back, unless the application is exiting. *)
Definition destroy_handler (o : Oracle) (hd : LLMeshHandlerBase)
    (st : LLMeshRepoThread) : option LLMeshRepoThread :=
  let params := {| getSculptID := hMeshID hd |} in
  match hKind hd with
  | LLMeshHeaderHandler =>
    if negb (app_exiting o) then
      let st := if negb (mProcessed hd)
                then with_mHeaderReqQ (mHeaderReqQ st ++ [new_HeaderRequest params]) st
                else st in
      Some (count (add_sActiveHeaderRequests (-1)) st)
    else Some st
  | LLMeshLODHandler lod =>
    if negb (app_exiting o) then
      st ← (if negb (mProcessed hd) then lockAndLoadMeshLOD o params lod st else Some st);
      Some (count (add_sActiveLODRequests (-1)) st)
    else Some st
  | LLMeshSkinInfoHandler => Some (count (add_sActiveSkinRequests (-1)) st)
  | LLMeshDecompositionHandler => Some st
  | LLMeshPhysicsShapeHandler => Some st
  end.

(** The tail shared by the five fetch functions once a URL is in
    hand: build the handler, ask for the byte range, and either keep
    the handler in [mHttpRequestSet] or let it go with [false]. *)
Definition issue_request (o : Oracle) (k : HandlerKind) (mesh_id : LLUUID)
    (http_url : string) (legacy_cap_version : Z) (offset size : Z)
    (st : LLMeshRepoThread) : option (bool * LLMeshRepoThread) :=
  let handler := new_handler k mesh_id offset size in
  let st := construct_handler k st in
  match getByteRange o http_url legacy_cap_version offset size st with
  | (None, st) =>
    st ← destroy_handler o handler st;
    Some (false, st)
  | (Some handle, st) =>
    Some (true, with_mHttpRequestSet
                  (mHttpRequestSet st ++ [with_mHttpHandle handle handler]) st)
  end.

(** ** Parsed results *)

Definition lodReceived (mesh_params : LLVolumeParams) (lod : Z)
    (data : option buffer) (data_size : Z) (st : LLMeshRepoThread)
    : EMeshProcessingResult * LLMeshRepoThread :=
  match data with
  | None => (MESH_NO_DATA, st)
  | Some data =>
    if data_size =? 0 then (MESH_NO_DATA, st)
    else
      match unpackVolumeFaces data data_size with
      | Some volume =>
        if 0 <? Z.of_nat (length volume) then
          (MESH_OK,
           with_mLoadedQ (mLoadedQ st ++ [{| lm_mVolume := volume;
                                             lm_mMeshParams := mesh_params;
                                             lm_mLOD := lod |}]) st)
        else (MESH_UNKNOWN, st)
      | None => (MESH_UNKNOWN, st)
      end
  end.

Definition skinInfoReceived (mesh_id : LLUUID) (data : buffer) (data_size : Z)
    (st : LLMeshRepoThread) : bool * LLMeshRepoThread :=
  let deliver skin :=
    let info := {| si_mMeshID := mesh_id; si_skin := skin |} in
    (* copy the skin info for the background thread *)
    let st := with_mSkinMap (<[mesh_id := info]> (mSkinMap st)) st in
    (true, with_mSkinInfoQ (mSkinInfoQ st ++ [info]) st) in
  if 0 <? data_size then
    match unzip_llsd data data_size with
    | None => (false, st)
    | Some skin => deliver skin
    end
  else deliver LLSD_undef.

Definition decompositionReceived (mesh_id : LLUUID) (data : buffer) (data_size : Z)
    (st : LLMeshRepoThread) : bool * LLMeshRepoThread :=
  let deliver decomp :=
    (true, with_mDecompositionQ
             (mDecompositionQ st ++ [{| dc_mMeshID := mesh_id;
                                        dc_decomp := Some decomp;
                                        dc_mPhysicsShapeMesh := [] |}]) st) in
  if 0 <? data_size then
    match unzip_llsd data data_size with
    | None => (false, st)
    | Some decomp => deliver decomp
    end
  else deliver LLSD_undef.

Definition physicsShapeReceived (mesh_id : LLUUID) (data : option buffer) (data_size : Z)
    (st : LLMeshRepoThread) : EMeshProcessingResult * LLMeshRepoThread :=
  let positions :=
    match data with
    | None => []                       (* no data, no physics shape exists *)
    | Some data =>
      match unpackVolumeFaces data data_size with
      | Some volume => concat volume
      | None => []
      end
    end in
  (MESH_OK,
   with_mDecompositionQ
     (mDecompositionQ st ++ [{| dc_mMeshID := mesh_id; dc_decomp := None;
                                dc_mPhysicsShapeMesh := positions |}]) st).

(** ** Sub-section fetches

    Each function returns the C++ result and the new state; [None]
    stands for undefined behaviour (an array index outside the LOD
    arrays).  The worker object is alive, so its mutexes are not null. *)

(** The sub-section's place in the asset and in the cache blob, read
    from a header whose size is not zero. *)
Definition subsection_ok (version offset size : Z) : bool :=
  (version <=? MAX_MESH_VERSION) && (0 <=? offset) && (0 <? size).

Definition cache_covers (st : LLMeshRepoThread) (mesh_id : LLUUID)
    (in_cache : bool) (disk_ofset size : Z) : bool :=
  in_cache && (wrapS32 (disk_ofset + size) <=? file_getSize st mesh_id).

Definition fetchMeshSkinInfo (o : Oracle) (mesh_id : LLUUID) (st : LLMeshRepoThread)
    : option (bool * LLMeshRepoThread) :=
  match mMeshHeader st !! mesh_id with
  | None => Some (false, st)   (* we have no header info for this mesh, do nothing *)
  | Some header =>
    let st := count (add_sMeshRequestCount 1) st in
    let header_size := wrapU32 (mHeaderSize header) in
    if 0 <? header_size then
      let version := mVersion header in
      let offset := wrapS32 (header_size + mSkinOffset header) in
      let size := mSkinSize header in
      let in_cache := mSkinInCache header in
      if subsection_ok version offset size then
        let from_sim st :=
          (* reading from cache failed for whatever reason, fetch from sim *)
          let '(http_url, legacy_cap_version) := constructUrl o st mesh_id in
          if nonempty http_url then
            issue_request o LLMeshSkinInfoHandler mesh_id http_url legacy_cap_version
                          offset size st
          else
            Some (true, with_mSkinUnavailableQ
                          (mSkinUnavailableQ st ++ [new_UUIDBasedRequest mesh_id]) st) in
        (* check cache for mesh skin info *)
        let disk_ofset := wrapS32 (offset + CACHE_PREAMBLE_SIZE) in
        if cache_covers st mesh_id in_cache disk_ofset size then
          if negb (new_ok o) then
            Some (true, with_mSkinUnavailableQ
                          (mSkinUnavailableQ st ++ [new_UUIDBasedRequest mesh_id]) st)
          else
            let st := count (add_sCacheReads 1) (count (add_sCacheBytesRead size) st) in
            let buffer := file_read st mesh_id disk_ofset size in
            if negb (first_kb_zero buffer size) then
              (* attempt to parse *)
              if post_ok o then
                Some (true, with_mMeshThreadPool
                              (mMeshThreadPool st ++ [CachedSkinTask mesh_id buffer size]) st)
              else
                match skinInfoReceived mesh_id buffer size st with
                | (true, st) => Some (true, st)
                | (false, st) => from_sim st
                end
            else from_sim st
        else from_sim st
      else
        Some (true, with_mSkinUnavailableQ
                      (mSkinUnavailableQ st ++ [new_UUIDBasedRequest mesh_id]) st)
    else Some (true, st)
  end.

Definition fetchMeshDecomposition (o : Oracle) (mesh_id : LLUUID) (st : LLMeshRepoThread)
    : option (bool * LLMeshRepoThread) :=
  match mMeshHeader st !! mesh_id with
  | None => Some (false, st)
  | Some header =>
    let st := count (add_sMeshRequestCount 1) st in
    let header_size := wrapU32 (mHeaderSize header) in
    if 0 <? header_size then
      let version := mVersion header in
      let offset := wrapS32 (header_size + mPhysicsConvexOffset header) in
      let size := mPhysicsConvexSize header in
      let in_cache := mPhysicsConvexInCache header in
      if subsection_ok version offset size then
        let from_sim st :=
          let '(http_url, legacy_cap_version) := constructUrl o st mesh_id in
          if nonempty http_url then
            issue_request o LLMeshDecompositionHandler mesh_id http_url legacy_cap_version
                          offset size st
          else Some (true, st) in
        (* check cache for mesh decomposition *)
        let disk_ofset := wrapS32 (offset + CACHE_PREAMBLE_SIZE) in
        if cache_covers st mesh_id in_cache disk_ofset size then
          if negb (new_ok o) then Some (true, st)       (* getDiskCacheBuffer gave NULL *)
          else
            let st := count (add_sCacheReads 1) (count (add_sCacheBytesRead size) st) in
            let buffer := file_read st mesh_id disk_ofset size in
            if negb (first_kb_zero buffer size) then
              match decompositionReceived mesh_id buffer size st with
              | (true, st) => Some (true, st)
              | (false, st) => from_sim st
              end
            else from_sim st
        else from_sim st
      else Some (true, st)
    else Some (true, st)
  end.

Definition fetchMeshPhysicsShape (o : Oracle) (mesh_id : LLUUID) (st : LLMeshRepoThread)
    : option (bool * LLMeshRepoThread) :=
  match mMeshHeader st !! mesh_id with
  | None => Some (false, st)
  | Some header =>
    let st := count (add_sMeshRequestCount 1) st in
    let header_size := wrapU32 (mHeaderSize header) in
    if 0 <? header_size then
      let version := mVersion header in
      let offset := wrapS32 (header_size + mPhysicsMeshOffset header) in
      let size := mPhysicsMeshSize header in
      let in_cache := mPhysicsMeshInCache header in
      if subsection_ok version offset size then
        let from_sim st :=
          let '(http_url, legacy_cap_version) := constructUrl o st mesh_id in
          if nonempty http_url then
            issue_request o LLMeshPhysicsShapeHandler mesh_id http_url legacy_cap_version
                          offset size st
          else Some (true, st) in
        (* check cache for mesh physics shape info *)
        let disk_ofset := wrapS32 (offset + CACHE_PREAMBLE_SIZE) in
        if cache_covers st mesh_id in_cache disk_ofset size then
          let st := count (add_sCacheReads 1) (count (add_sCacheBytesRead size) st) in
          if negb (new_ok o) then Some (true, st)       (* getDiskCacheBuffer gave NULL *)
          else
            let buffer := file_read st mesh_id disk_ofset size in
            if negb (first_kb_zero buffer size) then
              match physicsShapeReceived mesh_id (Some buffer) size st with
              | (MESH_OK, st) => Some (true, st)
              | (_, st) => from_sim st
              end
            else from_sim st
        else from_sim st
      else
        (* no physics shape whatsoever, report back NULL *)
        Some (true, snd (physicsShapeReceived mesh_id None 0 st))
    else Some (true, st)
  end.

Definition fetchMeshLOD (o : Oracle) (mesh_params : LLVolumeParams) (lod : Z)
    (st : LLMeshRepoThread) : option (bool * LLMeshRepoThread) :=
  let mesh_id := getSculptID mesh_params in
  match mMeshHeader st !! mesh_id with
  | None => Some (false, st)   (* we have no header info for this mesh, do nothing *)
  | Some header =>
    let st := count (add_sMeshRequestCount 1) st in
    let header_size := wrapU32 (mHeaderSize header) in
    if 0 <? header_size then
      let version := mVersion header in
      lod_offset ← lod_get (mLodOffset header) lod;
      size ← lod_get (mLodSize header) lod;
      in_cache ← lod_get (mLodInCache header) lod;
      let offset := wrapS32 (header_size + lod_offset) in
      if subsection_ok version offset size then
        let from_sim st :=
          (* reading from cache failed for whatever reason, fetch from sim *)
          let '(http_url, legacy_cap_version) := constructUrl o st mesh_id in
          if nonempty http_url then
            issue_request o (LLMeshLODHandler lod) mesh_id http_url legacy_cap_version
                          offset size st
          else
            Some (true, with_mUnavailableQ
                          (mUnavailableQ st ++ [new_LODRequest mesh_params lod]) st) in
        let disk_ofset := wrapS32 (offset + CACHE_PREAMBLE_SIZE) in
        (* check cache for mesh asset *)
        if cache_covers st mesh_id in_cache disk_ofset size then
          if negb (new_ok o) then
            Some (true, with_mUnavailableQ
                          (mUnavailableQ st ++ [new_LODRequest mesh_params lod]) st)
          else
            let st := count (add_sCacheReads 1) (count (add_sCacheBytesRead size) st) in
            let buffer := file_read st mesh_id disk_ofset size in
            if negb (first_kb_zero buffer size) then
              (* attempt to parse *)
              if post_ok o then
                Some (true, with_mMeshThreadPool
                              (mMeshThreadPool st ++ [CachedLodTask mesh_params lod buffer size]) st)
              else
                match lodReceived mesh_params lod (Some buffer) size st with
                | (MESH_OK, st) => Some (true, st)
                | (_, st) => from_sim st
                end
            else from_sim st
        else from_sim st
      else
        Some (true, with_mUnavailableQ
                      (mUnavailableQ st ++ [new_LODRequest mesh_params lod]) st)
    else Some (true, st)
  end.

(** ** Parse-pool tasks posted by the cache reads

    "either header is faulty or something else overwrote the cache":
    a cached block that does not parse clears every presence bit,
    rewrites the preamble and queues the request again. *)

Definition invalidate_cache_flags (mesh_id : LLUUID) (st : LLMeshRepoThread)
    : LLMeshRepoThread :=
  match mMeshHeader st !! mesh_id with
  | Some header =>
    (* for safety just mark everything as missing *)
    let header := clear_in_cache header in
    let st := with_mMeshHeader (<[mesh_id := header]> (mMeshHeader st)) st in
    let header_size := mHeaderSize header in
    let header_flags := getFlags header in
    if (0 <? header_size) && (CACHE_PREAMBLE_SIZE <=? getMaxSize)
    then write_preamble mesh_id header_size header_flags st
    else st
  | None => st
  end.

Definition run_pool_task (t : PoolTask) (st : LLMeshRepoThread) : LLMeshRepoThread :=
  if mShuttingDown st then st
  else
    match t with
    | CachedLodTask params lod buffer size =>
      match lodReceived params lod (Some buffer) size st with
      | (MESH_OK, st) => st
      | (_, st) =>
        let st := invalidate_cache_flags (getSculptID params) st in
        push_LODRequest (new_LODRequest params lod) st
      end
    | CachedSkinTask mesh_id buffer size =>
      match skinInfoReceived mesh_id buffer size st with
      | (true, st) => st
      | (false, st) =>
        let st := invalidate_cache_flags mesh_id st in
        with_mSkinRequests (mSkinRequests st ++ [new_UUIDBasedRequest mesh_id]) st
      end
    end.

(** ** Registry state

    The members of [LLMeshRepository] (the [gMeshRepo] singleton) the
    request path uses, with the worker it owns. *)

Inductive PendingRequest :=
| PendingRequestLOD (mesh_params : LLVolumeParams) (lod : Z)
| PendingRequestUUID (id : LLUUID).          (* MESH_REQUEST_SKIN *)

(** Modelled from the spec: [MeshLoadData] with its [initData] and
    [addVolume], declared with the repository class outside this
    translation unit.  It lists the objects waiting on a request; an
    object pointer is a number. *)
Record MeshLoadData := {
  mVolumes : list N;
  mRequest : option PendingRequest
}.

Definition MeshLoadData_empty : MeshLoadData := {| mVolumes := []; mRequest := None |}.

Definition initData (vobj : N) (request : PendingRequest) (d : MeshLoadData) : MeshLoadData :=
  {| mVolumes := mVolumes d ++ [vobj]; mRequest := Some request |}.

Definition addVolume (vobj : N) (d : MeshLoadData) : MeshLoadData :=
  {| mVolumes := mVolumes d ++ [vobj]; mRequest := mRequest d |}.

(** A skin descriptor held through an [LLPointer], with the number of
    references to it at the time of reading. *)
Record SkinRef := {
  sr_info : LLMeshSkinInfo;
  getNumRefs : Z
}.

Record LLMeshRepository := {
  mLoadingMeshes : Lods (gmap LLUUID MeshLoadData);
  mLoadingSkins : gmap LLUUID MeshLoadData;
  mPendingRequests : list PendingRequest;
  gMeshRepo_mSkinMap : gmap LLUUID SkinRef;     (* LLMeshRepository::mSkinMap *)
  sLODPending : Z;
  mThread : LLMeshRepoThread
}.

Definition with_mLoadingMeshes v (R : LLMeshRepository) : LLMeshRepository :=
  {| mLoadingMeshes := v; mLoadingSkins := mLoadingSkins R;
     mPendingRequests := mPendingRequests R;
     gMeshRepo_mSkinMap := gMeshRepo_mSkinMap R;
     sLODPending := sLODPending R; mThread := mThread R |}.

Definition with_mLoadingSkins v (R : LLMeshRepository) : LLMeshRepository :=
  {| mLoadingMeshes := mLoadingMeshes R; mLoadingSkins := v;
     mPendingRequests := mPendingRequests R;
     gMeshRepo_mSkinMap := gMeshRepo_mSkinMap R;
     sLODPending := sLODPending R; mThread := mThread R |}.

Definition with_mPendingRequests v (R : LLMeshRepository) : LLMeshRepository :=
  {| mLoadingMeshes := mLoadingMeshes R; mLoadingSkins := mLoadingSkins R;
     mPendingRequests := v;
     gMeshRepo_mSkinMap := gMeshRepo_mSkinMap R;
     sLODPending := sLODPending R; mThread := mThread R |}.

Definition with_gMeshRepo_mSkinMap v (R : LLMeshRepository) : LLMeshRepository :=
  {| mLoadingMeshes := mLoadingMeshes R; mLoadingSkins := mLoadingSkins R;
     mPendingRequests := mPendingRequests R;
     gMeshRepo_mSkinMap := v;
     sLODPending := sLODPending R; mThread := mThread R |}.

Definition with_sLODPending v (R : LLMeshRepository) : LLMeshRepository :=
  {| mLoadingMeshes := mLoadingMeshes R; mLoadingSkins := mLoadingSkins R;
     mPendingRequests := mPendingRequests R;
     gMeshRepo_mSkinMap := gMeshRepo_mSkinMap R;
     sLODPending := v; mThread := mThread R |}.

Definition with_mThread v (R : LLMeshRepository) : LLMeshRepository :=
  {| mLoadingMeshes := mLoadingMeshes R; mLoadingSkins := mLoadingSkins R;
     mPendingRequests := mPendingRequests R;
     gMeshRepo_mSkinMap := gMeshRepo_mSkinMap R;
     sLODPending := sLODPending R; mThread := v |}.

(** ** Header parsing *)

(** The locals of [headerReceived] that outlive the parse:
    [header_size], [skin_offset], [skin_size], [lod_offset] and
    [lod_size]; an aggregate initialiser [{ -1 }] sets the first
    element only. *)
Record ParsedLocals := {
  pl_header_size : Z;
  pl_skin_offset : Z;
  pl_skin_size : Z;
  pl_lod_offset : Lods Z;
  pl_lod_size : Lods Z
}.

Definition locals_init (header_size : Z) : ParsedLocals :=
  {| pl_header_size := header_size; pl_skin_offset := -1; pl_skin_size := -1;
     pl_lod_offset := mkLods (-1) 0 0 0; pl_lod_size := mkLods (-1) 0 0 0 |}.

(** The presence bits derived from the bytes in hand when the caller
    supplied no flags word. *)
Definition fits_inside (header_size offset size data_size : Z) : bool :=
  (0 <? size) && (header_size + offset + size <? data_size).

Definition mark_in_cache (header_size data_size : Z) (h : LLMeshHeader) : LLMeshHeader :=
  let lod_bit (offset size : Z) (bit : bool) :=
    fits_inside header_size offset size data_size || bit in
  set_in_cache
    (fits_inside header_size (mSkinOffset h) (mSkinSize h) data_size || mSkinInCache h)
    (fits_inside header_size (mPhysicsConvexOffset h) (mPhysicsConvexSize h) data_size
     || mPhysicsConvexInCache h)
    (fits_inside header_size (mPhysicsMeshOffset h) (mPhysicsMeshSize h) data_size
     || mPhysicsMeshInCache h)
    (mkLods
       (lod_bit (lowest_lod (mLodOffset h)) (lowest_lod (mLodSize h))
                (lowest_lod (mLodInCache h)))
       (lod_bit (low_lod (mLodOffset h)) (low_lod (mLodSize h))
                (low_lod (mLodInCache h)))
       (lod_bit (medium_lod (mLodOffset h)) (medium_lod (mLodSize h))
                (medium_lod (mLodInCache h)))
       (lod_bit (high_lod (mLodOffset h)) (high_lod (mLodSize h))
                (high_lod (mLodInCache h))))
    h.

(** The header record and the locals once the decoded map has been
    through the version and LOD gates. *)
Definition gate_header (h : LLMeshHeader) (tellg : Z) (header_size0 : Z)
    (data_size : Z) (flags : Z) : LLMeshHeader * ParsedLocals :=
  if MAX_MESH_VERSION <? mVersion h then
    (set_m404 true h, locals_init header_size0)
  else
    (* make sure there is at least one lod *)
    let '(actual, h) := getActualMeshLOD h 0 in
    if 0 <=? actual then
      let h := set_mHeaderSize (wrapS32 tellg) h in
      let header_size := header_size0 + mHeaderSize h in
      let locals := {| pl_header_size := header_size;
                       pl_skin_offset := mSkinOffset h;
                       pl_skin_size := mSkinSize h;
                       pl_lod_offset := mLodOffset h;
                       pl_lod_size := mLodSize h |} in
      if negb (flags =? 0) then (setFromFlags flags h, locals)
      else (mark_in_cache header_size data_size h, locals)
    else (h, locals_init header_size0).

(** The skin block: "immediately request SkinInfo since we'll need it
    before we can render any LoD if it is present". *)
Definition header_skin (mesh_id : LLUUID) (data : buffer) (data_size : Z)
    (l : ParsedLocals) (R : LLMeshRepository) : LLMeshRepository :=
  if (0 <=? pl_skin_offset l) && (0 <? pl_skin_size l) then
    let R := match mLoadingSkins R !! mesh_id with
             | None => with_mLoadingSkins (<[mesh_id := MeshLoadData_empty]> (mLoadingSkins R)) R
             | Some _ => R
             end in
    let offset := wrapS32 (wrapS32 (pl_header_size l) + pl_skin_offset l) in
    let '(request_skin, st) :=
      if wrapS32 (offset + pl_skin_size l) <? data_size then
        let '(ok, st) := skinInfoReceived mesh_id (slice offset (pl_skin_size l) data)
                                          (pl_skin_size l) (mThread R) in
        (negb ok, st)
      else (true, mThread R) in
    let st := if request_skin
              then with_mSkinRequests (mSkinRequests st ++ [new_UUIDBasedRequest mesh_id]) st
              else st in
    with_mThread st R
  else R.

(** One turn of the loop over [pending_lods]. *)
Definition header_pending_lod (mesh_params : LLVolumeParams) (data : buffer)
    (data_size : Z) (l : ParsedLocals) (pending_lods : Lods Z)
    (st : LLMeshRepoThread) (i : Z) : LLMeshRepoThread :=
  match lod_get pending_lods i, lod_get (pl_lod_size l) i, lod_get (pl_lod_offset l) i with
  | Some pending, Some size, Some lod_offset =>
    if (0 <? pending) && (0 <? size) then
      (* try to load from data we just received *)
      let offset := wrapS32 (wrapS32 (pl_header_size l) + lod_offset) in
      let '(request_lod, st) :=
        if wrapS32 (offset + size) <=? data_size then
          (* initial request is 4096 bytes, it's big enough to fit this lod *)
          match lodReceived mesh_params i (Some (slice offset size data)) size st with
          | (MESH_OK, st) => (false, st)
          | (_, st) => (true, st)
          end
        else (true, st) in
      if request_lod then push_LODRequest (new_LODRequest mesh_params i) st else st
    else st
  | _, _, _ => st
  end.

Definition header_pending (mesh_params : LLVolumeParams) (data : buffer)
    (data_size : Z) (l : ParsedLocals) (st : LLMeshRepoThread) : LLMeshRepoThread :=
  let mesh_id := getSculptID mesh_params in
  match mPendingLOD st !! mesh_id with
  | Some pending_lods =>
    let st := with_mPendingLOD (delete mesh_id (mPendingLOD st)) st in
    (* check for pending requests *)
    foldl (header_pending_lod mesh_params data data_size l pending_lods) st lod_indices
  | None => st
  end.

(** [LLMeshRepoThread::headerReceived]. *)
Definition headerReceived (mesh_params : LLVolumeParams) (data : buffer)
    (data_size : Z) (flags : Z) (R : LLMeshRepository)
    : EMeshProcessingResult * LLMeshRepository :=
  let mesh_id := getSculptID mesh_params in
  let store header (l : ParsedLocals) data_size :=
    let st := mThread R in
    let st := with_mMeshHeader (<[mesh_id := header]> (mMeshHeader st)) st in
    let st := count (add_sCacheBytesHeaders (wrapU32 (pl_header_size l))) st in
    let R := header_skin mesh_id data data_size l (with_mThread st R) in
    (MESH_OK, with_mThread (header_pending mesh_params data data_size l (mThread R)) R) in
  if 0 <? data_size then
    let '(skipped, dsize, header_size0) := strip_deprecated_header data data_size in
    let data_size := wrapS32 dsize in
    match fromBinary (drop (Z.to_nat skipped) data) data_size with
    | DecodeError => (MESH_PARSE_FAILURE, R)
    | DecodedNotMap => (MESH_INVALID, R)
    | DecodedMap h tellg =>
      let '(header, l) := gate_header h tellg header_size0 data_size flags in
      store header l data_size
    end
  else
    (* non-positive data size: marking header as non-existent, will not retry *)
    store (set_m404 true LLMeshHeader_default) (locals_init 0) data_size.

(** ** Header fetch *)

(** A 32-bit word read back from memory. *)
Definition byte_to_Z (b : byte) : Z := Z.of_N (Byte.to_N b).

Definition le32_decode (b : buffer) : Z :=
  match b with
  | b0 :: b1 :: b2 :: b3 :: _ =>
    byte_to_Z b0 + 2 ^ 8 * byte_to_Z b1 + 2 ^ 16 * byte_to_Z b2 + 2 ^ 24 * byte_to_Z b3
  | _ => 0
  end.

Definition DISK_MINIMAL_READ : Z := 4096.

Definition unavailable_all_lods (mesh_params : LLVolumeParams) (st : LLMeshRepoThread)
    : LLMeshRepoThread :=
  with_mUnavailableQ
    (mUnavailableQ st ++ map (new_LODRequest mesh_params) lod_indices) st.

(** [LLMeshRepoThread::fetchMeshHeader]: cache probe, then a GET for
    the first [MESH_HEADER_SIZE] bytes. *)
Definition fetchMeshHeader (o : Oracle) (mesh_params : LLVolumeParams)
    (R : LLMeshRepository) : option (bool * LLMeshRepository) :=
  let mesh_id := getSculptID mesh_params in
  let R := with_mThread (count (add_sMeshRequestCount 1) (mThread R)) R in
  let from_sim (R : LLMeshRepository) :=
    (* either cache entry doesn't exist or is corrupt, request header from simulator *)
    let '(http_url, legacy_cap_version) := constructUrl o (mThread R) mesh_id in
    if nonempty http_url then
      '(retval, st) ← issue_request o LLMeshHeaderHandler mesh_id http_url
                        legacy_cap_version 0 MESH_HEADER_SIZE (mThread R);
      Some (retval, with_mThread st R)
    else Some (true, R) in
  (* look for mesh in asset in cache *)
  let size := file_getSize (mThread R) mesh_id in
  if 0 <? size then
    let bytes := llmin size DISK_MINIMAL_READ in
    let R := with_mThread
               (count (add_sCacheReads 1) (count (add_sCacheBytesRead bytes) (mThread R))) R in
    let version := le32_decode (file_read (mThread R) mesh_id 0 4) in
    if version =? CACHE_PREAMBLE_VERSION then
      let header_size := wrapS32 (le32_decode (file_read (mThread R) mesh_id 4 4)) in
      let bytes := if DISK_MINIMAL_READ <? header_size + CACHE_PREAMBLE_SIZE
                   then llmin size (DISK_MINIMAL_READ * 2) else bytes in
      let buffer := file_read (mThread R) mesh_id 0 bytes in
      let flags := le32_decode (slice 8 4 buffer) in
      match headerReceived mesh_params (drop (Z.to_nat CACHE_PREAMBLE_SIZE) buffer)
                           (bytes - CACHE_PREAMBLE_SIZE) flags R with
      | (MESH_OK, R) => Some (true, R)        (* found mesh in cache *)
      | (_, R) => from_sim R
      end
    else from_sim R
  else from_sim R.

(** ** HTTP completion *)

(** Modelled from the spec: [LLCore::HttpStatus] and
    [LLCore::HttpResponse] belong to the transport library.  A status is
    an HTTP code or a library error; it tests true for the 2xx codes and
    for the library's success value, and partial content is code 206.
    A response carries the retry count, the range triple read by
    [getRange] (all zero without a usable range header) and the body. *)
Inductive HttpError :=
| HE_SUCCESS
| HE_INV_CONTENT_RANGE_HDR
| HE_BAD_ALLOC
| HE_OTHER (code : Z).

Inductive HttpStatus :=
| HttpCode (code : Z)
| LLCoreStatus (e : HttpError).

Definition HTTP_PARTIAL_CONTENT : Z := 206.

Definition status_ok (s : HttpStatus) : bool :=
  match s with
  | HttpCode c => (200 <=? c) && (c <=? 299)
  | LLCoreStatus HE_SUCCESS => true
  | LLCoreStatus _ => false
  end.

Definition status_eqb (a b : HttpStatus) : bool :=
  match a, b with
  | HttpCode x, HttpCode y => x =? y
  | LLCoreStatus HE_SUCCESS, LLCoreStatus HE_SUCCESS => true
  | LLCoreStatus HE_INV_CONTENT_RANGE_HDR, LLCoreStatus HE_INV_CONTENT_RANGE_HDR => true
  | LLCoreStatus HE_BAD_ALLOC, LLCoreStatus HE_BAD_ALLOC => true
  | LLCoreStatus (HE_OTHER x), LLCoreStatus (HE_OTHER y) => x =? y
  | _, _ => false
  end.

Record HttpResponse := {
  getStatus : HttpStatus;
  getRetries : Z;
  getRange : Z * Z * Z;           (* offset, length, full_length: unsigned int *)
  getBody : option buffer
}.

(** The calls [onCompleted] makes on the handler's virtual methods. *)
Inductive HandlerCall :=
| processFailure (status : HttpStatus)
| processData (body_offset : Z) (data : option buffer) (data_size : Z).

(** The body of [LLMeshHandlerBase::onCompleted] between the status
    read and [common_exit]: the virtual calls made, in order, and the
    amounts added to [sHTTPErrorCount] and [sBytesReceived].
    [data_size] is a [size_t], [offset] and [mOffset] are 32-bit
    unsigned, [body_offset] is an [S32]. *)
Definition onCompleted_calls (mOffset : Z) (response : HttpResponse) (new_ok : bool)
    : list HandlerCall * Z * Z :=
  let status := getStatus response in
  if negb (status_ok status) then
    ([processFailure status], 1, 0)
  else
    let body := getBody response in
    let data_size := match body with
                     | Some b => Z.of_nat (length b)
                     | None => 0
                     end in
    if 0 <? data_size then
      let '(r_offset, r_length, _) := getRange response in
      let offset :=
        if status_eqb (HttpCode HTTP_PARTIAL_CONTENT) status then
          (* 206 case *)
          if (r_offset =? 0) && (r_length =? 0)
          then mOffset                 (* assume we got what we asked for *)
          else r_offset
        else 0 in                      (* 200 case, typically *)
      if (mOffset <? offset)
         || (wrapU64 (offset + data_size) <=? mOffset)
         || (data_size <=? wrapU32 (mOffset - offset))
      then
        (* no overlap with requested range *)
        ([processFailure (LLCoreStatus HE_INV_CONTENT_RANGE_HDR)], 1, 0)
      else
        let body_offset := wrapS32 (wrapU32 (mOffset - offset)) in
        if new_ok then
          ([processData body_offset
              (Some (slice body_offset (wrapU64 (data_size - body_offset)) (default [] body)))
              (wrapS32 data_size - body_offset)],
           0, wrapU32 data_size)
        else
          ([processFailure (LLCoreStatus HE_BAD_ALLOC);
            processData body_offset None (wrapS32 data_size - body_offset)],
           0, 0)
    else
      ([processData 0 None (wrapS32 data_size - 0)], 0, 0).

(** The header handler's methods. *)

Definition LLMeshHeaderHandler_processFailure (mesh_params : LLVolumeParams)
    (R : LLMeshRepository) : LLMeshRepository :=
  (* can't get the header so none of the LODs will be available *)
  with_mThread (unavailable_all_lods mesh_params (mThread R)) R.

(** The number of bytes to reserve past the header. *)
Definition header_lod_bytes (h : LLMeshHeader) : Z :=
  let step lod_bytes i :=
    match lod_get (mLodOffset h) i, lod_get (mLodSize h) i with
    | Some off, Some sz => llmax lod_bytes (wrapS32 (off + sz))
    | _, _ => lod_bytes
    end in
  let lod_bytes := foldl step 0 lod_indices in
  let lod_bytes := llmax lod_bytes (wrapS32 (mSkinOffset h + mSkinSize h)) in
  llmax lod_bytes (wrapS32 (mPhysicsConvexOffset h + mPhysicsConvexSize h)).

Definition LLMeshHeaderHandler_processData (o : Oracle) (mesh_params : LLVolumeParams)
    (data : option buffer) (data_size : Z) (R : LLMeshRepository) : LLMeshRepository :=
  let mesh_id := getSculptID mesh_params in
  (* if we have data but no size or have size but no data, something is wrong *)
  let success := Bool.eqb (bool_decide (is_Some data)) (0 <? data_size) in
  let '(success, R) :=
    if success then
      match headerReceived mesh_params (default [] data) data_size 0 R with
      | (MESH_OK, R) => (true, R)
      | (_, R) => (false, R)
      end
    else (false, R) in
  if negb success then
    with_mThread (unavailable_all_lods mesh_params (mThread R)) R
  else
    match data with
    | Some data =>
      if 0 <? data_size then
        (* header was successfully retrieved from sim and parsed and is in cache *)
        let st := mThread R in
        let header := default LLMeshHeader_default (mMeshHeader st !! mesh_id) in
        let header_bytes := match mMeshHeader st !! mesh_id with
                            | Some h => mHeaderSize h
                            | None => 0
                            end in
        if (0 <? header_bytes) && negb (m404 header)
           && (mVersion header <=? MAX_MESH_VERSION) then
          let lod_bytes := header_lod_bytes header in
          let bytes := wrapS32 (wrapS32 (lod_bytes + header_bytes) + CACHE_PREAMBLE_SIZE) in
          (* only allocate as much space in the cache as is needed for the local cache *)
          let data_size := llmin data_size bytes in
          if bytes <=? getMaxSize then
            let st := count (add_sCacheWrites 1) (count (add_sCacheBytesWritten data_size) st) in
            (* write preamble *)
            let st := write_preamble mesh_id header_bytes (getFlags header) st in
            (* write header *)
            let st := file_write mesh_id CACHE_PREAMBLE_SIZE (slice 0 data_size data) st in
            let tell := CACHE_PREAMBLE_SIZE + data_size in
            let remaining := wrapS32 (bytes - tell) in
            let st := if (0 <? remaining) && new_ok o
                      then file_write mesh_id tell (replicate (Z.to_nat remaining) x00) st
                      else st in
            with_mThread st R
          else R
        else
          (* headerReceived() parsed header, but header's data is invalid *)
          with_mThread (unavailable_all_lods mesh_params (mThread R)) R
      else R
    | None => R
    end.

Definition run_header_call (o : Oracle) (mesh_params : LLVolumeParams)
    (R : LLMeshRepository) (c : HandlerCall) : LLMeshRepository :=
  match c with
  | processFailure _ => LLMeshHeaderHandler_processFailure mesh_params R
  | processData _ data data_size => LLMeshHeaderHandler_processData o mesh_params data data_size R
  end.

(** [onCompleted] for a header handler in [mHttpRequestSet]: the calls
    above, then the handler leaves the set and is destroyed. *)
Definition LLMeshHeaderHandler_onCompleted (o : Oracle) (handler : LLMeshHandlerBase)
    (response : HttpResponse) (R : LLMeshRepository) : option LLMeshRepository :=
  let handler := with_mProcessed true handler in
  let mesh_params := {| getSculptID := hMeshID handler |} in
  let R := with_mThread (count (add_sHTTPRetryCount (getRetries response)) (mThread R)) R in
  let '(calls, errors, received) := onCompleted_calls (mOffset handler) response (new_ok o) in
  let R := foldl (run_header_call o mesh_params) R calls in
  let st := count (add_sBytesReceived received) (count (add_sHTTPErrorCount errors) (mThread R)) in
  (* release handler *)
  let st := with_mHttpRequestSet
              (filter (fun h => mHttpHandle h ≠ mHttpHandle handler) (mHttpRequestSet st)) st in
  st ← destroy_handler o handler st;
  Some (with_mThread st R).

(** ** The worker loop, queue by queue

    One pass of [LLMeshRepoThread::run] over a request queue.  [now] is
    the clock, [high_water] is [sRequestHighWater], [env i] answers for
    the environment during turn [i] of the [while] loop, and [fuel]
    bounds the number of turns. *)

Definition below_high_water (high_water : Z) (st : LLMeshRepoThread) : bool :=
  Z.of_nat (length (mHttpRequestSet st)) <? high_water.

Definition with_ur_stats (s : RequestStats) (r : UUIDBasedRequest) : UUIDBasedRequest :=
  {| ur_mId := ur_mId r; ur_stats := s |}.
Definition with_lr_stats (s : RequestStats) (r : LODRequest) : LODRequest :=
  {| lr_mMeshParams := lr_mMeshParams r; lr_mLOD := lr_mLOD r; lr_stats := s |}.
Definition with_hr_stats (s : RequestStats) (r : HeaderRequest) : HeaderRequest :=
  {| hr_mMeshParams := hr_mMeshParams r; hr_stats := s |}.

Fixpoint run_skin_loop (fuel : nat) (env : nat -> Oracle) (now : Q) (high_water : Z)
    (i : nat) (incomplete : list UUIDBasedRequest) (st : LLMeshRepoThread)
    : option (list UUIDBasedRequest * LLMeshRepoThread) :=
  match fuel with
  | O => Some (incomplete, st)
  | S fuel =>
    match mSkinRequests st with
    | req :: rest =>
      if below_high_water high_water st then
        let st := with_mSkinRequests rest st in
        if isDelayed now (ur_stats req) then
          run_skin_loop fuel env now high_water (S i) (incomplete ++ [req]) st
        else
          match fetchMeshSkinInfo (env i) (ur_mId req) st with
          | Some (true, st) => run_skin_loop fuel env now high_water (S i) incomplete st
          | Some (false, st) =>
            if canRetry (ur_stats req) then
              let req := with_ur_stats (updateTime now (ur_stats req)) req in
              run_skin_loop fuel env now high_water (S i) (incomplete ++ [req]) st
            else
              run_skin_loop fuel env now high_water (S i) incomplete
                (with_mSkinUnavailableQ (mSkinUnavailableQ st ++ [req]) st)
          | None => None
          end
      else Some (incomplete, st)
    | [] => Some (incomplete, st)
    end
  end.

Definition run_skin_requests (fuel : nat) (env : nat -> Oracle) (now : Q) (high_water : Z)
    (st : LLMeshRepoThread) : option LLMeshRepoThread :=
  '(incomplete, st) ← run_skin_loop fuel env now high_water 0 [] st;
  Some (with_mSkinRequests (mSkinRequests st ++ incomplete) st).

Fixpoint run_lod_loop (fuel : nat) (env : nat -> Oracle) (now : Q) (high_water : Z)
    (i : nat) (incomplete : list LODRequest) (st : LLMeshRepoThread)
    : option (list LODRequest * LLMeshRepoThread) :=
  match fuel with
  | O => Some (incomplete, st)
  | S fuel =>
    match mLODReqQ st with
    | req :: rest =>
      if below_high_water high_water st then
        let st := count (add_sLODProcessing (-1)) (with_mLODReqQ rest st) in
        if isDelayed now (lr_stats req) then
          (* failed to load before, wait a bit *)
          run_lod_loop fuel env now high_water (S i) (req :: incomplete) st
        else
          match fetchMeshLOD (env i) (lr_mMeshParams req) (lr_mLOD req) st with
          | Some (true, st) => run_lod_loop fuel env now high_water (S i) incomplete st
          | Some (false, st) =>
            if canRetry (lr_stats req) then
              (* failed, resubmit *)
              let req := with_lr_stats (updateTime now (lr_stats req)) req in
              run_lod_loop fuel env now high_water (S i) (req :: incomplete) st
            else
              (* too many fails *)
              run_lod_loop fuel env now high_water (S i) incomplete
                (with_mUnavailableQ (mUnavailableQ st ++ [req]) st)
          | None => None
          end
      else Some (incomplete, st)
    | [] => Some (incomplete, st)
    end
  end.

Definition run_lod_requests (fuel : nat) (env : nat -> Oracle) (now : Q) (high_water : Z)
    (st : LLMeshRepoThread) : option LLMeshRepoThread :=
  '(incomplete, st) ← run_lod_loop fuel env now high_water 0 [] st;
  Some (foldl (fun st req => push_LODRequest req st) st incomplete).

Fixpoint run_header_loop (fuel : nat) (env : nat -> Oracle) (now : Q) (high_water : Z)
    (i : nat) (incomplete : list HeaderRequest) (R : LLMeshRepository)
    : option (list HeaderRequest * LLMeshRepository) :=
  match fuel with
  | O => Some (incomplete, R)
  | S fuel =>
    match mHeaderReqQ (mThread R) with
    | req :: rest =>
      if below_high_water high_water (mThread R) then
        let R := with_mThread (with_mHeaderReqQ rest (mThread R)) R in
        if isDelayed now (hr_stats req) then
          (* failed to load before, wait a bit *)
          run_header_loop fuel env now high_water (S i) (req :: incomplete) R
        else
          match fetchMeshHeader (env i) (hr_mMeshParams req) R with
          | Some (true, R) => run_header_loop fuel env now high_water (S i) incomplete R
          | Some (false, R) =>
            if canRetry (hr_stats req) then
              (* failed, resubmit *)
              let req := with_hr_stats (updateTime now (hr_stats req)) req in
              run_header_loop fuel env now high_water (S i) (req :: incomplete) R
            else run_header_loop fuel env now high_water (S i) incomplete R
          | None => None
          end
      else Some (incomplete, R)
    | [] => Some (incomplete, R)
    end
  end.

Definition run_header_requests (fuel : nat) (env : nat -> Oracle) (now : Q) (high_water : Z)
    (R : LLMeshRepository) : option LLMeshRepository :=
  '(incomplete, R) ← run_header_loop fuel env now high_water 0 [] R;
  Some (with_mThread
          (with_mHeaderReqQ (mHeaderReqQ (mThread R) ++ incomplete) (mThread R)) R).

(** [mWorkQueue.runFor] at the top of a pass.  The model runs every
    queued closure; the 8 ms budget of the source may leave some of
    them for a later pass. *)
Definition run_work_item (w : WorkItem) (st : LLMeshRepoThread) : LLMeshRepoThread :=
  match w with
  | EraseSkin id => with_mSkinMap (delete id (mSkinMap st)) st
  end.

Definition run_work_queue (st : LLMeshRepoThread) : LLMeshRepoThread :=
  foldl (fun st w => run_work_item w st) (with_mWorkQueue [] st) (mWorkQueue st).

(** The skin, LOD and header blocks of one pass, in the order of the
    source.  The decomposition and physics-shape blocks that follow
    them work on queues this development does not carry. *)
Definition run_pass (fuel : nat) (env : nat -> Oracle) (now : Q) (high_water : Z)
    (R : LLMeshRepository) : option LLMeshRepository :=
  let st := run_work_queue (mThread R) in
  st ← run_skin_requests fuel env now high_water st;
  st ← run_lod_requests fuel env now high_water st;
  run_header_requests fuel env now high_water (with_mThread st R).

(** ** Registry front end *)

(** The load-metrics statics: [first_start] of [metricsProgress],
    [metrics_teleport_start_count], and the calls made on
    [sQuiescentTimer]. *)
Inductive DeadmanCall := dm_start | dm_ringBell (count : Z).

Record Metrics := {
  first_start : bool;
  metrics_teleport_start_count : Z;
  sQuiescentTimer : list DeadmanCall
}.

Definition metricsStart (M : Metrics) : Metrics :=
  {| first_start := first_start M;
     metrics_teleport_start_count := wrapU32 (metrics_teleport_start_count M + 1);
     sQuiescentTimer := sQuiescentTimer M ++ [dm_start] |}.

Definition metricsProgress (this_count : Z) (M : Metrics) : Metrics :=
  let M := if first_start M
           then let M := metricsStart M in
                {| first_start := false;
                   metrics_teleport_start_count := metrics_teleport_start_count M;
                   sQuiescentTimer := sQuiescentTimer M |}
           else M in
  {| first_start := first_start M;
     metrics_teleport_start_count := metrics_teleport_start_count M;
     sQuiescentTimer := sQuiescentTimer M ++ [dm_ringBell this_count] |}.

(** What the scene answers to [loadMesh]'s quick search: whether the
    object has a volume with a LOD group, and for which LODs
    [refLOD] yields a loaded mesh with faces. *)
Record VolumeView := {
  has_volume_group : bool;
  lod_usable : Z -> bool
}.

Definition quick_search (view : VolumeView) (new_lod last_lod : Z) : Z :=
  if has_volume_group view then
    (* first, see if last_lod is available *)
    if (0 <=? last_lod) && lod_usable view last_lod then last_lod
    else
      (* next, see what the next lowest LOD available might be *)
      match find (lod_usable view) (reverse (seqZ 0 new_lod)) with
      | Some i => i
      | None =>
        (* no lower LOD is a available, is a higher lod available? *)
        match find (lod_usable view) (seqZ (new_lod + 1) (NUM_LODS - (new_lod + 1))) with
        | Some i => i
        | None => new_lod
        end
      end
  else new_lod.

(** [LLMeshRepository::loadMesh].  [None] would be an index outside
    [mLoadingMeshes]. *)
Definition loadMesh (view : VolumeView) (vobj : N) (mesh_params : LLVolumeParams)
    (new_lod last_lod : Z) (M : Metrics) (R : LLMeshRepository)
    : option (Z * Metrics * LLMeshRepository) :=
  (* manage time-to-load metrics for mesh download operations *)
  let M := metricsProgress 1 M in
  if (new_lod <? 0) || (NUM_LODS <=? new_lod) then Some (new_lod, M, R)
  else
    let mesh_id := getSculptID mesh_params in
    loading ← lod_get (mLoadingMeshes R) new_lod;
    let R :=
      match loading !! mesh_id with
      | Some d =>
        (* request pending for this mesh, append volume id to list *)
        if bool_decide (vobj ∈ mVolumes d) then R
        else with_mLoadingMeshes
               (lod_set (mLoadingMeshes R) new_lod (<[mesh_id := addVolume vobj d]> loading)) R
      | None =>
        (* first request for this mesh *)
        let request := PendingRequestLOD mesh_params new_lod in
        let R := with_mPendingRequests (mPendingRequests R ++ [request]) R in
        let R := with_mLoadingMeshes
                   (lod_set (mLoadingMeshes R) new_lod
                      (<[mesh_id := initData vobj request MeshLoadData_empty]> loading)) R in
        with_sLODPending (wrapU32 (sLODPending R + 1)) R
      end in
    (* do a quick search to see if we can't display something while we wait *)
    Some (quick_search view new_lod last_lod, M, R).

(** [LLMeshRepository::getSkinInfo]. *)
Definition getSkinInfo (mesh_id : LLUUID) (requesting_obj : option N)
    (R : LLMeshRepository) : option SkinRef * LLMeshRepository :=
  if negb (mesh_id =? 0)%N then
    match gMeshRepo_mSkinMap R !! mesh_id with
    | Some s => (Some s, R)
    | None =>
      (* no skin info known about given mesh, try to fetch it *)
      match requesting_obj with
      | Some obj =>
        match mLoadingSkins R !! mesh_id with
        | Some d =>
          if bool_decide (obj ∈ mVolumes d) then (None, R)
          else (None, with_mLoadingSkins (<[mesh_id := addVolume obj d]> (mLoadingSkins R)) R)
        | None =>
          (* first request for this mesh *)
          let request := PendingRequestUUID mesh_id in
          let R := with_mLoadingSkins
                     (<[mesh_id := initData obj request MeshLoadData_empty]> (mLoadingSkins R)) R in
          (None, with_mPendingRequests (mPendingRequests R ++ [request]) R)
        end
      | None => (None, R)
      end
    end
  else (None, R).

(** The skin-info cull of [LLMeshRepository::notifyLoadedMeshes]:
    what the loop body does for one entry of [mSkinMap]. *)
Definition cull_skin_entry (R : LLMeshRepository) (entry : LLUUID * SkinRef)
    : LLMeshRepository :=
  let '(id, skin) := entry in
  let R := if getNumRefs skin =? 1
           then with_gMeshRepo_mSkinMap (delete id (gMeshRepo_mSkinMap R)) R
           else R in
  (* erase from background thread *)
  with_mThread (with_mWorkQueue (mWorkQueue (mThread R) ++ [EraseSkin id]) (mThread R)) R.

(** [expired] is [mSkinInfoCullTimer.checkExpirationAndReset(10.f)]. *)
Definition cull_skin_info (expired : bool) (R : LLMeshRepository) : LLMeshRepository :=
  if expired then foldl cull_skin_entry R (map_to_list (gMeshRepo_mSkinMap R)) else R.

(** The push of pending requests into the worker's queues, with all
    four locks held.  [partial_sort n l] is [mPendingRequests] after
    the scores were refreshed and [std::partial_sort] ran on its first
    [n] places. *)
Fixpoint push_pending (pending : list PendingRequest) (push_count : nat)
    (R : LLMeshRepository) : option LLMeshRepository :=
  match pending, push_count with
  | req :: rest, S n =>
    R ← match req with
        | PendingRequestLOD mesh_params lod =>
          st ← loadMeshLOD mesh_params lod (mThread R);
          Some (with_sLODPending (wrapU32 (sLODPending R - 1)) (with_mThread st R))
        | PendingRequestUUID id =>
          Some (with_mThread (loadMeshSkinInfo id (mThread R)) R)
        end;
    push_pending rest n (with_mPendingRequests rest R)
  | _, _ => Some R
  end.

Definition active_count (st : LLMeshRepoThread) : Z :=
  wrapS32
    (wrapS32 (sActiveHeaderRequests (mCounters st) + sActiveLODRequests (mCounters st)
              + sActiveSkinRequests (mCounters st))
     + wrapS32 (Z.of_nat (length (mLODReqQ st) + length (mHeaderReqQ st)
                          + length (mSkinInfoQ st)))).

Definition dispatch_pending
    (partial_sort : Z -> list PendingRequest -> list PendingRequest)
    (high_water : Z) (R : LLMeshRepository) : option LLMeshRepository :=
  let active := active_count (mThread R) in
  if active <? high_water then
    let push_count := high_water - active in
    let R := if push_count <? Z.of_nat (length (mPendingRequests R))
             then with_mPendingRequests (partial_sort push_count (mPendingRequests R)) R
             else R in
    push_pending (mPendingRequests R) (Z.to_nat push_count) R
  else Some R.

(** ** The request path as a transition system *)

#[global] Instance HandlerKind_eq_dec : EqDecision HandlerKind.
Proof. solve_decision. Defined.

(** The number of outstanding HTTP handles of one kind for one mesh. *)
Definition outstanding (st : LLMeshRepoThread) (id : LLUUID) (k : HandlerKind) : nat :=
  length (filter (fun h => hMeshID h = id /\ hKind h = k) (mHttpRequestSet st)).


(** The header map and the handle set are the same on both sides. *)
Definition same_core (st st' : LLMeshRepoThread) : Prop :=
  mMeshHeader st' = mMeshHeader st /\ mHttpRequestSet st' = mHttpRequestSet st
  /\ mDisk st' = mDisk st.

(** What a sub-section fetch can do to the handle set: nothing, or
    one more handler of its own kind for a mesh whose header is
    stored. *)
Definition fetch_effect (k : HandlerKind) (id : LLUUID) (st st' : LLMeshRepoThread) : Prop :=
  mMeshHeader st' = mMeshHeader st /\
  (mHttpRequestSet st' = mHttpRequestSet st \/
   (is_Some (mMeshHeader st !! id) /\
    exists h off sz, mHttpRequestSet st' = mHttpRequestSet st
                       ++ [with_mHttpHandle h (new_handler k id off sz)])).

(** From [st] to [st'] no header was dropped, and every handler that
    joined the handle set is a header handler or belongs to a mesh
    whose header is stored. *)
Definition grows (st st' : LLMeshRepoThread) : Prop :=
  (forall id, is_Some (mMeshHeader st !! id) -> is_Some (mMeshHeader st' !! id)) /\
  (forall h, h ∈ mHttpRequestSet st' ->
             h ∈ mHttpRequestSet st \/ hKind h = LLMeshHeaderHandler \/
             is_Some (mMeshHeader st' !! hMeshID h)).

(** A repository as [init] leaves it: nothing requested, nothing in
    flight; the capability strings and the disk cache are whatever
    they happen to be. *)
Definition initial (R : LLMeshRepository) : Prop :=
  mLoadingMeshes R = lod_fill ∅ /\ mLoadingSkins R = ∅ /\ mPendingRequests R = [] /\
  gMeshRepo_mSkinMap R = ∅ /\
  mMeshHeader (mThread R) = ∅ /\ mPendingLOD (mThread R) = ∅ /\
  mSkinRequests (mThread R) = [] /\ mLODReqQ (mThread R) = [] /\
  mHeaderReqQ (mThread R) = [] /\ mHttpRequestSet (mThread R) = [] /\
  mMeshThreadPool (mThread R) = [] /\ mWorkQueue (mThread R) = [] /\
  mSkinMap (mThread R) = ∅.

(** The moves of the main thread, the worker and the parse pool. *)
Inductive repo_step (R : LLMeshRepository) : LLMeshRepository -> Prop :=
| step_loadMesh view vobj mesh_params new_lod last_lod M r M' R' :
    loadMesh view vobj mesh_params new_lod last_lod M R = Some (r, M', R') ->
    repo_step R R'
| step_getSkinInfo mesh_id requesting_obj :
    repo_step R (snd (getSkinInfo mesh_id requesting_obj R))
| step_cull expired :
    repo_step R (cull_skin_info expired R)
| step_dispatch partial_sort high_water R' :
    dispatch_pending partial_sort high_water R = Some R' ->
    repo_step R R'
| step_run_pass fuel env now high_water R' :
    run_pass fuel env now high_water R = Some R' ->
    repo_step R R'
| step_pool_task before t after :
    mMeshThreadPool (mThread R) = before ++ t :: after ->
    repo_step R
      (with_mThread
         (run_pool_task t (with_mMeshThreadPool (before ++ after) (mThread R))) R)
| step_header_completed o handler response R' :
    handler ∈ mHttpRequestSet (mThread R) ->
    hKind handler = LLMeshHeaderHandler ->
    LLMeshHeaderHandler_onCompleted o handler response R = Some R' ->
    repo_step R R'.

Inductive repo_reachable : LLMeshRepository -> Prop :=
| reachable_initial R : initial R -> repo_reachable R
| reachable_step R R' : repo_reachable R -> repo_step R R' -> repo_reachable R'.

(** ** Vocabulary for the statements below *)


(** The cached block a LOD fetch reads before it decides anything:
    the bytes, the offset in the asset and the size, when the header
    is stored with a usable entry marked in-cache and the blob reaches
    far enough. *)
Definition cached_lod_block (st : LLMeshRepoThread) (id : LLUUID) (lod : Z)
    : option (buffer * Z * Z) :=
  header ← mMeshHeader st !! id;
  lod_offset ← lod_get (mLodOffset header) lod;
  size ← lod_get (mLodSize header) lod;
  in_cache ← lod_get (mLodInCache header) lod;
  let header_size := wrapU32 (mHeaderSize header) in
  let offset := wrapS32 (header_size + lod_offset) in
  let disk_ofset := wrapS32 (offset + CACHE_PREAMBLE_SIZE) in
  if (0 <? header_size) && subsection_ok (mVersion header) offset size
     && cache_covers st id in_cache disk_ofset size
  then Some (file_read st id disk_ofset size, offset, size)
  else None.

Definition cached_skin_block (st : LLMeshRepoThread) (id : LLUUID)
    : option (buffer * Z * Z) :=
  header ← mMeshHeader st !! id;
  let header_size := wrapU32 (mHeaderSize header) in
  let offset := wrapS32 (header_size + mSkinOffset header) in
  let size := mSkinSize header in
  let disk_ofset := wrapS32 (offset + CACHE_PREAMBLE_SIZE) in
  if (0 <? header_size) && subsection_ok (mVersion header) offset size
     && cache_covers st id (mSkinInCache header) disk_ofset size
  then Some (file_read st id disk_ofset size, offset, size)
  else None.

(** What the network path does after a cache miss, seen from outside:
    one more handler and one more GET, a failure report, or an
    "unavailable" entry. *)
Definition went_to_network (o : Oracle) (k : HandlerKind) (id : LLUUID)
    (offset size : Z) (st : LLMeshRepoThread) (b : bool) (st' : LLMeshRepoThread) : Prop :=
  let '(http_url, _) := constructUrl o st id in
  if nonempty http_url then
    match http_handle o with
    | Some handle =>
      b = true /\
      mHttpRequestSet st' =
        mHttpRequestSet st ++ [with_mHttpHandle handle (new_handler k id offset size)] /\
      exists get, mHttpRequest st' = mHttpRequest st ++ [get] /\
                  get_url get = http_url /\
                  (disable_range_req o = false ->
                   get_offset get = offset /\ get_len get = size)
    | None =>
      b = false /\ mHttpRequestSet st' = mHttpRequestSet st /\
      mHttpRequest st' = mHttpRequest st
    end
  else
    b = true /\ mHttpRequestSet st' = mHttpRequestSet st /\
    mHttpRequest st' = mHttpRequest st.

(** The parts of the state a request on its way to the network leaves
    alone: headers, cache blobs, pool tasks and delivered results. *)
Definition untouched (st st' : LLMeshRepoThread) : Prop :=
  mMeshHeader st' = mMeshHeader st /\ mDisk st' = mDisk st /\
  mMeshThreadPool st' = mMeshThreadPool st /\ mLoadedQ st' = mLoadedQ st /\
  mSkinInfoQ st' = mSkinInfoQ st /\ mSkinMap st' = mSkinMap st /\
  mDecompositionQ st' = mDecompositionQ st /\
  sCacheBytesWritten (mCounters st') = sCacheBytesWritten (mCounters st).


(** No LOD of the decoded header has a positive size. *)
Definition no_lod_present (h : LLMeshHeader) : Prop :=
  forall i, lod_size_positive h i = false.












(** ** Capabilities and header queries *)

(** [LLMeshRepoThread::setGetMeshCap]. *)
Definition setGetMeshCap (mesh_cap legacy_get_mesh1 legacy_get_mesh2 : string)
    (legacy_pref_version : Z) (st : LLMeshRepoThread) : LLMeshRepoThread :=
  {| mMeshHeader := mMeshHeader st; mPendingLOD := mPendingLOD st;
     mSkinRequests := mSkinRequests st; mLODReqQ := mLODReqQ st;
     mHeaderReqQ := mHeaderReqQ st; mHttpRequestSet := mHttpRequestSet st;
     mHttpRequest := mHttpRequest st; mLoadedQ := mLoadedQ st;
     mUnavailableQ := mUnavailableQ st; mSkinInfoQ := mSkinInfoQ st;
     mSkinUnavailableQ := mSkinUnavailableQ st; mDecompositionQ := mDecompositionQ st;
     mSkinMap := mSkinMap st; mMeshThreadPool := mMeshThreadPool st;
     mWorkQueue := mWorkQueue st; mShuttingDown := mShuttingDown st;
     mGetMeshCapability := mesh_cap;
     mLegacyGetMeshCapability := legacy_get_mesh1;
     mLegacyGetMesh2Capability := legacy_get_mesh2;
     mLegacyGetMeshVersion := legacy_pref_version;
     mCounters := mCounters st; mDisk := mDisk st |}.

(** [LLMeshRepoThread::hasPhysicsShapeInHeader]. *)
Definition hasPhysicsShapeInHeader (st : LLMeshRepoThread) (mesh_id : LLUUID) : bool :=
  match mMeshHeader st !! mesh_id with
  | Some mesh => (0 <? mHeaderSize mesh) && (0 <? mPhysicsMeshSize mesh)
  | None => false
  end.

(** [LLMeshRepoThread::hasSkinInfoInHeader]. *)
Definition hasSkinInfoInHeader (st : LLMeshRepoThread) (mesh_id : LLUUID) : bool :=
  match mMeshHeader st !! mesh_id with
  | Some mesh =>
    (0 <? mHeaderSize mesh) && ((0 <=? mSkinOffset mesh) && (0 <? mSkinSize mesh))
  | None => false
  end.

(** [LLMeshRepoThread::getActualMeshLOD(const LLVolumeParams&, S32)].
    The stored header is passed by reference, so a 404 mark set by the
    search stays in the map. *)
Definition LLMeshRepoThread_getActualMeshLOD (mesh_params : LLVolumeParams) (lod : Z)
    (st : LLMeshRepoThread) : Z * LLMeshRepoThread :=
  let mesh_id := getSculptID mesh_params in
  match mMeshHeader st !! mesh_id with
  | Some header =>
    if 0 <? mHeaderSize header then
      let '(actual, header) := getActualMeshLOD header lod in
      (actual, with_mMeshHeader (<[mesh_id := header]> (mMeshHeader st)) st)
    else (lod, st)
  | None => (lod, st)
  end.

(** ** Sub-section handlers: data and failure paths *)

(** "good fetch from sim, write to cache": the block the LOD, skin,
    decomposition and physics-shape handlers share up to the presence
    bit they read ([in_cache]) and set ([mark]).  [None] stands for an
    index outside the header's LOD arrays and for a [file.write] that
    reads [size] bytes from a shorter [data]. *)
Definition write_fetched (handler : LLMeshHandlerBase) (data : buffer)
    (in_cache : LLMeshHeader -> option bool) (mark : LLMeshHeader -> LLMeshHeader)
    (st : LLMeshRepoThread) : option LLMeshRepoThread :=
  let mesh_id := hMeshID handler in
  let offset := wrapS32 (mOffset handler + CACHE_PREAMBLE_SIZE) in
  let size := wrapS32 (mRequestedBytes handler) in
  if wrapS32 (offset + size) <=? file_getSize st mesh_id then
    updated ←
      match mMeshHeader st !! mesh_id with
      | Some header =>
        bit ← in_cache header;
        (* update header *)
        if negb bit then
          let header := mark header in
          Some (mHeaderSize header, getFlags header,
                with_mMeshHeader (<[mesh_id := header]> (mMeshHeader st)) st)
        else Some (0, 0, st)
      | None => Some (0, 0, st)
      end;
    let '(header_bytes, flags, st) := updated in
    let st := if 0 <? flags then write_preamble mesh_id header_bytes flags st else st in
    if (0 <=? size) && (size <=? Z.of_nat (length data)) then
      let st := file_write mesh_id offset (take (Z.to_nat size) data) st in
      Some (count (add_sCacheWrites 1) (count (add_sCacheBytesWritten size) st))
    else None
  else Some st.

Definition mark_lod_in_cache (lod : Z) (h : LLMeshHeader) : LLMeshHeader :=
  set_in_cache (mSkinInCache h) (mPhysicsConvexInCache h) (mPhysicsMeshInCache h)
               (lod_set (mLodInCache h) lod true) h.

Definition mark_skin_in_cache (h : LLMeshHeader) : LLMeshHeader :=
  set_in_cache true (mPhysicsConvexInCache h) (mPhysicsMeshInCache h) (mLodInCache h) h.

Definition mark_convex_in_cache (h : LLMeshHeader) : LLMeshHeader :=
  set_in_cache (mSkinInCache h) true (mPhysicsMeshInCache h) (mLodInCache h) h.

Definition mark_physics_in_cache (h : LLMeshHeader) : LLMeshHeader :=
  set_in_cache (mSkinInCache h) (mPhysicsConvexInCache h) true (mLodInCache h) h.

(** [LLMeshLODHandler::processFailure]. *)
Definition LLMeshLODHandler_processFailure (handler : LLMeshHandlerBase) (lod : Z)
    (st : LLMeshRepoThread) : LLMeshRepoThread :=
  with_mUnavailableQ
    (mUnavailableQ st ++ [new_LODRequest {| getSculptID := hMeshID handler |} lod]) st.

(** [LLMeshLODHandler::processLod]; [lod] is the handler's [mLOD]. *)
Definition LLMeshLODHandler_processLod (handler : LLMeshHandlerBase) (lod : Z)
    (data : option buffer) (data_size : Z) (st : LLMeshRepoThread)
    : option LLMeshRepoThread :=
  let mesh_params := {| getSculptID := hMeshID handler |} in
  match lodReceived mesh_params lod data data_size st with
  | (MESH_OK, st) =>
    (* good fetch from sim, write to cache *)
    write_fetched handler (default [] data)
                  (fun h => lod_get (mLodInCache h) lod) (mark_lod_in_cache lod) st
  | (_, st) =>
    Some (with_mUnavailableQ (mUnavailableQ st ++ [new_LODRequest mesh_params lod]) st)
  end.

(** [LLMeshSkinInfoHandler::processFailure]. *)
Definition LLMeshSkinInfoHandler_processFailure (handler : LLMeshHandlerBase)
    (st : LLMeshRepoThread) : LLMeshRepoThread :=
  with_mSkinUnavailableQ
    (mSkinUnavailableQ st ++ [new_UUIDBasedRequest (hMeshID handler)]) st.

(** [LLMeshSkinInfoHandler::processSkin]. *)
Definition LLMeshSkinInfoHandler_processSkin (handler : LLMeshHandlerBase)
    (data : option buffer) (data_size : Z) (st : LLMeshRepoThread)
    : option LLMeshRepoThread :=
  match skinInfoReceived (hMeshID handler) (default [] data) data_size st with
  | (true, st) =>
    (* good fetch from sim, write to cache *)
    write_fetched handler (default [] data)
                  (fun h => Some (mSkinInCache h)) mark_skin_in_cache st
  | (false, st) =>
    Some (with_mSkinUnavailableQ
            (mSkinUnavailableQ st ++ [new_UUIDBasedRequest (hMeshID handler)]) st)
  end.

(** The closures the LOD and skin handlers post to the parse pool. *)
Inductive HandlerTask :=
| ProcessLodTask (handler : LLMeshHandlerBase) (lod : Z) (data : option buffer) (data_size : Z)
| ProcessSkinTask (handler : LLMeshHandlerBase) (data : option buffer) (data_size : Z).

Definition run_handler_task (t : HandlerTask) (st : LLMeshRepoThread)
    : option LLMeshRepoThread :=
  if mShuttingDown st then Some st
  else
    match t with
    | ProcessLodTask handler lod data data_size =>
      LLMeshLODHandler_processLod handler lod data data_size st
    | ProcessSkinTask handler data data_size =>
      LLMeshSkinInfoHandler_processSkin handler data data_size st
    end.

(** "if we have data but no size or have size but no data, something
    is wrong". *)
Definition data_matches_size (data : option buffer) (data_size : Z) : bool :=
  Bool.eqb (bool_decide (is_Some data)) (0 <? data_size).

(** [LLMeshLODHandler::processData]: the closure handed to the parse
    pool, when the pool took it, and the state. *)
Definition LLMeshLODHandler_processData (o : Oracle) (handler : LLMeshHandlerBase)
    (lod : Z) (data : option buffer) (data_size : Z) (st : LLMeshRepoThread)
    : option (option HandlerTask * LLMeshRepoThread) :=
  if data_matches_size data data_size then
    if post_ok o then Some (Some (ProcessLodTask handler lod data data_size), st)
    else
      st ← LLMeshLODHandler_processLod handler lod data data_size st;
      Some (None, st)
  else
    Some (None,
          with_mUnavailableQ
            (mUnavailableQ st ++ [new_LODRequest {| getSculptID := hMeshID handler |} lod]) st).

(** [LLMeshSkinInfoHandler::processData]. *)
Definition LLMeshSkinInfoHandler_processData (o : Oracle) (handler : LLMeshHandlerBase)
    (data : option buffer) (data_size : Z) (st : LLMeshRepoThread)
    : option (option HandlerTask * LLMeshRepoThread) :=
  if data_matches_size data data_size then
    if post_ok o then Some (Some (ProcessSkinTask handler data data_size), st)
    else
      st ← LLMeshSkinInfoHandler_processSkin handler data data_size st;
      Some (None, st)
  else
    Some (None,
          with_mSkinUnavailableQ
            (mSkinUnavailableQ st ++ [new_UUIDBasedRequest (hMeshID handler)]) st).

(** [LLMeshDecompositionHandler::processData]; a failure is only
    logged ("simply leave request unfulfilled"). *)
Definition LLMeshDecompositionHandler_processData (handler : LLMeshHandlerBase)
    (data : option buffer) (data_size : Z) (st : LLMeshRepoThread)
    : option LLMeshRepoThread :=
  if data_matches_size data data_size then
    match decompositionReceived (hMeshID handler) (default [] data) data_size st with
    | (true, st) =>
      write_fetched handler (default [] data)
                    (fun h => Some (mPhysicsConvexInCache h)) mark_convex_in_cache st
    | (false, st) => Some st
    end
  else Some st.

(** [LLMeshPhysicsShapeHandler::processData]. *)
Definition LLMeshPhysicsShapeHandler_processData (handler : LLMeshHandlerBase)
    (data : option buffer) (data_size : Z) (st : LLMeshRepoThread)
    : option LLMeshRepoThread :=
  if data_matches_size data data_size then
    match physicsShapeReceived (hMeshID handler) data data_size st with
    | (MESH_OK, st) =>
      write_fetched handler (default [] data)
                    (fun h => Some (mPhysicsMeshInCache h)) mark_physics_in_cache st
    | (_, st) => Some st
    end
  else Some st.

(** ** Cost data *)

(** [LLMeshCostData]: the byte sizes per LOD; the triangle estimates
    derived from them are floating-point and not carried here. *)
Record LLMeshCostData := { mSizeByLOD : Lods Z }.

Definition LLMeshCostData_new : LLMeshCostData := {| mSizeByLOD := lod_fill 0 |}.

(** [LLMeshCostData::init]. *)
Definition LLMeshCostData_init (header : LLMeshHeader) : bool * LLMeshCostData :=
  let bytes_high := high_lod (mLodSize header) in
  let bytes_med := medium_lod (mLodSize header) in
  let bytes_med := if bytes_med =? 0 then bytes_high else bytes_med in
  let bytes_low := low_lod (mLodSize header) in
  let bytes_low := if bytes_low =? 0 then bytes_med else bytes_low in
  let bytes_lowest := lowest_lod (mLodSize header) in
  let bytes_lowest := if bytes_lowest =? 0 then bytes_low else bytes_lowest in
  (true, {| mSizeByLOD := mkLods bytes_lowest bytes_low bytes_med bytes_high |}).

(** [LLMeshCostData::getSizeByLOD]. *)
Definition getSizeByLOD (d : LLMeshCostData) (lod : Z) : Z :=
  if negb (llclamp lod 0 3 =? lod) then 0
  else default 0 (lod_get (mSizeByLOD d) lod).

(** [LLMeshCostData::getSizeTotal]. *)
Definition getSizeTotal (d : LLMeshCostData) : Z :=
  wrapS32 (lowest_lod (mSizeByLOD d) + low_lod (mSizeByLOD d)
           + medium_lod (mSizeByLOD d) + high_lod (mSizeByLOD d)).

(** [LLMeshRepository::getCostData(const LLMeshHeader&, LLMeshCostData&)]. *)
Definition getCostData_header (header : LLMeshHeader) : bool * LLMeshCostData :=
  match LLMeshCostData_init header with
  | (true, data) => (true, data)
  | (false, data) => (false, data)
  end.

(** [LLMeshRepository::getCostData(LLUUID, LLMeshCostData&)]. *)
Definition getCostData (mesh_id : LLUUID) (st : LLMeshRepoThread) : bool * LLMeshCostData :=
  let data := LLMeshCostData_new in
  if negb (mesh_id =? 0)%N then
    match mMeshHeader st !! mesh_id with
    | Some header =>
      if 0 <? mHeaderSize header then
        let header_invalid := m404 header
                              || (lowest_lod (mLodSize header) <=? 0)
                              || (MAX_MESH_VERSION <? mVersion header) in
        if negb header_invalid then getCostData_header header
        else (true, data)
      else (false, data)
    | None => (false, data)
    end
  else (false, data).

(** ** Delivery to the waiting objects *)

(** [LLMeshRepository::notifyMeshLoaded]: the objects whose
    [notifyMeshLoaded] is called, and the repository.  [None] is an
    index outside [mLoadingMeshes]. *)
Definition notifyMeshLoaded (mesh_params : LLVolumeParams) (volume : option LLVolume)
    (lod : Z) (R : LLMeshRepository) : option (list N * LLMeshRepository) :=
  let mesh_id := getSculptID mesh_params in
  loading ← lod_get (mLoadingMeshes R) lod;
  match volume, loading !! mesh_id with
  | Some _, Some d =>
    (* notify waiting LLVOVolume instances that their requested mesh is available *)
    Some (mVolumes d,
          with_mLoadingMeshes (lod_set (mLoadingMeshes R) lod (delete mesh_id loading)) R)
  | _, _ => Some ([], R)
  end.

(** [LLMeshRepository::notifyMeshUnavailable]: the waiting objects the
    loop goes through (each is switched to [volume_lod] when its
    current volume is the one that failed), and the repository. *)
Definition notifyMeshUnavailable (mesh_params : LLVolumeParams)
    (request_lod volume_lod : Z) (R : LLMeshRepository)
    : option (list N * LLMeshRepository) :=
  let mesh_id := getSculptID mesh_params in
  loading ← lod_get (mLoadingMeshes R) request_lod;
  match loading !! mesh_id with
  | Some d =>
    Some (mVolumes d,
          with_mLoadingMeshes
            (lod_set (mLoadingMeshes R) request_lod (delete mesh_id loading)) R)
  | None => Some ([], R)
  end.

(** [LLMeshRepository::notifySkinInfoReceived]: the objects whose
    [notifySkinInfoLoaded] is called, and the repository.  [refs] is
    the reference count of the descriptor once the map and the
    notified objects hold it. *)
Definition notifySkinInfoReceived (info : LLMeshSkinInfo) (refs : Z)
    (R : LLMeshRepository) : list N * LLMeshRepository :=
  (* cache into LLPointer *)
  let R := with_gMeshRepo_mSkinMap
             (<[si_mMeshID info := {| sr_info := info; getNumRefs := refs |}]>
                (gMeshRepo_mSkinMap R)) R in
  match mLoadingSkins R !! si_mMeshID info with
  | Some d =>
    (mVolumes d, with_mLoadingSkins (delete (si_mMeshID info) (mLoadingSkins R)) R)
  | None => ([], R)
  end.

(** [LLMeshRepository::notifySkinInfoUnavailable]. *)
Definition notifySkinInfoUnavailable (mesh_id : LLUUID) (R : LLMeshRepository)
    : list N * LLMeshRepository :=
  match mLoadingSkins R !! mesh_id with
  | Some d => (mVolumes d, with_mLoadingSkins (delete mesh_id (mLoadingSkins R)) R)
  | None => ([], R)
  end.

(** ** Vocabulary for the further statements *)

(** The capability fields, the cache and the tables a refused GET
    leaves alone. *)
Definition refusal_keeps (st st' : LLMeshRepoThread) : Prop :=
  mGetMeshCapability st' = mGetMeshCapability st /\
  mLegacyGetMeshCapability st' = mLegacyGetMeshCapability st /\
  mLegacyGetMesh2Capability st' = mLegacyGetMesh2Capability st /\
  mLegacyGetMeshVersion st' = mLegacyGetMeshVersion st /\
  mDisk st' = mDisk st /\ mMeshHeader st' = mMeshHeader st /\
  mPendingLOD st' = mPendingLOD st /\
  mHttpRequestSet st' = mHttpRequestSet st /\ mHttpRequest st' = mHttpRequest st.

(** A transport that refuses every GET while the agent has a region
    and the application keeps running. *)
Definition refusing (o : Oracle) : Prop :=
  has_region o = true /\ http_handle o = None /\ app_exiting o = false.

(** The number of requests in flight. *)
Definition set_size (st : LLMeshRepoThread) : Z := Z.of_nat (length (mHttpRequestSet st)).

(** The entry of the loading table for one mesh and LOD. *)
Definition loading_entry (R : LLMeshRepository) (id : LLUUID) (lod : Z)
    : option MeshLoadData :=
  loading ← lod_get (mLoadingMeshes R) lod; loading !! id.

(** The entries of the three queues the push of pending requests
    feeds. *)
Definition queued (st : LLMeshRepoThread) : nat :=
  length (mLODReqQ st) + length (mHeaderReqQ st) + length (mSkinRequests st).

End Pipeline.

(** ** A concrete environment for worked examples

    A stand-in for the decoders: the header decoder yields [decoded]
    whatever the bytes, and the skin and volume decoders accept a block
    exactly when [parses] says so. *)

Definition example_default_header : LLMeshHeader :=
  {| mVersion := -1; mSkinOffset := -1; mSkinSize := -1;
     mPhysicsConvexOffset := -1; mPhysicsConvexSize := -1;
     mPhysicsMeshOffset := -1; mPhysicsMeshSize := -1;
     mLodOffset := mkLods (-1) 0 0 0; mLodSize := mkLods (-1) 0 0 0;
     mHeaderSize := -1; m404 := false;
     mSkinInCache := false; mPhysicsConvexInCache := false;
     mPhysicsMeshInCache := false; mLodInCache := lod_fill false |}.

Definition example_externals (decoded : DecodeResult) (parses : buffer -> bool)
    : Externals :=
  {| LLSD := buffer;
     LLSD_undef := [];
     LLMeshHeader_default := example_default_header;
     strip_deprecated_header := fun _ dsize => (0, dsize, 0);
     fromBinary := fun _ _ => decoded;
     unzip_llsd := fun data _ => if parses data then Some data else None;
     unpackVolumeFaces := fun data _ => if parses data then Some [[0; 1; 2]] else None;
     asString := fun _ => "00000000-0000-0000-0000-00000000000a"%string;
     getMaxSize := 2 ^ 31 - 1 |}.

Definition example_counters : Counters :=
  {| sMeshRequestCount := 0; sHTTPRequestCount := 0; sHTTPLargeRequestCount := 0;
     sLODProcessing := 0; sCacheBytesRead := 0; sCacheReads := 0;
     sCacheBytesWritten := 0; sCacheBytesHeaders := 0; sCacheWrites := 0;
     sHTTPRetryCount := 0; sHTTPErrorCount := 0; sBytesReceived := 0;
     sActiveHeaderRequests := 0; sActiveLODRequests := 0; sActiveSkinRequests := 0 |}.

(** A worker with nothing queued, a mesh capability and the given
    headers and cache blobs. *)
Definition example_thread `{Externals} (headers : gmap LLUUID LLMeshHeader)
    (disk : gmap LLUUID buffer) : LLMeshRepoThread :=
  {| mMeshHeader := headers; mPendingLOD := ∅; mSkinRequests := [];
     mLODReqQ := []; mHeaderReqQ := []; mHttpRequestSet := []; mHttpRequest := [];
     mLoadedQ := []; mUnavailableQ := []; mSkinInfoQ := []; mSkinUnavailableQ := [];
     mDecompositionQ := []; mSkinMap := ∅; mMeshThreadPool := []; mWorkQueue := [];
     mShuttingDown := false;
     mGetMeshCapability := "https://sim.example/cap/mesh";
     mLegacyGetMeshCapability := EmptyString;
     mLegacyGetMesh2Capability := EmptyString;
     mLegacyGetMeshVersion := 0;
     mCounters := example_counters; mDisk := disk |}.

Definition example_repo `{Externals} (st : LLMeshRepoThread) : LLMeshRepository :=
  {| mLoadingMeshes := lod_fill ∅; mLoadingSkins := ∅; mPendingRequests := [];
     gMeshRepo_mSkinMap := ∅; sLODPending := 0; mThread := st |}.

(** An environment in which everything succeeds; the transport hands
    out [handle]. *)
Definition example_oracle (handle : Z) : Oracle :=
  {| has_region := true; new_ok := true; post_ok := true;
     http_handle := Some handle; disable_range_req := false; app_exiting := false |}.

Definition example_metrics : Metrics :=
  {| first_start := true; metrics_teleport_start_count := 0; sQuiescentTimer := [] |}.


(** ** A run with one rigged mesh

    Object 1 asks for the skin of mesh 10 and for its LOD 2.  The
    header answer carries LOD 2 inside the bytes in hand and declares a
    skin block beyond them. *)

Definition rigged_header : LLMeshHeader :=
  {| mVersion := 1; mSkinOffset := 100; mSkinSize := 50;
     mPhysicsConvexOffset := 0; mPhysicsConvexSize := 0;
     mPhysicsMeshOffset := 0; mPhysicsMeshSize := 0;
     mLodOffset := mkLods 0 0 0 0; mLodSize := mkLods 0 0 4 0;
     mHeaderSize := 0; m404 := false;
     mSkinInCache := false; mPhysicsConvexInCache := false;
     mPhysicsMeshInCache := false; mLodInCache := lod_fill false |}.

Definition rigged_externals : Externals :=
  example_externals (DecodedMap rigged_header 8) (fun _ => true).

Definition rigged_body : buffer := replicate 16 x01.

Definition rigged_response : HttpResponse :=
  {| getStatus := HttpCode 200; getRetries := 0; getRange := (0, 0, 0);
     getBody := Some rigged_body |}.

Definition rigged_view : VolumeView :=
  {| has_volume_group := false; lod_usable := fun _ => false |}.

Definition rigged_env (base : Z) (i : nat) : Oracle := example_oracle (base + Z.of_nat i).

Definition rigged_start : LLMeshRepository :=
  @example_repo rigged_externals (@example_thread rigged_externals ∅ ∅).

(** [getSkinInfo(10, object 1)], then [loadMesh(object 1, 10, 2, -1)]. *)
Definition rigged_asked : LLMeshRepository :=
  let R := snd (@getSkinInfo rigged_externals 10%N (Some 1%N) rigged_start) in
  match @loadMesh rigged_externals rigged_view 1%N {| getSculptID := 10%N |} 2 (-1)
          example_metrics R with
  | Some (_, _, R) => R
  | None => R
  end.

(** The main thread pushes both pending requests to the worker. *)
Definition rigged_dispatched : LLMeshRepository :=
  default rigged_asked
    (@dispatch_pending rigged_externals (fun _ l => l) 100 rigged_asked).

(** First worker pass, at time 0. *)
Definition rigged_pass1 : LLMeshRepository :=
  default rigged_dispatched
    (@run_pass rigged_externals 10 (rigged_env 100) 0%Q 100 rigged_dispatched).

(** The header GET completes. *)
Definition rigged_header_handler : LLMeshHandlerBase :=
  {| hKind := LLMeshHeaderHandler; hMeshID := 10%N; mProcessed := false;
     mHttpHandle := 100; mOffset := 0; mRequestedBytes := MESH_HEADER_SIZE |}.

Definition rigged_header_in : LLMeshRepository :=
  default rigged_pass1
    (@LLMeshHeaderHandler_onCompleted rigged_externals (example_oracle 0)
       rigged_header_handler rigged_response rigged_pass1).

(** Second worker pass, one second later. *)
Definition rigged_pass2 : LLMeshRepository :=
  default rigged_header_in
    (@run_pass rigged_externals 10 (rigged_env 200) 1%Q 100 rigged_header_in).


(** ** Further sample states *)

(** Mesh 10 with its header stored (8 header bytes), LOD 2 and the
    skin block marked in-cache, over a cache blob that is all zeros. *)
Definition blank_header : LLMeshHeader :=
  set_mHeaderSize 8
    {| mVersion := 1; mSkinOffset := 100; mSkinSize := 50;
       mPhysicsConvexOffset := 0; mPhysicsConvexSize := 0;
       mPhysicsMeshOffset := 0; mPhysicsMeshSize := 0;
       mLodOffset := mkLods 0 0 0 0; mLodSize := mkLods 0 0 4 0;
       mHeaderSize := 0; m404 := false;
       mSkinInCache := true; mPhysicsConvexInCache := false;
       mPhysicsMeshInCache := false; mLodInCache := mkLods false false true false |}.

Definition blank_thread : LLMeshRepoThread :=
  @example_thread rigged_externals {[ 10%N := blank_header ]}
                  {[ 10%N := replicate 200 x00 ]}.




Definition partial_response : HttpResponse :=
  {| getStatus := HttpCode HTTP_PARTIAL_CONTENT; getRetries := 0;
     getRange := (0, 0, 0); getBody := Some rigged_body |}.




(** * Properties *)

(** ** Machine integers *)


Lemma wrapS32_small z : - 2 ^ 31 <= z < 2 ^ 31 -> wrapS32 z = z.
Proof. intros; unfold wrapS32; rewrite Z.mod_small; lia. Qed.

Lemma wrapU32_zero_iff z :
  - 2 ^ 31 <= z < 2 ^ 31 -> wrapU32 z = 0 <-> z = 0.
Proof.
  intros Hz; unfold wrapU32; split; [|intros ->; reflexivity].
  intros H. destruct (Z_lt_le_dec z 0) as [Hn|Hp].
  - assert (z mod 2 ^ 32 = z + 2 ^ 32); [|lia].
    symmetry; apply (Z.mod_unique_pos _ _ (-1)); lia.
  - rewrite Z.mod_small in H; lia.
Qed.

(** ** Retry budget and back-off *)

Section RetryFacts.










(** Eight failures in a row: the recorded delays are 0.5, 1, 2, 4, 8,
    16, 32 and 64 s. *)
Example backoff_schedule :
  let step r := updateTime 0 r in
  map (fun n => delay (Nat.iter n step RequestStats_new)) (seq 1 8)
  = [1 # 2; 2 # 2; 4 # 2; 8 # 2; 16 # 2; 32 # 2; 64 # 2; 128 # 2]%Q.
Proof. vm_compute. reflexivity. Qed.

End RetryFacts.

(** ** Frame properties of the worker's operations *)

Section PipelineFacts.
Context `{Ext : Externals}.

#[local] Arguments lodReceived : simpl never.
#[local] Arguments skinInfoReceived : simpl never.
#[local] Arguments decompositionReceived : simpl never.
#[local] Arguments physicsShapeReceived : simpl never.
#[local] Arguments issue_request : simpl never.
#[local] Arguments constructUrl : simpl never.
#[local] Arguments headerReceived : simpl never.


Lemma same_core_refl st : same_core st st.
Proof. now unfold same_core. Qed.

Lemma same_core_trans a b c : same_core a b -> same_core b c -> same_core a c.
Proof. unfold same_core. intros (? & ? & ?) (? & ? & ?). repeat split; congruence. Qed.

Lemma loadMeshLOD_frame p lod st st' :
  loadMeshLOD p lod st = Some st' ->
  same_core st st' /\ mHttpRequest st' = mHttpRequest st.
Proof.
  unfold loadMeshLOD, same_core. intros H.
  repeat case_match; simplify_eq; cbn; auto.
Qed.

Lemma destroy_handler_frame o hd st st' :
  destroy_handler o hd st = Some st' ->
  same_core st st' /\ mHttpRequest st' = mHttpRequest st.
Proof.
  unfold destroy_handler, lockAndLoadMeshLOD, same_core. intros H.
  repeat case_match; simplify_eq; cbn in *; simplify_eq; cbn; auto.
  all: apply bind_Some in H as (st1 & Hl & Hr); simplify_eq; cbn;
       apply loadMeshLOD_frame in Hl as ((? & ? & ?) & ?); auto.
Qed.

Lemma getByteRange_spec o url v off len st :
  exists st1, getByteRange o url v off len st = (http_handle o, st1) /\
    same_core st st1 /\ (http_handle o = None -> st1 = st).
Proof.
  unfold getByteRange, same_core.
  destruct (http_handle o); case_match; eexists; (split; [reflexivity|]); cbn; auto.
  all: repeat split; auto; discriminate.
Qed.

Lemma construct_handler_frame k st :
  same_core st (construct_handler k st) /\
  mHttpRequest (construct_handler k st) = mHttpRequest st.
Proof. unfold same_core. destruct k; cbn; auto. Qed.

Lemma issue_request_spec o k id url v off sz st b st' :
  issue_request o k id url v off sz st = Some (b, st') ->
  mMeshHeader st' = mMeshHeader st /\ mDisk st' = mDisk st /\
  ((b = false /\ http_handle o = None /\ mHttpRequestSet st' = mHttpRequestSet st
    /\ mHttpRequest st' = mHttpRequest st) \/
   (b = true /\ exists h, http_handle o = Some h /\
      mHttpRequestSet st' = mHttpRequestSet st
        ++ [with_mHttpHandle h (new_handler k id off sz)])).
Proof.
  unfold issue_request. intros H.
  destruct (getByteRange_spec o url v off sz (construct_handler k st))
    as (st1 & Hg & (Hh & Hs & Hd) & Hnone).
  destruct (construct_handler_frame k st) as ((Hh' & Hs' & Hd') & Hr').
  rewrite Hg in H. destruct (http_handle o) as [h|] eqn:Ho.
  - simplify_eq. cbn. repeat split; try congruence. right. split; auto.
    exists h. split; auto. congruence.
  - rewrite (Hnone eq_refl) in *. cbn in H.
    apply bind_Some in H as (st2 & Hl & Hr); simplify_eq.
    apply destroy_handler_frame in Hl as ((? & ? & ?) & ?).
    repeat split; try congruence. left. repeat split; congruence.
Qed.

Lemma lodReceived_frame p lod d sz st r st' :
  lodReceived p lod d sz st = (r, st') -> same_core st st'.
Proof.
  unfold lodReceived, same_core. intros H.
  repeat case_match; simplify_eq; cbn; auto.
Qed.

Lemma skinInfoReceived_frame id d sz st r st' :
  skinInfoReceived id d sz st = (r, st') -> same_core st st'.
Proof.
  unfold skinInfoReceived, same_core. intros H.
  repeat case_match; simplify_eq; cbn; auto.
Qed.

Lemma decompositionReceived_frame id d sz st r st' :
  decompositionReceived id d sz st = (r, st') -> same_core st st'.
Proof.
  unfold decompositionReceived, same_core. intros H.
  repeat case_match; simplify_eq; cbn; auto.
Qed.

Lemma physicsShapeReceived_frame id d sz st r st' :
  physicsShapeReceived id d sz st = (r, st') -> same_core st st'.
Proof.
  unfold physicsShapeReceived, same_core. intros H.
  repeat case_match; simplify_eq; cbn; auto.
Qed.

Ltac fetch_branch :=
  repeat match goal with
  | H : issue_request _ _ _ _ _ _ _ _ = Some _ |- _ =>
      apply issue_request_spec in H as (? & ? & [(? & ? & ? & ?)|(? & ? & ? & ?)])
  | H : lodReceived _ _ _ _ _ = _ |- _ => apply lodReceived_frame in H as (? & ? & ?)
  | H : skinInfoReceived _ _ _ _ = _ |- _ => apply skinInfoReceived_frame in H as (? & ? & ?)
  | H : decompositionReceived _ _ _ _ = _ |- _ =>
      apply decompositionReceived_frame in H as (? & ? & ?)
  | H : physicsShapeReceived _ _ _ _ = _ |- _ =>
      apply physicsShapeReceived_frame in H as (? & ? & ?)
  end.

Ltac fetch_effect_tac :=
  repeat case_match; simplify_eq; cbn in *; auto; fetch_branch; subst; cbn in *;
  (split; [congruence|]);
  first [ left; congruence
        | right; split; [eauto|]; do 3 eexists; etrans; [eassumption|];
          f_equal; congruence ].

Lemma fetchMeshSkinInfo_effect o id st b st' :
  fetchMeshSkinInfo o id st = Some (b, st') ->
  fetch_effect LLMeshSkinInfoHandler id st st'.
Proof.
  unfold fetchMeshSkinInfo, fetch_effect. intros H.
  destruct (mMeshHeader st !! id) as [hdr|] eqn:Hh; [|simplify_eq; auto].
  fetch_effect_tac.
Qed.

Lemma fetchMeshDecomposition_effect o id st b st' :
  fetchMeshDecomposition o id st = Some (b, st') ->
  fetch_effect LLMeshDecompositionHandler id st st'.
Proof.
  unfold fetchMeshDecomposition, fetch_effect. intros H.
  destruct (mMeshHeader st !! id) as [hdr|] eqn:Hh; [|simplify_eq; auto].
  fetch_effect_tac.
Qed.

Lemma fetchMeshPhysicsShape_effect o id st b st' :
  fetchMeshPhysicsShape o id st = Some (b, st') ->
  fetch_effect LLMeshPhysicsShapeHandler id st st'.
Proof.
  unfold fetchMeshPhysicsShape, fetch_effect. intros H.
  destruct (mMeshHeader st !! id) as [hdr|] eqn:Hh; [|simplify_eq; auto].
  fetch_effect_tac.
Qed.

Lemma fetchMeshLOD_effect o p lod st b st' :
  fetchMeshLOD o p lod st = Some (b, st') ->
  fetch_effect (LLMeshLODHandler lod) (getSculptID p) st st'.
Proof.
  unfold fetchMeshLOD, fetch_effect. intros H.
  destruct (mMeshHeader st !! getSculptID p) as [hdr|] eqn:Hh; [|simplify_eq; auto].
  case_match; [|simplify_eq; cbn; auto].
  apply bind_Some in H as (lod_offset & _ & H).
  apply bind_Some in H as (size & _ & H).
  apply bind_Some in H as (in_cache & _ & H).
  fetch_effect_tac.
Qed.

(** ** Header-before-body as an invariant *)



Lemma grows_of_eq st st' :
  mHttpRequestSet st' = mHttpRequestSet st ->
  (forall id, is_Some (mMeshHeader st !! id) -> is_Some (mMeshHeader st' !! id)) ->
  grows st st'.
Proof. intros Hs Hh. split; [exact Hh|]. intros h. rewrite Hs. auto. Qed.







Lemma push_LODRequest_core req st : same_core st (push_LODRequest req st).
Proof. unfold same_core; cbn; auto. Qed.


Lemma foldl_push_LODRequest_core l : forall st,
  same_core st (foldl (fun st req => push_LODRequest req st) st l).
Proof.
  induction l as [|r l IH]; intros st; cbn; [apply same_core_refl|].
  eapply same_core_trans; [|apply IH]. apply push_LODRequest_core.
Qed.


Lemma header_skin_core id data sz l R :
  same_core (mThread R) (mThread (header_skin id data sz l R)).
Proof.
  unfold header_skin. repeat case_match; simplify_eq; cbn;
    try apply same_core_refl.
  all: repeat match goal with
       | H : skinInfoReceived _ _ _ _ = _ |- _ =>
           apply skinInfoReceived_frame in H as (? & ? & ?)
       end; unfold same_core; cbn in *; repeat split; congruence.
Qed.

Lemma header_pending_lod_core p data sz l pend st i :
  same_core st (header_pending_lod p data sz l pend st i).
Proof.
  unfold header_pending_lod. repeat case_match; simplify_eq;
    try apply same_core_refl.
  all: repeat match goal with
       | H : lodReceived _ _ _ _ _ = _ |- _ => apply lodReceived_frame in H as (? & ? & ?)
       end; unfold same_core; cbn in *; repeat split; congruence.
Qed.

Lemma header_pending_core p data sz l st :
  same_core st (header_pending p data sz l st).
Proof.
  unfold header_pending. destruct (mPendingLOD st !! _); [|apply same_core_refl].
  set (st0 := with_mPendingLOD _ st).
  assert (H0 : same_core st st0) by (unfold same_core; cbn; auto).
  revert H0. generalize st0. clear st0. generalize lod_indices.
  intros idx. induction idx as [|i idx IH]; intros st0 H0; cbn; [exact H0|].
  apply IH. eapply same_core_trans; [exact H0|]. apply header_pending_lod_core.
Qed.



Lemma unavailable_all_lods_core p st : same_core st (unavailable_all_lods p st).
Proof. unfold same_core; cbn; auto. Qed.





Lemma run_work_queue_core st : same_core st (run_work_queue st).
Proof.
  unfold run_work_queue.
  assert (H0 : same_core st (with_mWorkQueue [] st)) by (unfold same_core; cbn; auto).
  revert H0. generalize (with_mWorkQueue [] st). generalize (mWorkQueue st).
  intros q. induction q as [|w q IH]; intros st0 H0; cbn; [exact H0|].
  apply IH. eapply same_core_trans; [exact H0|].
  destruct w; unfold same_core; cbn; auto.
Qed.


Lemma file_write_grows id pos data st : grows st (file_write id pos data st).
Proof. apply grows_of_eq; cbn; auto. Qed.














(** ** Header before body *)



Lemma lod_get_in_range {A} (a : Lods A) lod :
  0 <= lod < NUM_LODS -> exists x, lod_get a lod = Some x.
Proof.
  unfold NUM_LODS. intros H.
  assert (Hc : lod = 0 \/ lod = 1 \/ lod = 2 \/ lod = 3) by lia.
  destruct Hc as [->|[->|[->| ->]]]; cbn; eauto.
Qed.

Lemma lod_get_set {A} (a : Lods A) lod x :
  0 <= lod < NUM_LODS -> lod_get (lod_set a lod x) lod = Some x.
Proof.
  unfold NUM_LODS. intros H.
  assert (Hc : lod = 0 \/ lod = 1 \/ lod = 2 \/ lod = 3) by lia.
  destruct Hc as [->|[->|[->| ->]]]; reflexivity.
Qed.



(** ** Going to the network *)

Lemma loadMeshLOD_untouched p lod st st' :
  loadMeshLOD p lod st = Some st' -> untouched st st'.
Proof.
  unfold loadMeshLOD, untouched. intros H.
  repeat case_match; simplify_eq; cbn; repeat split; auto.
Qed.

Lemma destroy_handler_untouched o hd st st' :
  destroy_handler o hd st = Some st' -> untouched st st'.
Proof.
  unfold destroy_handler, lockAndLoadMeshLOD. intros H.
  repeat case_match; simplify_eq; cbn in *; simplify_eq;
    try (unfold untouched; cbn; repeat split; auto; fail).
  all: apply bind_Some in H as (st1 & Hl & Hr); simplify_eq;
       apply loadMeshLOD_untouched in Hl; unfold untouched in *; cbn; tauto.
Qed.

Lemma issue_request_network o k id url v off sz st b st' :
  issue_request o k id url v off sz st = Some (b, st') ->
  untouched st st' /\
  match http_handle o with
  | Some handle =>
    b = true /\
    mHttpRequestSet st' =
      mHttpRequestSet st ++ [with_mHttpHandle handle (new_handler k id off sz)] /\
    exists get, mHttpRequest st' = mHttpRequest st ++ [get] /\
                get_url get = url /\
                (disable_range_req o = false ->
                 get_offset get = off /\ get_len get = sz)
  | None =>
    b = false /\ mHttpRequestSet st' = mHttpRequestSet st /\
    mHttpRequest st' = mHttpRequest st
  end.
Proof.
  unfold issue_request, getByteRange. intros H.
  destruct (http_handle o) as [h|] eqn:Ho.
  - destruct (sz <? LARGE_MESH_FETCH_THRESHOLD); simplify_eq.
    all: split; [destruct k; unfold untouched; cbn; repeat split; auto|].
    all: split; [reflexivity|]; split; [destruct k; reflexivity|].
    all: eexists; split; [destruct k; reflexivity|]; cbn; split; [reflexivity|].
    all: intros ->; auto.
  - assert (Hd : destroy_handler o (new_handler k id off sz) (construct_handler k st) = Some st' /\ b = false).
    { destruct (sz <? LARGE_MESH_FETCH_THRESHOLD); cbn in H;
      apply bind_Some in H as (st1 & Hl & Hr); simplify_eq; auto. }
    destruct Hd as [Hd ->].
    pose proof (destroy_handler_untouched _ _ _ _ Hd) as Hu.
    apply destroy_handler_frame in Hd as ((? & ? & ?) & ?).
    split; [|repeat split; destruct k; cbn in *; congruence].
    unfold untouched in *. destruct k; cbn in *; tauto.
Qed.
(** ** Physics shape of a mesh that has none *)



(** ** Blank blocks in the cache *)

Lemma constructUrl_caps o st st' id :
  mGetMeshCapability st' = mGetMeshCapability st ->
  mLegacyGetMeshCapability st' = mLegacyGetMeshCapability st ->
  mLegacyGetMesh2Capability st' = mLegacyGetMesh2Capability st ->
  mLegacyGetMeshVersion st' = mLegacyGetMeshVersion st ->
  constructUrl o st' id = constructUrl o st id.
Proof. unfold constructUrl. now intros -> -> -> ->. Qed.


Lemma issue_request_defined o k id url v off sz st :
  (forall lod, k = LLMeshLODHandler lod -> is_Some (mMeshHeader st !! id)) ->
  exists b st', issue_request o k id url v off sz st = Some (b, st').
Proof.
  intros Hk. unfold issue_request.
  destruct (getByteRange_spec o url v off sz (construct_handler k st))
    as (st1 & -> & _ & Hnone).
  destruct (http_handle o); [eauto|]. rewrite (Hnone eq_refl).
  unfold destroy_handler, lockAndLoadMeshLOD, loadMeshLOD. cbn.
  destruct k; repeat case_match; cbn; eauto.
  all: exfalso; match goal with
       | H : hasHeader _ _ = false |- _ =>
           apply bool_decide_eq_false in H; apply H
       end; cbn; eauto.
Qed.

Lemma zero_lod_block o p lod st buf offset size :
    cached_lod_block st (getSculptID p) lod = Some (buf, offset, size) ->
    new_ok o = true ->
    first_kb_zero buf size = true ->
    exists b st',
      fetchMeshLOD o p lod st = Some (b, st') /\
      untouched st st' /\
      went_to_network o (LLMeshLODHandler lod) (getSculptID p) offset size st b st' /\
      (nonempty (fst (constructUrl o st (getSculptID p))) = false ->
       mUnavailableQ st' = mUnavailableQ st ++ [new_LODRequest p lod]).
Proof.
  unfold cached_lod_block. intros Hc Hnew Hzero.
  apply bind_Some in Hc as (header & Hh & Hc).
  apply bind_Some in Hc as (lod_offset & Hlo & Hc).
  apply bind_Some in Hc as (sz & Hsz & Hc).
  apply bind_Some in Hc as (in_cache & Hic & Hc).
  case_match eqn:Hcond; [|discriminate]. simplify_eq.
  apply andb_prop in Hcond as [Hcond Hcov]. apply andb_prop in Hcond as [Hpos Hok].
  unfold fetchMeshLOD, went_to_network. rewrite Hh, Hpos, Hlo, Hsz, Hic. cbn [mbind option_bind].
  rewrite Hok.
  assert (Hcov' : forall f, cache_covers (count f st) (getSculptID p) in_cache
     (wrapS32 (wrapS32 (wrapU32 (mHeaderSize header) + lod_offset) + CACHE_PREAMBLE_SIZE)) size = true) by (intros; exact Hcov).
  rewrite Hcov', Hnew. cbn [negb].
  assert (Hrd : forall f g h, file_read (count f (count g (count h st))) (getSculptID p)
     (wrapS32 (wrapS32 (wrapU32 (mHeaderSize header) + lod_offset) + CACHE_PREAMBLE_SIZE)) size
     = file_read st (getSculptID p)
     (wrapS32 (wrapS32 (wrapU32 (mHeaderSize header) + lod_offset) + CACHE_PREAMBLE_SIZE)) size) by reflexivity.
  rewrite Hrd, Hzero. cbn [negb].
  assert (Hcu : forall f g h, constructUrl o (count f (count g (count h st))) (getSculptID p)
     = constructUrl o st (getSculptID p)) by reflexivity.
  rewrite Hcu.
  destruct (constructUrl o st (getSculptID p)) as [url v] eqn:Hurl. cbn [fst].
  destruct (nonempty url) eqn:Hne.
  - match goal with |- context [issue_request ?o ?k ?id ?u ?v ?off ?sz ?s] =>
      destruct (issue_request_defined o k id u v off sz s) as (b & st' & Hi) end.
    { intros _ _. cbn. rewrite Hh. eauto. }
    rewrite Hi. exists b, st'. split; [reflexivity|].
    apply issue_request_network in Hi as [Hu Hn].
    split; [unfold untouched in *; cbn in *; tauto|]. split; [|discriminate].
    destruct (http_handle o); cbn in *; tauto.
  - eexists _, _. split; [reflexivity|]. unfold untouched. cbn. tauto.
Qed.

Lemma zero_skin_block o id st buf offset size :
    cached_skin_block st id = Some (buf, offset, size) ->
    new_ok o = true ->
    first_kb_zero buf size = true ->
    exists b st',
      fetchMeshSkinInfo o id st = Some (b, st') /\
      untouched st st' /\
      went_to_network o LLMeshSkinInfoHandler id offset size st b st' /\
      (nonempty (fst (constructUrl o st id)) = false ->
       mSkinUnavailableQ st' = mSkinUnavailableQ st ++ [new_UUIDBasedRequest id]).
Proof.
  unfold cached_skin_block. intros Hc Hnew Hzero.
  apply bind_Some in Hc as (header & Hh & Hc).
  case_match eqn:Hcond; [|discriminate]. simplify_eq.
  apply andb_prop in Hcond as [Hcond Hcov]. apply andb_prop in Hcond as [Hpos Hok].
  unfold fetchMeshSkinInfo, went_to_network. rewrite Hh, Hpos, Hok.
  assert (Hcov' : forall f, cache_covers (count f st) id (mSkinInCache header)
     (wrapS32 (wrapS32 (wrapU32 (mHeaderSize header) + mSkinOffset header)
               + CACHE_PREAMBLE_SIZE)) (mSkinSize header) = true)
    by (intros; exact Hcov).
  rewrite Hcov', Hnew. cbn [negb].
  assert (Hrd : forall f g h, file_read (count f (count g (count h st))) id
     (wrapS32 (wrapS32 (wrapU32 (mHeaderSize header) + mSkinOffset header)
               + CACHE_PREAMBLE_SIZE)) (mSkinSize header)
     = file_read st id
     (wrapS32 (wrapS32 (wrapU32 (mHeaderSize header) + mSkinOffset header)
               + CACHE_PREAMBLE_SIZE)) (mSkinSize header)) by reflexivity.
  rewrite Hrd, Hzero. cbn [negb].
  assert (Hcu : forall f g h, constructUrl o (count f (count g (count h st))) id
     = constructUrl o st id) by reflexivity.
  rewrite Hcu.
  destruct (constructUrl o st id) as [url v] eqn:Hurl. cbn [fst].
  destruct (nonempty url) eqn:Hne.
  - match goal with |- context [issue_request ?o ?k ?id ?u ?v ?off ?sz ?s] =>
      destruct (issue_request_defined o k id u v off sz s) as (b & st' & Hi) end.
    { discriminate. }
    rewrite Hi. exists b, st'. split; [reflexivity|].
    apply issue_request_network in Hi as [Hu Hn].
    split; [unfold untouched in *; cbn in *; tauto|]. split; [|discriminate].
    destruct (http_handle o); cbn in *; tauto.
  - eexists _, _. split; [reflexivity|]. unfold untouched. cbn. tauto.
Qed.

(** A cached block that is not blank but does not parse: the pool
    task clears every presence bit of the stored header, rewrites the
    preamble and queues the LOD again. *)
Lemma unparsable_lod_block_invalidates p lod buf size st header :
  mShuttingDown st = false ->
  mMeshHeader st !! getSculptID p = Some header ->
  0 < mHeaderSize header -> CACHE_PREAMBLE_SIZE <= getMaxSize ->
  size <> 0 -> unpackVolumeFaces buf size = None ->
  let st' := run_pool_task (CachedLodTask p lod buf size) st in
  mMeshHeader st' !! getSculptID p = Some (clear_in_cache header) /\
  mDisk st' !! getSculptID p =
    Some (write_at 0 (le32 CACHE_PREAMBLE_VERSION ++ le32 (mHeaderSize header) ++ le32 0)
            (default [] (mDisk st !! getSculptID p))) /\
  mLODReqQ st' = mLODReqQ st ++ [new_LODRequest p lod] /\
  mHttpRequestSet st' = mHttpRequestSet st.
Proof.
  intros Hsd Hh Hpos Hmax Hsz Hun. unfold run_pool_task, lodReceived.
  rewrite Hsd, Hun. apply Z.eqb_neq in Hsz. rewrite Hsz.
  unfold invalidate_cache_flags. rewrite Hh.
  apply Z.ltb_lt in Hpos. apply Z.leb_le in Hmax.
  cbn [clear_in_cache set_in_cache mHeaderSize]. rewrite Hpos, Hmax. cbn.
  rewrite !lookup_insert_eq. auto.
Qed.

(** C1 (as amended).  A cached LOD or skin block whose first kilobyte
    is blank is not parsed and not trusted, and nothing is
    invalidated: the stored headers with their presence bits, the
    cache blobs with their preambles, the parse pool and the delivered
    results stay as they were.  The fetch goes on to the network path:
    with a capability URL and a transport handle it adds the handler
    and submits the GET for the sub-section's range; with a URL and no
    handle it returns [false]; with no URL it marks the request
    unavailable. *)
Theorem blank_cache_block_goes_to_network :
  (forall o p lod st buf offset size,
     cached_lod_block st (getSculptID p) lod = Some (buf, offset, size) ->
     new_ok o = true ->
     first_kb_zero buf size = true ->
     exists b st',
       fetchMeshLOD o p lod st = Some (b, st') /\
       untouched st st' /\
       went_to_network o (LLMeshLODHandler lod) (getSculptID p) offset size st b st' /\
       (nonempty (fst (constructUrl o st (getSculptID p))) = false ->
        mUnavailableQ st' = mUnavailableQ st ++ [new_LODRequest p lod])) /\
  (forall o id st buf offset size,
     cached_skin_block st id = Some (buf, offset, size) ->
     new_ok o = true ->
     first_kb_zero buf size = true ->
     exists b st',
       fetchMeshSkinInfo o id st = Some (b, st') /\
       untouched st st' /\
       went_to_network o LLMeshSkinInfoHandler id offset size st b st' /\
       (nonempty (fst (constructUrl o st id)) = false ->
        mSkinUnavailableQ st' = mSkinUnavailableQ st ++ [new_UUIDBasedRequest id])).
Proof. split; [exact zero_lod_block|exact zero_skin_block]. Qed.

(** ** Header parsing *)





(** *** What follows a stored header *)

Lemma lod_get_same_range {A B} (a : Lods A) (b : Lods B) i :
  is_Some (lod_get a i) -> is_Some (lod_get b i).
Proof.
  destruct i as [|[[|[]|]|[|[]|]|]|]; cbn; intros [x Hx]; try discriminate; eauto.
Qed.






(** ** HTTP completion *)

Lemma slice_whole (b : buffer) : slice 0 (Z.of_nat (length b)) b = b.
Proof. unfold slice. rewrite Nat2Z.id. cbn. apply firstn_all. Qed.

(** C7.  A successful completion with status 206 whose range triple
    reads offset 0 and length 0 is taken to start at the requested
    offset: no range-mismatch failure is raised, the body offset is 0,
    and (when the copy buffer can be allocated) the handler's data
    path receives the whole body from its first byte.  A completion
    without body bytes goes to the data path with no data. *)
Theorem partial_content_without_range (mOffset : Z) response new_ok full :
  0 <= mOffset < 2 ^ 32 ->
  getStatus response = HttpCode HTTP_PARTIAL_CONTENT ->
  getRange response = (0, 0, full) ->
  (forall body, getBody response = Some body ->
                Z.of_nat (length body) + mOffset < 2 ^ 64) ->
  match getBody response with
  | Some (b :: body) =>
    let n := Z.of_nat (length (b :: body)) in
    onCompleted_calls mOffset response new_ok =
      if new_ok
      then ([processData 0 (Some (b :: body)) (wrapS32 n)], 0, wrapU32 n)
      else ([processFailure (LLCoreStatus HE_BAD_ALLOC);
             processData 0 None (wrapS32 n)], 0, 0)
  | _ => onCompleted_calls mOffset response new_ok = ([processData 0 None 0], 0, 0)
  end.
Proof.
  intros Hoff Hstatus Hrange Hsize. unfold onCompleted_calls.
  rewrite Hstatus, Hrange.
  change (status_ok (HttpCode HTTP_PARTIAL_CONTENT)) with true.
  change (status_eqb (HttpCode HTTP_PARTIAL_CONTENT) (HttpCode HTTP_PARTIAL_CONTENT)) with true.
  cbn [negb].
  destruct (getBody response) as [[|b body]|] eqn:Hbody; [reflexivity| |reflexivity].
  specialize (Hsize _ eq_refl). cbv zeta.
  set (n := Z.of_nat (length (b :: body))) in *.
  assert (Hn : 0 < n) by (subst n; cbn [length]; lia).
  assert (Hpos : (0 <? n) = true) by (apply Z.ltb_lt; lia). rewrite Hpos.
  change ((0 =? 0) && (0 =? 0)) with true. cbv iota.
  replace (mOffset - mOffset) with 0 by lia.
  change (wrapU32 0) with 0. change (wrapS32 0) with 0.
  assert (H1 : (mOffset <? mOffset) = false) by (apply Z.ltb_irrefl).
  assert (H2 : (wrapU64 (mOffset + n) <=? mOffset) = false).
  { apply Z.leb_gt. unfold wrapU64. rewrite Z.mod_small; lia. }
  assert (H3 : (n <=? 0) = false) by (apply Z.leb_gt; lia).
  rewrite H1, H2, H3. cbn [orb].
  replace (n - 0) with n by lia.
  assert (H4 : wrapU64 n = n) by (unfold wrapU64; rewrite Z.mod_small; lia).
  rewrite H4. cbn [default]. rewrite !Z.sub_0_r. subst n. rewrite slice_whole. reflexivity.
Qed.

(** ** Registry front end *)

(** C10.  A [loadMesh] call whose requested LOD lies outside [0, 3]
    returns that LOD and hands the repository back as it was: no
    pending request, no loading-table entry, no change to any table or
    to the worker, and no index into the per-LOD loading tables.  Its
    one effect is the load-metrics ping made before the range check. *)
Theorem loadMesh_out_of_range view vobj p new_lod last_lod M R :
  new_lod < 0 \/ 3 < new_lod ->
  loadMesh view vobj p new_lod last_lod M R = Some (new_lod, metricsProgress 1 M, R).
Proof.
  intros Hr. unfold loadMesh, NUM_LODS.
  assert (Hb : (new_lod <? 0) || (4 <=? new_lod) = true).
  { apply orb_true_iff. destruct Hr; [left; apply Z.ltb_lt|right; apply Z.leb_le]; lia. }
  now rewrite Hb.
Qed.

(** *** Skin-info cull *)






(** * Further properties of the fetch path *)

(** ** Choice of the LOD that stands in *)

Lemma llclamp_0_3 lod :
  llclamp lod 0 3 = 0 \/ llclamp lod 0 3 = 1 \/ llclamp lod 0 3 = 2 \/ llclamp lod 0 3 = 3.
Proof.
  unfold llclamp. destruct (lod <? 0) eqn:H0; [now left|].
  destruct (3 <? lod) eqn:H3; [now right; right; right|].
  apply Z.ltb_ge in H0. apply Z.ltb_ge in H3. lia.
Qed.

Lemma lod_size_positive_range h j :
  lod_size_positive h j = true -> j = 0 \/ j = 1 \/ j = 2 \/ j = 3.
Proof.
  unfold lod_size_positive.
  destruct j as [|[[|[]|]|[|[]|]|]|]; cbn; try discriminate; lia.
Qed.

Ltac lod_cases h :=
  destruct (lod_size_positive h 0) eqn:?H0;
  destruct (lod_size_positive h 1) eqn:?H1;
  destruct (lod_size_positive h 2) eqn:?H2;
  destruct (lod_size_positive h 3) eqn:?H3.

Lemma getActualMeshLOD_at h c :
  c = 0 \/ c = 1 \/ c = 2 \/ c = 3 ->
  m404 h = false -> mVersion h <= MAX_MESH_VERSION ->
  getActualMeshLOD h c =
    if lod_size_positive h c then (c, h)
    else match find (lod_size_positive h) (reverse (seqZ 0 c)) with
         | Some i => (i, h)
         | None =>
           match find (lod_size_positive h) (seqZ (c + 1) (3 - c)) with
           | Some i => (i, h)
           | None => (-1, set_m404 true h)
           end
         end.
Proof.
  intros Hc H404 Hv. unfold getActualMeshLOD. rewrite H404.
  assert (Hvb : (MAX_MESH_VERSION <? mVersion h) = false) by (apply Z.ltb_ge; lia).
  rewrite Hvb.
  assert (Hcl : llclamp c 0 3 = c) by (destruct Hc as [-> | [-> | [-> | ->]]]; reflexivity).
  rewrite Hcl. unfold NUM_LODS.
  replace (4 - (c + 1)) with (3 - c) by lia. reflexivity.
Qed.

(** X1.  [getActualMeshLOD] answers [-1] exactly when the header is
    marked 404, has a version above 999, or has no LOD of positive
    size; any other answer is a LOD in [0, 3] whose size in the header
    is positive.  The header is written to only in the last of the
    three cases, where it gets the 404 mark. *)
Theorem getActualMeshLOD_answer h lod :
  let r := fst (getActualMeshLOD h lod) in
  let h' := snd (getActualMeshLOD h lod) in
  (r = -1 <-> m404 h = true \/ MAX_MESH_VERSION < mVersion h \/ no_lod_present h) /\
  (r <> -1 -> 0 <= r <= 3 /\ lod_size_positive h r = true /\ h' = h) /\
  (r = -1 -> h' = if m404 h || (MAX_MESH_VERSION <? mVersion h) then h else set_m404 true h).
Proof.
  cbv zeta.
  assert (Hnone : no_lod_present h <->
                  lod_size_positive h 0 = false /\ lod_size_positive h 1 = false /\
                  lod_size_positive h 2 = false /\ lod_size_positive h 3 = false).
  { split; [intros Hn; repeat split; apply Hn|].
    intros (A & B & C & D) i. destruct (lod_size_positive h i) eqn:Hi; [|reflexivity].
    destruct (lod_size_positive_range h i Hi) as [-> | [-> | [-> | ->]]]; congruence. }
  destruct (m404 h) eqn:H404.
  { unfold getActualMeshLOD. rewrite H404. cbn. repeat split; auto; try lia. }
  destruct (MAX_MESH_VERSION <? mVersion h) eqn:Hv.
  { unfold getActualMeshLOD. rewrite H404, Hv. cbn. apply Z.ltb_lt in Hv.
    repeat split; auto; try lia. }
  apply Z.ltb_ge in Hv.
  assert (Hcl : getActualMeshLOD h lod = getActualMeshLOD h (llclamp lod 0 3)).
  { unfold getActualMeshLOD.
    destruct (llclamp_0_3 lod) as [-> | [-> | [-> | ->]]]; reflexivity. }
  rewrite Hcl, (getActualMeshLOD_at h _ (llclamp_0_3 lod) H404 Hv).
  rewrite Hnone. cbn [orb].
  destruct (llclamp_0_3 lod) as [-> | [-> | [-> | ->]]];
    lod_cases h; vm_compute seqZ; cbn [reverse rev_append find fst snd];
    rewrite ?H0, ?H1, ?H2, ?H3; cbn [fst snd].
  all: repeat split; intros; try lia; try discriminate; try reflexivity; try assumption.
Qed.

(** X2.  When the LOD asked for (clamped to [0, 3]) has no size in the
    header, [getActualMeshLOD] answers the nearest lower LOD that has
    one, and goes to a higher LOD, the nearest again, only when no
    lower one exists; a LOD that has a size is answered as it is. *)
Theorem getActualMeshLOD_nearest h lod :
  let c := llclamp lod 0 3 in
  let r := fst (getActualMeshLOD h lod) in
  0 <= r ->
  (lod_size_positive h c = true -> r = c) /\
  (r < c -> forall j, r < j <= c -> lod_size_positive h j = false) /\
  (c < r -> forall j, 0 <= j < r -> lod_size_positive h j = false).
Proof.
  cbv zeta.
  destruct (m404 h) eqn:H404.
  { unfold getActualMeshLOD. rewrite H404. cbn. lia. }
  destruct (MAX_MESH_VERSION <? mVersion h) eqn:Hv.
  { unfold getActualMeshLOD. rewrite H404, Hv. cbn. lia. }
  apply Z.ltb_ge in Hv.
  assert (Hcl : getActualMeshLOD h lod = getActualMeshLOD h (llclamp lod 0 3)).
  { unfold getActualMeshLOD.
    destruct (llclamp_0_3 lod) as [-> | [-> | [-> | ->]]]; reflexivity. }
  rewrite Hcl, (getActualMeshLOD_at h _ (llclamp_0_3 lod) H404 Hv).
  assert (Hj : forall j lo hi, lo <= j <= hi -> 0 <= lo -> hi <= 3 ->
               (forall k, k = 0 \/ k = 1 \/ k = 2 \/ k = 3 -> lo <= k <= hi ->
                          lod_size_positive h k = false) ->
               lod_size_positive h j = false).
  { intros j lo hi Hr Hlo Hhi Hk. apply Hk; lia. }
  destruct (llclamp_0_3 lod) as [-> | [-> | [-> | ->]]];
    lod_cases h; vm_compute seqZ; cbn [reverse rev_append find fst snd];
    rewrite ?H0, ?H1, ?H2, ?H3; cbn [fst snd]; intros Hr;
    (split; [intros; try lia; try discriminate; reflexivity|]);
    (split; intros Hlt j Hjr; try lia;
     assert (Hcase : j = 0 \/ j = 1 \/ j = 2 \/ j = 3) by lia;
     destruct Hcase as [-> | [-> | [-> | ->]]]; try lia; assumption).
Qed.

(** ** Bytes and cache blobs *)

Lemma byte_to_Z_of_Z z : byte_to_Z (byte_of_Z z) = z mod 256.
Proof.
  unfold byte_to_Z, byte_of_Z.
  assert (Hr : 0 <= z mod 256 < 256) by (apply Z.mod_pos_bound; lia).
  destruct (Byte.of_N (Z.to_N (z mod 256))) as [b|] eqn:Hb.
  - cbn. apply Byte.to_of_N in Hb. rewrite Hb. lia.
  - apply Byte.of_N_None_iff in Hb. lia.
Qed.

Lemma le32_decode_le32 z : le32_decode (le32 z) = z mod 2 ^ 32.
Proof.
  unfold le32, le32_decode. rewrite !byte_to_Z_of_Z.
  pose proof (Z.div_mod z (2 ^ 8) ltac:(lia)) as E0.
  pose proof (Z.div_mod (z / 2 ^ 8) (2 ^ 8) ltac:(lia)) as E1.
  pose proof (Z.div_mod (z / 2 ^ 8 / 2 ^ 8) (2 ^ 8) ltac:(lia)) as E2.
  pose proof (Z.div_mod (z / 2 ^ 8 / 2 ^ 8 / 2 ^ 8) (2 ^ 8) ltac:(lia)) as E3.
  pose proof (Z.mod_pos_bound z (2 ^ 8) ltac:(lia)) as B0.
  pose proof (Z.mod_pos_bound (z / 2 ^ 8) (2 ^ 8) ltac:(lia)) as B1.
  pose proof (Z.mod_pos_bound (z / 2 ^ 8 / 2 ^ 8) (2 ^ 8) ltac:(lia)) as B2.
  pose proof (Z.mod_pos_bound (z / 2 ^ 8 / 2 ^ 8 / 2 ^ 8) (2 ^ 8) ltac:(lia)) as B3.
  replace (z / 2 ^ 16) with (z / 2 ^ 8 / 2 ^ 8)
    by (rewrite Z.div_div by lia; reflexivity).
  replace (z / 2 ^ 24) with (z / 2 ^ 8 / 2 ^ 8 / 2 ^ 8)
    by (rewrite !Z.div_div by lia; reflexivity).
  change 256 with (2 ^ 8).
  apply (Z.mod_unique_pos _ _ (z / 2 ^ 8 / 2 ^ 8 / 2 ^ 8 / 2 ^ 8)); lia.
Qed.

Lemma length_le32 z : length (le32 z) = 4%nat.
Proof. reflexivity. Qed.

Lemma length_write_at pos data (b : buffer) :
  length (write_at pos data b)
  = Nat.max (length b) (Z.to_nat pos + length data)%nat.
Proof.
  unfold write_at. rewrite !length_app, length_take, length_replicate, length_drop. lia.
Qed.

(** What was written is what a read at the same place returns. *)
Lemma slice_write_at pos data (b : buffer) :
  0 <= pos ->
  slice pos (Z.of_nat (length data)) (write_at pos data b) = data.
Proof.
  intros Hpos. unfold slice, write_at. rewrite Nat2Z.id.
  rewrite app_assoc.
  rewrite drop_app_length' by (rewrite length_app, length_take, length_replicate; lia).
  apply take_app_length.
Qed.

(** A write inside the blob leaves the bytes after it alone. *)
Lemma drop_write_at pos data (b : buffer) n :
  (Z.to_nat pos + length data <= n)%nat ->
  (Z.to_nat pos + length data <= length b)%nat ->
  drop n (write_at pos data b) = drop n b.
Proof.
  intros Hn Hb. unfold write_at.
  replace (Z.to_nat pos - length b)%nat with 0%nat by lia. cbn [replicate app].
  rewrite app_assoc.
  rewrite drop_app_ge by (rewrite length_app, length_take; lia).
  rewrite length_app, length_take, drop_drop. f_equal. lia.
Qed.

(** ... and the bytes before it. *)
Lemma take_write_at pos data (b : buffer) n :
  (n <= Z.to_nat pos)%nat -> (Z.to_nat pos <= length b)%nat ->
  take n (write_at pos data b) = take n b.
Proof.
  intros Hn Hb. unfold write_at.
  rewrite take_app_le by (rewrite length_take; lia).
  rewrite take_take. f_equal. lia.
Qed.

Lemma file_getSize_write id pos data st :
  file_getSize (file_write id pos data st) id
  = Z.max (file_getSize st id) (Z.of_nat (Z.to_nat pos) + Z.of_nat (length data)).
Proof.
  unfold file_getSize, file_write. cbn. rewrite lookup_insert_eq, length_write_at.
  destruct (mDisk st !! id); cbn; lia.
Qed.

Lemma mDisk_write_preamble id hb flags st :
  mDisk (write_preamble id hb flags st) !! id
  = Some (write_at 0 (le32 CACHE_PREAMBLE_VERSION ++ le32 hb ++ le32 flags)
            (default [] (mDisk st !! id))).
Proof. unfold write_preamble, file_write. cbn. apply lookup_insert_eq. Qed.

(** X3.  The preamble round trip: after [write_preamble] the three
    words the cached-header read takes from the blob are the preamble
    version, the header size and the flags that were written, the blob
    has at least the twelve preamble bytes, and the bytes after the
    preamble are the ones that were there. *)
Theorem preamble_round_trip id header_bytes flags st :
  - 2 ^ 31 <= header_bytes < 2 ^ 31 ->
  0 <= flags < 2 ^ 32 ->
  let st' := write_preamble id header_bytes flags st in
  let bytes := llmin (file_getSize st' id) DISK_MINIMAL_READ in
  le32_decode (file_read st' id 0 4) = CACHE_PREAMBLE_VERSION /\
  wrapS32 (le32_decode (file_read st' id 4 4)) = header_bytes /\
  le32_decode (slice 8 4 (file_read st' id 0 bytes)) = flags /\
  CACHE_PREAMBLE_SIZE <= file_getSize st' id /\
  drop 12 (default [] (mDisk st' !! id)) = drop 12 (default [] (mDisk st !! id)).
Proof.
  intros Hhb Hfl. cbv zeta.
  set (b := default [] (mDisk st !! id)).
  assert (Hsize : CACHE_PREAMBLE_SIZE <= file_getSize (write_preamble id header_bytes flags st) id).
  { unfold file_getSize. rewrite mDisk_write_preamble, length_write_at.
    unfold CACHE_PREAMBLE_SIZE. cbn [length app le32]. lia. }
  unfold file_read. rewrite mDisk_write_preamble. cbn [default]. fold b.
  assert (Hw : write_at 0 (le32 CACHE_PREAMBLE_VERSION ++ le32 header_bytes ++ le32 flags) b
               = le32 CACHE_PREAMBLE_VERSION ++ le32 header_bytes ++ le32 flags ++ drop 12 b).
  { reflexivity. }
  rewrite Hw. unfold Datatypes.id.
  split; [|split; [|split; [|split]]].
  - change (slice 0 4 (le32 CACHE_PREAMBLE_VERSION ++ le32 header_bytes ++ le32 flags ++ drop 12 b))
      with (le32 CACHE_PREAMBLE_VERSION).
    rewrite le32_decode_le32. reflexivity.
  - change (slice 4 4 (le32 CACHE_PREAMBLE_VERSION ++ le32 header_bytes ++ le32 flags ++ drop 12 b))
      with (le32 header_bytes).
    rewrite le32_decode_le32. unfold wrapS32.
    rewrite Zplus_mod_idemp_l.
    rewrite Z.mod_small by lia. lia.
  - set (bytes := llmin _ _).
    assert (Hbytes : 12 <= bytes).
    { subst bytes. unfold llmin, DISK_MINIMAL_READ, CACHE_PREAMBLE_SIZE in *.
      destruct (_ <? _); lia. }
    assert (Hs : forall n, slice 8 4 (slice 0 (Z.of_nat (12 + n))
                  (le32 CACHE_PREAMBLE_VERSION ++ le32 header_bytes ++ le32 flags ++ drop 12 b))
                = le32 flags).
    { intros n. unfold slice. rewrite Nat2Z.id. reflexivity. }
    replace bytes with (Z.of_nat (12 + (Z.to_nat bytes - 12))) by lia.
    rewrite Hs.
    rewrite le32_decode_le32. apply Z.mod_small. lia.
  - exact Hsize.
  - cbn [app le32 drop]. reflexivity.
Qed.

(** ** Writing a fetched sub-section to the cache *)

Lemma write_at_inside pos data (b : buffer) :
  (Z.to_nat pos + length data <= length b)%nat ->
  write_at pos data b
  = take (Z.to_nat pos) b ++ data ++ drop (Z.to_nat pos + length data) b.
Proof.
  intros Hb. unfold write_at.
  replace (Z.to_nat pos - length b)%nat with 0%nat by lia. reflexivity.
Qed.

(** The blob after the optional preamble rewrite. *)
Lemma preamble_keeps_tail (b : buffer) pre :
  length pre = 12%nat -> (12 <= length b)%nat ->
  length (write_at 0 pre b) = length b /\
  drop 12 (write_at 0 pre b) = drop 12 b.
Proof.
  intros Hpre Hb. split.
  - rewrite length_write_at. cbn. lia.
  - apply drop_write_at; cbn; lia.
Qed.

Lemma write_fetched_spec handler data in_cache mark st header bit :
  let id := hMeshID handler in
  let offset := mOffset handler + CACHE_PREAMBLE_SIZE in
  let size := mRequestedBytes handler in
  let b := default [] (mDisk st !! id) in
  0 <= mOffset handler -> offset + size < 2 ^ 31 ->
  size = Z.of_nat (length data) ->
  offset + size <= file_getSize st id ->
  mMeshHeader st !! id = Some header -> in_cache header = Some bit ->
  exists st' b',
    write_fetched handler data in_cache mark st = Some st' /\
    mMeshHeader st' = <[id := if bit then header else mark header]> (mMeshHeader st) /\
    mDisk st' !! id = Some b' /\
    length b' = length b /\
    slice offset size b' = data /\
    drop (Z.to_nat (offset + size)) b' = drop (Z.to_nat (offset + size)) b /\
    slice CACHE_PREAMBLE_SIZE (mOffset handler) b' = slice CACHE_PREAMBLE_SIZE (mOffset handler) b /\
    mLoadedQ st' = mLoadedQ st /\ mSkinInfoQ st' = mSkinInfoQ st /\
    mDecompositionQ st' = mDecompositionQ st /\
    mUnavailableQ st' = mUnavailableQ st /\ mSkinUnavailableQ st' = mSkinUnavailableQ st /\
    mHttpRequestSet st' = mHttpRequestSet st /\ mSkinMap st' = mSkinMap st.
Proof.
  cbv zeta. unfold CACHE_PREAMBLE_SIZE. intros Hoff Hmax Hsize Hfile Hh Hbit.
  set (id := hMeshID handler) in *.
  set (b := default [] (mDisk st !! id)).
  assert (Hlen : (Z.to_nat (mOffset handler + 12) + length data <= length b)%nat).
  { unfold file_getSize in Hfile. subst b. destruct (mDisk st !! id); cbn in *; lia. }
  assert (Hw1 : wrapS32 (mOffset handler + 12) = mOffset handler + 12).
  { unfold wrapS32. rewrite Z.mod_small; lia. }
  assert (Hw2 : wrapS32 (mRequestedBytes handler) = mRequestedBytes handler).
  { unfold wrapS32. rewrite Z.mod_small; lia. }
  assert (Hw3 : wrapS32 (mOffset handler + 12 + mRequestedBytes handler)
                = mOffset handler + 12 + mRequestedBytes handler).
  { unfold wrapS32. rewrite Z.mod_small; lia. }
  unfold write_fetched, CACHE_PREAMBLE_SIZE. fold id. rewrite Hw1, Hw2, Hw3.
  assert (Hcov : (mOffset handler + 12 + mRequestedBytes handler <=? file_getSize st id) = true)
    by (apply Z.leb_le; lia).
  rewrite Hcov, Hh. cbn [mbind option_bind]. rewrite Hbit. cbn [mbind option_bind].
  assert (Hok : (0 <=? mRequestedBytes handler)
                && (mRequestedBytes handler <=? Z.of_nat (length data)) = true).
  { apply andb_true_intro. split; apply Z.leb_le; lia. }
  assert (Htake : take (Z.to_nat (mRequestedBytes handler)) data = data).
  { apply take_ge. lia. }
  (* the state before the data is written: header updated, preamble maybe rewritten *)
  assert (Hgen : forall st1 b1,
            mDisk st1 !! id = Some b1 \/ (mDisk st1 !! id = None /\ b1 = []) ->
            length b1 = length b -> drop 12 b1 = drop 12 b ->
            let st' := count (add_sCacheWrites 1)
                         (count (add_sCacheBytesWritten (mRequestedBytes handler))
                            (file_write id (mOffset handler + 12) data st1)) in
            exists b',
              mDisk st' !! id = Some b' /\ length b' = length b /\
              slice (mOffset handler + 12) (mRequestedBytes handler) b' = data /\
              drop (Z.to_nat (mOffset handler + 12 + mRequestedBytes handler)) b'
              = drop (Z.to_nat (mOffset handler + 12 + mRequestedBytes handler)) b /\
              slice 12 (mOffset handler) b' = slice 12 (mOffset handler) b).
  { intros st1 b1 Hd1 Hl1 Ht1. cbv zeta.
    assert (Hb1 : default [] (mDisk st1 !! id) = b1).
    { destruct Hd1 as [-> | [-> ->]]; reflexivity. }
    exists (write_at (mOffset handler + 12) data b1).
    split; [|split; [|split; [|split]]].
    - unfold file_write. cbn. rewrite lookup_insert_eq, Hb1. reflexivity.
    - rewrite length_write_at. lia.
    - rewrite Hsize. apply slice_write_at. lia.
    - rewrite drop_write_at by lia.
      replace (Z.to_nat (mOffset handler + 12 + mRequestedBytes handler))
        with (12 + (Z.to_nat (mOffset handler + 12 + mRequestedBytes handler) - 12))%nat by lia.
      rewrite <- !drop_drop, Ht1. reflexivity.
    - unfold slice. change (Z.to_nat 12) with 12%nat.
      rewrite write_at_inside by lia.
      rewrite drop_app_le by (rewrite length_take; lia).
      rewrite take_app_le by (rewrite length_drop, length_take; lia).
      replace (Z.to_nat (mOffset handler + 12)) with (12 + Z.to_nat (mOffset handler))%nat by lia.
      rewrite <- take_drop_commute, take_take, Ht1. f_equal. lia. }
  assert (Hb0 : mDisk st !! id = Some b \/ (mDisk st !! id = None /\ b = [])).
  { subst b. destruct (mDisk st !! id); [left|right]; auto. }
  destruct bit; cbn [negb mbind option_bind]; cbv beta iota zeta.
  - (* already marked: nothing written to the header or the preamble *)
    cbn [Z.ltb Z.compare]. rewrite Hok, Htake.
    destruct (Hgen st b Hb0 eq_refl eq_refl) as (b' & Hd & Hl & Hs & Hdr & Hsl).
    eexists _, b'. split; [reflexivity|].
    split; [cbn; symmetry; apply insert_id; exact Hh|].
    repeat split; auto.
  - set (h1 := mark header).
    set (st0 := with_mMeshHeader (<[id := h1]> (mMeshHeader st)) st).
    assert (Hd0 : mDisk st0 = mDisk st) by reflexivity.
    destruct (0 <? getFlags h1) eqn:Hfl.
    + rewrite Hok, Htake.
      pose proof (mDisk_write_preamble id (mHeaderSize h1) (getFlags h1) st0) as Hpre.
      rewrite Hd0 in Hpre. fold b in Hpre.
      assert (H12 : (12 <= length b)%nat) by lia.
      destruct (preamble_keeps_tail b
                  (le32 CACHE_PREAMBLE_VERSION ++ le32 (mHeaderSize h1) ++ le32 (getFlags h1))
                  eq_refl H12) as [Hl1 Ht1].
      destruct (Hgen _ _ (or_introl Hpre) Hl1 Ht1) as (b' & Hd & Hl & Hs & Hdr & Hsl).
      eexists _, b'. split; [reflexivity|]. split; [reflexivity|].
      repeat split; auto.
    + rewrite Hok, Htake.
      destruct (Hgen st0 b Hb0 eq_refl eq_refl) as (b' & Hd & Hl & Hs & Hdr & Hsl).
      eexists _, b'. split; [reflexivity|]. split; [reflexivity|].
      repeat split; auto.
Qed.

Lemma wrapU32_id z : 0 <= z < 2 ^ 32 -> wrapU32 z = z.
Proof. intros H. unfold wrapU32. apply Z.mod_small. lia. Qed.

Lemma wrapS32_id z : - 2 ^ 31 <= z < 2 ^ 31 -> wrapS32 z = z.
Proof. intros H. unfold wrapS32. rewrite Z.mod_small; lia. Qed.

Lemma lod_get_range {A} (a : Lods A) lod x :
  lod_get a lod = Some x -> 0 <= lod < NUM_LODS.
Proof.
  unfold NUM_LODS. destruct lod as [|[[|[]|]|[|[]|]|]|]; cbn; intros H; try discriminate; lia.
Qed.

(** X4.  What the LOD handler writes is what the next LOD fetch reads:
    when a LOD answer of the requested size unpacks and the cache blob
    reaches to the end of the LOD's range, [processLod] delivers the
    mesh, sets the LOD's presence bit, and leaves the blob such that
    the cache read of [fetchMeshLOD] finds exactly the bytes received,
    at the LOD's offset and size. *)
Theorem lod_written_is_lod_read handle lod data st header lod_offset size volume :
  forall mesh_id,
  let handler := with_mHttpHandle handle
                   (new_handler (LLMeshLODHandler lod) mesh_id
                      (mHeaderSize header + lod_offset) size) in
  mMeshHeader st !! mesh_id = Some header ->
  lod_get (mLodOffset header) lod = Some lod_offset ->
  lod_get (mLodSize header) lod = Some size ->
  0 < mHeaderSize header -> mVersion header <= MAX_MESH_VERSION ->
  0 <= lod_offset -> 0 < size ->
  mHeaderSize header + lod_offset + CACHE_PREAMBLE_SIZE + size < 2 ^ 31 ->
  Z.of_nat (length data) = size ->
  unpackVolumeFaces data size = Some volume -> volume <> [] ->
  mHeaderSize header + lod_offset + CACHE_PREAMBLE_SIZE + size <= file_getSize st mesh_id ->
  exists st',
    LLMeshLODHandler_processLod handler lod (Some data) size st = Some st' /\
    mLoadedQ st' = mLoadedQ st ++ [{| lm_mVolume := volume;
                                      lm_mMeshParams := {| getSculptID := mesh_id |};
                                      lm_mLOD := lod |}] /\
    cached_lod_block st' mesh_id lod = Some (data, mHeaderSize header + lod_offset, size).
Proof.
  cbv zeta. unfold CACHE_PREAMBLE_SIZE.
  intros mesh_id Hh Hoff Hsz Hhs Hv Hlo Hsize Hmax Hlen Hun Hvol Hfile.
  set (handler := with_mHttpHandle handle
                    (new_handler (LLMeshLODHandler lod) mesh_id
                       (mHeaderSize header + lod_offset) size)).
  assert (HmO : mOffset handler = mHeaderSize header + lod_offset)
    by (cbn; apply wrapU32_id; lia).
  assert (HmR : mRequestedBytes handler = size) by (cbn; apply wrapU32_id; lia).
  destruct (lod_get_same_range (mLodOffset header) (mLodInCache header) lod
              (ex_intro _ _ Hoff)) as [bit Hbit].
  pose proof (lod_get_range _ _ _ Hoff) as Hrange.
  unfold LLMeshLODHandler_processLod, lodReceived.
  assert (Hnz : (size =? 0) = false) by (apply Z.eqb_neq; lia).
  rewrite Hnz, Hun.
  assert (Hfaces : (0 <? Z.of_nat (length volume)) = true).
  { apply Z.ltb_lt. destruct volume; [contradiction|cbn; lia]. }
  rewrite Hfaces. cbn [default]. unfold Datatypes.id.
  assert (HmI : hMeshID handler = mesh_id) by reflexivity.
  clearbody handler.
  match goal with |- context [write_fetched ?h ?d ?ic ?mk ?s] =>
    destruct (write_fetched_spec h d ic mk s header bit) as
      (st' & b' & Hwf & Hmh & Hd & Hl & Hs & _ & _ & Hq & _)
  end.
  all: rewrite ?HmO, ?HmR, ?HmI; unfold CACHE_PREAMBLE_SIZE in *;
    try (unfold file_getSize in *; cbn [mDisk with_mLoadedQ mMeshHeader]; lia);
    try assumption; try (symmetry; assumption).
  rewrite HmI in Hwf, Hmh, Hd, Hl, Hq. rewrite HmO, HmR in Hs.
  cbn [mMeshHeader with_mLoadedQ mDisk mLoadedQ] in Hmh, Hd, Hl, Hq.
  unfold Datatypes.id in *.
  exists st'. split; [exact Hwf|]. split; [exact Hq|].
  unfold cached_lod_block. rewrite Hmh, lookup_insert_eq. cbn [mbind option_bind].
  set (h' := if bit then header else mark_lod_in_cache lod header).
  assert (Hsame : mLodOffset h' = mLodOffset header /\ mLodSize h' = mLodSize header /\
                  mHeaderSize h' = mHeaderSize header /\ mVersion h' = mVersion header /\
                  lod_get (mLodInCache h') lod = Some true).
  { subst h'. destruct bit; [auto|].
    repeat split; try reflexivity. cbn. apply lod_get_set. exact Hrange. }
  destruct Hsame as (-> & -> & -> & -> & ->).
  rewrite Hoff, Hsz. cbn [mbind option_bind].
  rewrite wrapU32_id by lia. rewrite !wrapS32_id by (unfold CACHE_PREAMBLE_SIZE; lia).
  unfold subsection_ok, cache_covers, file_getSize, file_read, CACHE_PREAMBLE_SIZE.
  rewrite Hd. cbn [default]. rewrite wrapS32_id by lia.
  assert (Hlenb : Z.of_nat (length b') = file_getSize st mesh_id).
  { rewrite Hl. unfold file_getSize. destruct (mDisk st !! mesh_id); reflexivity. }
  rewrite Hlenb.
  repeat match goal with
         | |- context [?a <? ?b] => rewrite (proj2 (Z.ltb_lt a b)) by lia
         | |- context [?a <=? ?b] => rewrite (proj2 (Z.leb_le a b)) by lia
         end.
  cbn [andb]. unfold Datatypes.id. rewrite Hs. reflexivity.
Qed.

(** X5.  The same round trip for the skin block: [processSkin] on an
    answer that decodes delivers the descriptor, keeps the worker's
    copy, sets the skin presence bit, and the cache read of
    [fetchMeshSkinInfo] then finds the bytes received. *)
Theorem skin_written_is_skin_read handle data st header skin mesh_id :
  let size := mSkinSize header in
  let offset := mHeaderSize header + mSkinOffset header in
  let handler := with_mHttpHandle handle
                   (new_handler LLMeshSkinInfoHandler mesh_id offset size) in
  let info := {| si_mMeshID := mesh_id; si_skin := skin |} in
  mMeshHeader st !! mesh_id = Some header ->
  0 < mHeaderSize header -> mVersion header <= MAX_MESH_VERSION ->
  0 <= mSkinOffset header -> 0 < size ->
  offset + CACHE_PREAMBLE_SIZE + size < 2 ^ 31 ->
  Z.of_nat (length data) = size ->
  unzip_llsd data size = Some skin ->
  offset + CACHE_PREAMBLE_SIZE + size <= file_getSize st mesh_id ->
  exists st',
    LLMeshSkinInfoHandler_processSkin handler (Some data) size st = Some st' /\
    mSkinInfoQ st' = mSkinInfoQ st ++ [info] /\
    mSkinMap st' !! mesh_id = Some info /\
    cached_skin_block st' mesh_id = Some (data, offset, size).
Proof.
  cbv zeta. unfold CACHE_PREAMBLE_SIZE.
  intros Hh Hhs Hv Hlo Hsize Hmax Hlen Hun Hfile.
  set (handler := with_mHttpHandle handle
                    (new_handler LLMeshSkinInfoHandler mesh_id
                       (mHeaderSize header + mSkinOffset header) (mSkinSize header))).
  assert (HmO : mOffset handler = mHeaderSize header + mSkinOffset header)
    by (cbn; apply wrapU32_id; lia).
  assert (HmR : mRequestedBytes handler = mSkinSize header) by (cbn; apply wrapU32_id; lia).
  assert (HmI : hMeshID handler = mesh_id) by reflexivity.
  clearbody handler.
  unfold LLMeshSkinInfoHandler_processSkin, skinInfoReceived. rewrite HmI.
  cbn [default]. unfold Datatypes.id.
  assert (Hpos : (0 <? mSkinSize header) = true) by (apply Z.ltb_lt; lia).
  rewrite Hpos, Hun.
  match goal with |- context [write_fetched ?h ?d ?ic ?mk ?s] =>
    destruct (write_fetched_spec h d ic mk s header (mSkinInCache header)) as
      (st' & b' & Hwf & Hmh & Hd & Hl & Hs & _ & _ & _ & Hq & _ & _ & _ & _ & Hsm)
  end.
  all: rewrite ?HmO, ?HmR, ?HmI; unfold CACHE_PREAMBLE_SIZE in *;
    try (unfold file_getSize in *; cbn [mDisk with_mSkinInfoQ with_mSkinMap mMeshHeader]; lia);
    try assumption; try (symmetry; assumption); try reflexivity.
  rewrite HmI in Hmh, Hd, Hl. rewrite HmO, HmR in Hs.
  cbn [mMeshHeader with_mSkinInfoQ with_mSkinMap mDisk mSkinInfoQ mSkinMap] in Hmh, Hd, Hl, Hq, Hsm.
  unfold Datatypes.id in *.
  exists st'. split; [exact Hwf|]. split; [exact Hq|].
  split; [rewrite Hsm; apply lookup_insert_eq|].
  unfold cached_skin_block. rewrite Hmh, lookup_insert_eq. cbn [mbind option_bind].
  set (h' := if mSkinInCache header then header else mark_skin_in_cache header).
  assert (Hsame : mSkinOffset h' = mSkinOffset header /\ mSkinSize h' = mSkinSize header /\
                  mHeaderSize h' = mHeaderSize header /\ mVersion h' = mVersion header /\
                  mSkinInCache h' = true).
  { subst h'. destruct (mSkinInCache header) eqn:Hb; [auto|]. repeat split. }
  destruct Hsame as (-> & -> & -> & -> & ->).
  rewrite wrapU32_id by lia. rewrite !wrapS32_id by (unfold CACHE_PREAMBLE_SIZE; lia).
  unfold subsection_ok, cache_covers, file_getSize, file_read, CACHE_PREAMBLE_SIZE.
  rewrite Hd. cbn [default]. rewrite wrapS32_id by lia.
  assert (Hlenb : Z.of_nat (length b') = file_getSize st mesh_id).
  { rewrite Hl. unfold file_getSize. destruct (mDisk st !! mesh_id); reflexivity. }
  rewrite Hlenb.
  repeat match goal with
         | |- context [?a <? ?b] => rewrite (proj2 (Z.ltb_lt a b)) by lia
         | |- context [?a <=? ?b] => rewrite (proj2 (Z.leb_le a b)) by lia
         end.
  cbn [andb]. unfold Datatypes.id. rewrite Hs. reflexivity.
Qed.

(** X6.  A LOD answer reaches the cache only through the room the blob
    already has: when the blob is shorter than the end of the handler's
    range, [processLod] delivers the mesh and writes neither the blob
    nor the header; and an answer that does not unpack is reported
    unavailable, with nothing delivered and nothing written. *)
Theorem lod_answer_without_room handler lod data data_size st :
  let mesh_params := {| getSculptID := hMeshID handler |} in
  0 <= mOffset handler -> 0 <= mRequestedBytes handler ->
  mOffset handler + CACHE_PREAMBLE_SIZE + mRequestedBytes handler < 2 ^ 31 ->
  data_size <> 0 ->
  (forall volume,
     unpackVolumeFaces data data_size = Some volume -> volume <> [] ->
     file_getSize st (hMeshID handler)
       < mOffset handler + CACHE_PREAMBLE_SIZE + mRequestedBytes handler ->
     LLMeshLODHandler_processLod handler lod (Some data) data_size st =
       Some (with_mLoadedQ
               (mLoadedQ st ++ [{| lm_mVolume := volume; lm_mMeshParams := mesh_params;
                                   lm_mLOD := lod |}]) st)) /\
  (unpackVolumeFaces data data_size = None ->
   LLMeshLODHandler_processLod handler lod (Some data) data_size st =
     Some (with_mUnavailableQ (mUnavailableQ st ++ [new_LODRequest mesh_params lod]) st)).
Proof.
  cbv zeta. unfold CACHE_PREAMBLE_SIZE. intros Hoff Hreq Hmax Hnz.
  apply Z.eqb_neq in Hnz.
  unfold LLMeshLODHandler_processLod, lodReceived. rewrite Hnz. split.
  - intros volume Hun Hvol Hshort. rewrite Hun.
    assert (Hfaces : (0 <? Z.of_nat (length volume)) = true).
    { apply Z.ltb_lt. destruct volume; [contradiction|cbn; lia]. }
    rewrite Hfaces. unfold write_fetched, CACHE_PREAMBLE_SIZE.
    rewrite (wrapS32_id (mOffset handler + 12)) by lia.
    rewrite (wrapS32_id (mRequestedBytes handler)) by lia.
    rewrite wrapS32_id by lia.
    assert (Hc : (mOffset handler + 12 + mRequestedBytes handler
                  <=? file_getSize
                        (with_mLoadedQ
                           (mLoadedQ st ++ [{| lm_mVolume := volume;
                                               lm_mMeshParams := {| getSculptID := hMeshID handler |};
                                               lm_mLOD := lod |}]) st) (hMeshID handler)) = false).
    { apply Z.leb_gt. exact Hshort. }
    rewrite Hc. reflexivity.
  - intros Hun. rewrite Hun. reflexivity.
Qed.

(** ** Cached blocks that do not parse *)

(** X7.  A cached block that is not blank and does not parse makes
    the pool task distrust the whole blob: every presence bit of the
    stored header is cleared, the preamble is rewritten with a flags
    word of 0, nothing is delivered, and the request goes back on its
    queue (the LOD queue for a LOD, the skin queue for a skin). *)
Theorem cache_parse_failure_invalidates (t : PoolTask) st header :
  let id := match t with
            | CachedLodTask params _ _ _ => getSculptID params
            | CachedSkinTask mesh_id _ _ => mesh_id
            end in
  mShuttingDown st = false ->
  mMeshHeader st !! id = Some header ->
  0 < mHeaderSize header -> CACHE_PREAMBLE_SIZE <= getMaxSize ->
  match t with
  | CachedLodTask _ _ buf size => size <> 0 /\ unpackVolumeFaces buf size = None
  | CachedSkinTask _ buf size => 0 < size /\ unzip_llsd buf size = None
  end ->
  let st' := run_pool_task t st in
  mMeshHeader st' !! id = Some (clear_in_cache header) /\
  getFlags (clear_in_cache header) = 0 /\
  mDisk st' !! id =
    Some (write_at 0 (le32 CACHE_PREAMBLE_VERSION ++ le32 (mHeaderSize header) ++ le32 0)
            (default [] (mDisk st !! id))) /\
  mLoadedQ st' = mLoadedQ st /\ mSkinInfoQ st' = mSkinInfoQ st /\
  mHttpRequestSet st' = mHttpRequestSet st /\
  match t with
  | CachedLodTask params lod _ _ =>
    mLODReqQ st' = mLODReqQ st ++ [new_LODRequest params lod] /\
    mSkinRequests st' = mSkinRequests st
  | CachedSkinTask mesh_id _ _ =>
    mSkinRequests st' = mSkinRequests st ++ [new_UUIDBasedRequest mesh_id] /\
    mLODReqQ st' = mLODReqQ st
  end.
Proof.
  cbv zeta. intros Hsd Hh Hpos Hmax Hfail.
  apply Z.ltb_lt in Hpos. apply Z.leb_le in Hmax.
  unfold run_pool_task. rewrite Hsd.
  destruct t as [params lod buf size|mesh_id buf size]; destruct Hfail as [Hsz Hun].
  - unfold lodReceived. apply Z.eqb_neq in Hsz. rewrite Hsz, Hun.
    unfold invalidate_cache_flags. rewrite Hh.
    cbn [clear_in_cache set_in_cache mHeaderSize]. rewrite Hpos, Hmax. cbn.
    rewrite !lookup_insert_eq. repeat split.
  - unfold skinInfoReceived. apply Z.ltb_lt in Hsz. rewrite Hsz, Hun.
    unfold invalidate_cache_flags. rewrite Hh.
    cbn [clear_in_cache set_in_cache mHeaderSize]. rewrite Hpos, Hmax. cbn.
    rewrite !lookup_insert_eq. repeat split.
Qed.

(** ** The header handler reserves the blob *)

Lemma llmax_ge_l a b : a <= llmax a b.
Proof. unfold llmax. destruct (a <? b) eqn:H; [apply Z.ltb_lt in H|]; lia. Qed.

Lemma llmax_ge_r a b : b <= llmax a b.
Proof. unfold llmax. destruct (a <? b) eqn:H; [|apply Z.ltb_ge in H]; lia. Qed.

Lemma header_lod_bytes_covers h i off sz :
  lod_get (mLodOffset h) i = Some off -> lod_get (mLodSize h) i = Some sz ->
  wrapS32 (off + sz) <= header_lod_bytes h.
Proof.
  intros Ho Hs. unfold header_lod_bytes.
  etransitivity; [|apply llmax_ge_l]. etransitivity; [|apply llmax_ge_l].
  unfold lod_indices. cbn [foldl lod_get].
  destruct i as [|[[|[]|]|[|[]|]|]|]; cbn in Ho, Hs; try discriminate;
    injection Ho as <-; injection Hs as <-.
  - etransitivity; [|apply llmax_ge_l]. etransitivity; [|apply llmax_ge_l].
    etransitivity; [|apply llmax_ge_l]. apply llmax_ge_r.
  - apply llmax_ge_r.
  - etransitivity; [|apply llmax_ge_l]. apply llmax_ge_r.
  - etransitivity; [|apply llmax_ge_l]. etransitivity; [|apply llmax_ge_l]. apply llmax_ge_r.
Qed.

(** X8.  Once [headerReceived] has stored a usable header from a
    network answer, the header handler leaves a cache blob with room
    for every LOD the header declares: the blob is at least preamble
    plus header plus the furthest LOD end long, so the size test of a
    later LOD store succeeds. *)
Theorem header_cached_with_room o p data data_size R R1 header :
  let id := getSculptID p in
  let bytes := header_lod_bytes header + mHeaderSize header + CACHE_PREAMBLE_SIZE in
  0 < data_size -> Z.of_nat (length data) = data_size ->
  headerReceived p data data_size 0 R = (MESH_OK, R1) ->
  mMeshHeader (mThread R1) !! id = Some header ->
  0 < mHeaderSize header -> m404 header = false ->
  mVersion header <= MAX_MESH_VERSION ->
  0 <= header_lod_bytes header -> bytes < 2 ^ 31 -> bytes <= getMaxSize ->
  new_ok o = true ->
  let R2 := LLMeshHeaderHandler_processData o p (Some data) data_size R in
  mMeshHeader (mThread R2) = mMeshHeader (mThread R1) /\
  bytes <= file_getSize (mThread R2) id /\
  forall lod lod_offset size,
    lod_get (mLodOffset header) lod = Some lod_offset ->
    lod_get (mLodSize header) lod = Some size ->
    - 2 ^ 31 <= lod_offset + size < 2 ^ 31 ->
    mHeaderSize header + lod_offset + CACHE_PREAMBLE_SIZE + size
      <= file_getSize (mThread R2) id.
Proof.
  cbv zeta. unfold CACHE_PREAMBLE_SIZE.
  intros Hpos Hlen Hrecv Hh Hhs H404 Hv Hlb Hmax Hfit Hnew.
  unfold LLMeshHeaderHandler_processData.
  assert (Hs : Bool.eqb (bool_decide (is_Some (Some data))) (0 <? data_size) = true).
  { apply Z.ltb_lt in Hpos. rewrite Hpos. rewrite bool_decide_eq_true_2 by eauto. reflexivity. }
  rewrite Hs. cbn [default]. unfold Datatypes.id. rewrite Hrecv. cbn [negb].
  assert (Hp : (0 <? data_size) = true) by (apply Z.ltb_lt; lia). rewrite Hp.
  rewrite Hh. cbn [default]. unfold Datatypes.id.
  assert (Hg : (0 <? mHeaderSize header) && negb (m404 header)
               && (mVersion header <=? MAX_MESH_VERSION) = true).
  { rewrite H404. apply Z.ltb_lt in Hhs. apply Z.leb_le in Hv. now rewrite Hhs, Hv. }
  rewrite Hg. unfold CACHE_PREAMBLE_SIZE.
  rewrite (wrapS32_id (header_lod_bytes header + mHeaderSize header)) by lia.
  rewrite (wrapS32_id (header_lod_bytes header + mHeaderSize header + 12)) by lia.
  set (bytes := header_lod_bytes header + mHeaderSize header + 12) in *.
  assert (Hm : (bytes <=? getMaxSize) = true) by (apply Z.leb_le; lia). rewrite Hm.
  rewrite Hnew, andb_true_r.
  set (ds := llmin data_size bytes).
  assert (Hds : 0 < ds <= data_size /\ ds <= bytes).
  { subst ds. unfold llmin. destruct (data_size <? bytes) eqn:E;
      [apply Z.ltb_lt in E|apply Z.ltb_ge in E]; lia. }
  assert (Hsl : length (slice 0 ds data) = Z.to_nat ds).
  { unfold slice. change (Z.to_nat 0) with 0%nat. rewrite drop_0, length_take. lia. }
  assert (Hsize : bytes <= file_getSize
            (mThread (with_mThread
               (if 0 <? wrapS32 (bytes - (12 + ds))
                then file_write (getSculptID p) (12 + ds)
                       (replicate (Z.to_nat (wrapS32 (bytes - (12 + ds)))) x00)
                       (file_write (getSculptID p) 12 (slice 0 ds data)
                          (write_preamble (getSculptID p) (mHeaderSize header)
                             (getFlags header)
                             (count (add_sCacheWrites 1)
                                (count (add_sCacheBytesWritten ds) (mThread R1)))))
                else file_write (getSculptID p) 12 (slice 0 ds data)
                       (write_preamble (getSculptID p) (mHeaderSize header)
                          (getFlags header)
                          (count (add_sCacheWrites 1)
                             (count (add_sCacheBytesWritten ds) (mThread R1))))) R1))
            (getSculptID p)).
  { cbn [mThread with_mThread].
    rewrite (wrapS32_id (bytes - (12 + ds))) by lia.
    destruct (0 <? bytes - (12 + ds)) eqn:Hrem.
    - apply Z.ltb_lt in Hrem. rewrite file_getSize_write, length_replicate. lia.
    - apply Z.ltb_ge in Hrem. rewrite file_getSize_write, Hsl. lia. }
  split; [|split].
  - destruct (0 <? wrapS32 (bytes - (12 + ds))); reflexivity.
  - exact Hsize.
  - intros lod lod_offset size Ho Hz Hb.
    pose proof (header_lod_bytes_covers header lod lod_offset size Ho Hz) as Hc.
    rewrite wrapS32_id in Hc by lia.
    etransitivity; [|exact Hsize]. subst bytes. lia.
Qed.

(** ** Completion of a full (non-partial) answer *)

(** X9.  A successful answer that is not a 206 is taken to start at
    byte 0 of the asset: when the requested offset lies inside the
    body, the data path gets the body from that offset on, with the
    offset as body offset and the whole body counted as received;
    when it lies at or past the end of the body, the request fails
    with the range error and one error is counted. *)
Theorem full_answer_is_cut_at_offset (mOffset : Z) response code body :
  let n := Z.of_nat (length body) in
  getStatus response = HttpCode code ->
  200 <= code <= 299 -> code <> HTTP_PARTIAL_CONTENT ->
  getBody response = Some body -> body <> [] ->
  0 <= mOffset < 2 ^ 32 -> n < 2 ^ 31 ->
  onCompleted_calls mOffset response true =
    if mOffset <? n
    then ([processData mOffset (Some (drop (Z.to_nat mOffset) body)) (n - mOffset)], 0, n)
    else ([processFailure (LLCoreStatus HE_INV_CONTENT_RANGE_HDR)], 1, 0).
Proof.
  cbv zeta. intros Hst Hc H206 Hb Hne Hoff Hn.
  set (n := Z.of_nat (length body)) in *.
  assert (Hpos : 0 < n) by (subst n; destruct body; [contradiction|cbn; lia]).
  unfold onCompleted_calls. rewrite Hst, Hb.
  assert (Hok : status_ok (HttpCode code) = true).
  { unfold status_ok. apply andb_true_intro. split; apply Z.leb_le; lia. }
  rewrite Hok. cbn [negb]. fold n.
  assert (Hp : (0 <? n) = true) by (apply Z.ltb_lt; lia). rewrite Hp.
  destruct (getRange response) as [[r_offset r_length] full].
  assert (Hpar : status_eqb (HttpCode HTTP_PARTIAL_CONTENT) (HttpCode code) = false).
  { unfold status_eqb. apply Z.eqb_neq. unfold HTTP_PARTIAL_CONTENT in *. lia. }
  rewrite Hpar.
  replace (mOffset - 0) with mOffset by lia. replace (0 + n) with n by lia.
  rewrite (wrapU32_id mOffset) by lia.
  assert (H64 : wrapU64 n = n) by (unfold wrapU64; rewrite Z.mod_small; lia).
  rewrite H64.
  assert (H0 : (mOffset <? 0) = false) by (apply Z.ltb_ge; lia). rewrite H0. cbn [orb].
  destruct (mOffset <? n) eqn:Hin.
  - apply Z.ltb_lt in Hin.
    assert (H1 : (n <=? mOffset) = false) by (apply Z.leb_gt; lia). rewrite H1. cbn [orb].
    rewrite (wrapS32_id mOffset) by lia. rewrite (wrapS32_id n) by lia.
    assert (H2 : wrapU64 (n - mOffset) = n - mOffset)
      by (unfold wrapU64; rewrite Z.mod_small; lia).
    rewrite H2, (wrapU32_id n) by lia. cbn [default]. unfold Datatypes.id.
    unfold slice. rewrite take_ge by (rewrite length_drop; lia). reflexivity.
  - apply Z.ltb_ge in Hin.
    assert (H1 : (n <=? mOffset) = true) by (apply Z.leb_le; lia). rewrite H1. reflexivity.
Qed.

(** ** Header answers that cannot be used *)

Lemma header_pending_undeclared p data ds hs st :
  let st' := header_pending p data ds (locals_init hs) st in
  mPendingLOD st' = delete (getSculptID p) (mPendingLOD st) /\
  mLODReqQ st' = mLODReqQ st /\ mLoadedQ st' = mLoadedQ st /\
  mUnavailableQ st' = mUnavailableQ st /\ mSkinRequests st' = mSkinRequests st /\
  mHttpRequestSet st' = mHttpRequestSet st /\ mMeshHeader st' = mMeshHeader st /\
  mDisk st' = mDisk st /\ mHeaderReqQ st' = mHeaderReqQ st.
Proof.
  cbv zeta. unfold header_pending.
  destruct (mPendingLOD st !! getSculptID p) as [pending|] eqn:Hp.
  - unfold lod_indices. cbn [foldl]. unfold header_pending_lod, locals_init.
    cbn [lod_get pl_lod_size pl_lod_offset lowest_lod low_lod medium_lod high_lod].
    rewrite !andb_false_r. cbn. repeat split.
  - rewrite delete_id by exact Hp. repeat split.
Qed.

Lemma header_skin_undeclared id data ds hs R :
  header_skin id data ds (locals_init hs) R = R.
Proof. reflexivity. Qed.

(** X10.  An empty header answer (no data, size 0) is final: the
    handler stores the default header with the 404 mark, drops the
    mesh's entry of the pending-LOD table without queueing, delivering
    or reporting any of its LODs, and writes nothing to the cache. *)
Theorem empty_header_answer o p R :
  let id := getSculptID p in
  let R' := LLMeshHeaderHandler_processData o p None 0 R in
  let st := mThread R in
  let st' := mThread R' in
  mMeshHeader st' = <[id := set_m404 true LLMeshHeader_default]> (mMeshHeader st) /\
  mPendingLOD st' = delete id (mPendingLOD st) /\
  mLODReqQ st' = mLODReqQ st /\ mLoadedQ st' = mLoadedQ st /\
  mUnavailableQ st' = mUnavailableQ st /\ mSkinRequests st' = mSkinRequests st /\
  mHeaderReqQ st' = mHeaderReqQ st /\
  mHttpRequestSet st' = mHttpRequestSet st /\ mDisk st' = mDisk st.
Proof.
  cbv zeta. unfold LLMeshHeaderHandler_processData.
  assert (Hs : Bool.eqb (bool_decide (is_Some (@None buffer))) (0 <? 0) = true).
  { rewrite bool_decide_eq_false_2; [reflexivity|]. intros [x Hx]. discriminate. }
  rewrite Hs. unfold headerReceived. cbn [Z.ltb Z.compare default negb].
  rewrite header_skin_undeclared. cbn [mThread with_mThread].
  match goal with |- context [header_pending ?a ?b ?c (locals_init ?h) ?s] =>
    destruct (header_pending_undeclared a b c h s)
      as (-> & -> & -> & -> & -> & -> & -> & -> & ->)
  end.
  cbn. repeat split.
Qed.

(** X11.  A header answer that does not decode to a map stores no
    header and keeps the pending-LOD entry; the handler reports all
    four LODs of the mesh unavailable and does not touch the cache. *)
Theorem undecodable_header_answer o p data data_size R skipped dsize hs0 :
  0 < data_size ->
  strip_deprecated_header data data_size = (skipped, dsize, hs0) ->
  (fromBinary (drop (Z.to_nat skipped) data) (wrapS32 dsize) = DecodeError \/
   fromBinary (drop (Z.to_nat skipped) data) (wrapS32 dsize) = DecodedNotMap) ->
  LLMeshHeaderHandler_processData o p (Some data) data_size R =
    with_mThread
      (with_mUnavailableQ
         (mUnavailableQ (mThread R)
            ++ [new_LODRequest p 0; new_LODRequest p 1; new_LODRequest p 2;
                new_LODRequest p 3]) (mThread R)) R.
Proof.
  intros Hpos Hstrip Hdec. unfold LLMeshHeaderHandler_processData.
  assert (Hp : (0 <? data_size) = true) by (apply Z.ltb_lt; lia).
  assert (Hs : Bool.eqb (bool_decide (is_Some (Some data))) (0 <? data_size) = true).
  { rewrite Hp, bool_decide_eq_true_2 by eauto. reflexivity. }
  rewrite Hs. cbn [default]. unfold Datatypes.id, headerReceived.
  rewrite Hp, Hstrip. destruct Hdec as [-> | ->]; reflexivity.
Qed.

(** ** A header GET the transport refuses *)

Lemma refusal_keeps_refl st : refusal_keeps st st.
Proof. unfold refusal_keeps. repeat split. Qed.

Lemma fetchMeshHeader_refused o p R :
  refusing o ->
  mDisk (mThread R) !! getSculptID p = None ->
  nonempty (fst (constructUrl o (mThread R) (getSculptID p))) = true ->
  exists R',
    fetchMeshHeader o p R = Some (false, R') /\
    mHeaderReqQ (mThread R') = mHeaderReqQ (mThread R) ++ [new_HeaderRequest p] /\
    refusal_keeps (mThread R) (mThread R').
Proof.
  intros (Hreg & Hnone & Hexit) Hdisk Hurl. unfold fetchMeshHeader.
  cbn [mThread with_mThread].
  assert (Hsz : file_getSize (count (add_sMeshRequestCount 1) (mThread R)) (getSculptID p) = 0).
  { unfold file_getSize. cbn. now rewrite Hdisk. }
  rewrite Hsz. cbn [Z.ltb Z.compare].
  assert (Hcu : constructUrl o (count (add_sMeshRequestCount 1) (mThread R)) (getSculptID p)
                = constructUrl o (mThread R) (getSculptID p)) by reflexivity.
  rewrite Hcu. destruct (constructUrl o (mThread R) (getSculptID p)) as [url v].
  cbn [fst] in Hurl. rewrite Hurl.
  unfold issue_request.
  match goal with |- context [getByteRange ?a ?b ?c ?d ?e ?s] =>
    destruct (getByteRange_spec a b c d e s) as (st1 & -> & _ & Hst1)
  end.
  rewrite Hnone, (Hst1 Hnone). unfold destroy_handler. cbn [hKind new_handler mProcessed negb].
  rewrite Hexit. cbn [negb mbind option_bind hMeshID].
  destruct p as [id]. cbn [getSculptID].
  eexists. split; [reflexivity|]. cbn. split; [reflexivity|].
  unfold refusal_keeps. cbn. repeat split.
Qed.

(** X12.  When the transport refuses the header GET (no cache blob, a
    capability URL, the application running), [fetchMeshHeader]
    returns [false] with nothing submitted and no handler kept, and the
    discarded handler has put a fresh header request for the mesh on
    the header queue. *)
Theorem refused_header_fetch_requeues o p R :
  refusing o ->
  mDisk (mThread R) !! getSculptID p = None ->
  nonempty (fst (constructUrl o (mThread R) (getSculptID p))) = true ->
  exists R',
    fetchMeshHeader o p R = Some (false, R') /\
    mHeaderReqQ (mThread R') = mHeaderReqQ (mThread R) ++ [new_HeaderRequest p] /\
    mHttpRequestSet (mThread R') = mHttpRequestSet (mThread R) /\
    mHttpRequest (mThread R') = mHttpRequest (mThread R) /\
    mMeshHeader (mThread R') = mMeshHeader (mThread R).
Proof.
  intros Ho Hd Hu.
  destruct (fetchMeshHeader_refused o p R Ho Hd Hu) as (R' & Hf & Hq & Hk).
  destruct Hk as (_ & _ & _ & _ & _ & Hh & _ & Hs & Hr).
  exists R'. auto.
Qed.

Lemma isDelayed_new now : isDelayed now RequestStats_new = false.
Proof. reflexivity. Qed.

Lemma refused_header_loop n : forall env now high_water p i incomplete R,
  (forall j, refusing (env j)) ->
  mDisk (mThread R) !! getSculptID p = None ->
  (forall j, nonempty (fst (constructUrl (env j) (mThread R) (getSculptID p))) = true) ->
  mHeaderReqQ (mThread R) = [new_HeaderRequest p] ->
  Z.of_nat (length (mHttpRequestSet (mThread R))) < high_water ->
  exists incomplete' R',
    run_header_loop n env now high_water i incomplete R = Some (incomplete', R') /\
    length incomplete' = (n + length incomplete)%nat /\
    mHeaderReqQ (mThread R') = [new_HeaderRequest p] /\
    mHttpRequestSet (mThread R') = mHttpRequestSet (mThread R) /\
    mHttpRequest (mThread R') = mHttpRequest (mThread R).
Proof.
  induction n as [|n IH]; intros env now high_water p i incomplete R Henv Hdisk Hurl Hq Hhw.
  { cbn. eexists _, _. repeat split; reflexivity || exact Hq. }
  cbn [run_header_loop]. rewrite Hq.
  assert (Hb : below_high_water high_water (mThread R) = true)
    by (unfold below_high_water; apply Z.ltb_lt; exact Hhw).
  rewrite Hb. cbn [hr_stats new_HeaderRequest hr_mMeshParams]. rewrite isDelayed_new.
  set (R0 := with_mThread (with_mHeaderReqQ [] (mThread R)) R).
  destruct (fetchMeshHeader_refused (env i) p R0 (Henv i)) as (R1 & Hf & Hq1 & Hk).
  { exact Hdisk. }
  { exact (Hurl i). }
  rewrite Hf. change (canRetry RequestStats_new) with true. cbv iota.
  destruct Hk as (Hc1 & Hc2 & Hc3 & Hc4 & Hd1 & Hh1 & Hp1 & Hs1 & Hr1).
  cbn [mThread with_mThread R0 mHeaderReqQ with_mHeaderReqQ mGetMeshCapability
       mLegacyGetMeshCapability mLegacyGetMesh2Capability mLegacyGetMeshVersion
       mDisk mMeshHeader mPendingLOD mHttpRequestSet mHttpRequest app] in *.
  destruct (IH env now high_water p (S i)
              (with_hr_stats (updateTime now RequestStats_new) (new_HeaderRequest p) :: incomplete)
              R1) as (inc' & R' & Hrun & Hlen & Hq' & Hs' & Hr').
  - exact Henv.
  - rewrite Hd1. exact Hdisk.
  - intros j. rewrite (constructUrl_caps (env j) (mThread R) (mThread R1)) by assumption.
    exact (Hurl j).
  - exact Hq1.
  - rewrite Hs1. exact Hhw.
  - exists inc', R'. split; [exact Hrun|]. split; [cbn [length] in Hlen; lia|].
    split; [exact Hq'|]. split; congruence.
Qed.

(** X13.  While the transport refuses header GETs, the header block
    of the worker loop does not run out of work: every turn takes the
    fresh request the discarded handler left, fails, and keeps a
    retried copy, so that after [n] turns [n] copies wait in the
    [incomplete] list and a fresh request is at the head of the queue
    again, with nothing submitted. *)
Theorem refused_header_requests_pile_up n env now high_water p R :
  (forall j, refusing (env j)) ->
  mDisk (mThread R) !! getSculptID p = None ->
  (forall j, nonempty (fst (constructUrl (env j) (mThread R) (getSculptID p))) = true) ->
  mHeaderReqQ (mThread R) = [new_HeaderRequest p] ->
  Z.of_nat (length (mHttpRequestSet (mThread R))) < high_water ->
  exists incomplete R',
    run_header_loop n env now high_water 0 [] R = Some (incomplete, R') /\
    length incomplete = n /\
    mHeaderReqQ (mThread R') = [new_HeaderRequest p] /\
    mHttpRequestSet (mThread R') = mHttpRequestSet (mThread R) /\
    mHttpRequest (mThread R') = mHttpRequest (mThread R).
Proof.
  intros Henv Hdisk Hurl Hq Hhw.
  destruct (refused_header_loop n env now high_water p 0%nat [] R Henv Hdisk Hurl Hq Hhw)
    as (inc & R' & Hrun & Hlen & Hrest).
  exists inc, R'. split; [exact Hrun|]. split; [cbn in Hlen; lia|exact Hrest].
Qed.

(** ** The in-flight set *)

Lemma headerReceived_set p data sz flags R r R' :
  headerReceived p data sz flags R = (r, R') ->
  mHttpRequestSet (mThread R') = mHttpRequestSet (mThread R).
Proof.
  unfold headerReceived. intros H.
  assert (Hstore : forall header l dsz,
    mHttpRequestSet
      (mThread (with_mThread
         (header_pending p data dsz l
            (mThread (header_skin (getSculptID p) data dsz l
               (with_mThread
                  (count (add_sCacheBytesHeaders (wrapU32 (pl_header_size l)))
                     (with_mMeshHeader (<[getSculptID p := header]> (mMeshHeader (mThread R)))
                        (mThread R))) R))))
         (header_skin (getSculptID p) data dsz l
            (with_mThread
               (count (add_sCacheBytesHeaders (wrapU32 (pl_header_size l)))
                  (with_mMeshHeader (<[getSculptID p := header]> (mMeshHeader (mThread R)))
                     (mThread R))) R))))
    = mHttpRequestSet (mThread R)).
  { intros header l dsz. cbn [mThread with_mThread].
    match goal with |- mHttpRequestSet (header_pending ?a ?b ?c ?d ?s) = _ =>
      destruct (header_pending_core a b c d s) as (_ & -> & _) end.
    match goal with |- mHttpRequestSet (mThread (header_skin ?a ?b ?c ?d ?s)) = _ =>
      destruct (header_skin_core a b c d s) as (_ & -> & _) end.
    reflexivity. }
  repeat case_match; simplify_eq; try reflexivity; apply Hstore.
Qed.

Lemma LLMeshHeaderHandler_processData_set o p data sz R :
  mHttpRequestSet (mThread (LLMeshHeaderHandler_processData o p data sz R))
  = mHttpRequestSet (mThread R).
Proof.
  unfold LLMeshHeaderHandler_processData.
  repeat case_match; simplify_eq; cbn [mThread with_mThread];
    repeat match goal with
    | H : headerReceived _ _ _ _ _ = _ |- _ => apply headerReceived_set in H
    end; cbn; congruence.
Qed.

Lemma run_header_calls_set o p calls : forall R,
  mHttpRequestSet (mThread (foldl (run_header_call o p) R calls))
  = mHttpRequestSet (mThread R).
Proof.
  induction calls as [|c calls IH]; intros R; cbn [foldl]; [reflexivity|].
  rewrite IH. destruct c; cbn [run_header_call].
  - reflexivity.
  - apply LLMeshHeaderHandler_processData_set.
Qed.

(** X14.  Completion releases the handler: whatever the answer, after
    [onCompleted] of a header handler the in-flight set holds exactly
    the handlers it held before whose handle is not the completed
    one. *)
Theorem completed_header_handler_leaves_set o handler response R R' :
  LLMeshHeaderHandler_onCompleted o handler response R = Some R' ->
  mHttpRequestSet (mThread R')
  = filter (fun h => mHttpHandle h ≠ mHttpHandle handler) (mHttpRequestSet (mThread R)).
Proof.
  unfold LLMeshHeaderHandler_onCompleted. intros H.
  destruct (onCompleted_calls _ _ _) as [[calls errors] received].
  apply bind_Some in H as (st1 & Hd & Hr). injection Hr as <-.
  apply destroy_handler_frame in Hd as ((_ & Hs & _) & _).
  cbn [mThread with_mThread]. rewrite Hs. cbn [mHttpRequestSet with_mHttpRequestSet count
    with_mCounters mHttpHandle with_mProcessed].
  rewrite run_header_calls_set. reflexivity.
Qed.

Lemma fetch_effect_size k id st st' :
  fetch_effect k id st st' -> set_size st' <= set_size st + 1.
Proof.
  unfold set_size. intros (_ & [-> | (_ & h & off & sz & ->)]); [lia|].
  rewrite length_app. cbn. lia.
Qed.

Lemma same_core_size st st' : same_core st st' -> set_size st' = set_size st.
Proof. unfold set_size. now intros (_ & -> & _). Qed.

Lemma fetchMeshHeader_size o p R b R' :
  fetchMeshHeader o p R = Some (b, R') ->
  set_size (mThread R') <= set_size (mThread R) + 1.
Proof.
  unfold fetchMeshHeader, set_size. intros H.
  repeat case_match; simplify_eq; cbn [mThread with_mThread] in *;
    repeat match goal with
    | H : _ ≫= _ = Some _ |- _ => apply bind_Some in H as ([? ?] & ? & ?); simplify_eq
    | H : issue_request _ _ _ _ _ _ _ _ = Some _ |- _ =>
        apply issue_request_spec in H
          as (_ & _ & [(_ & _ & H & _)|(_ & ? & _ & H)])
    | H : headerReceived _ _ _ _ _ = _ |- _ => apply headerReceived_set in H
    end; cbn [mThread with_mThread mHttpRequestSet count with_mCounters] in *;
    repeat match goal with
    | H : mHttpRequestSet _ = _ |- _ => rewrite H; clear H
    end;
    cbn [mThread with_mThread mHttpRequestSet count with_mCounters];
    rewrite ?length_app; cbn [length]; lia.
Qed.

(** ** The high-water mark *)

Lemma run_skin_loop_size fuel env now hw b :
  forall i inc st inc' st',
    run_skin_loop fuel env now hw i inc st = Some (inc', st') ->
    set_size st <= Z.max hw b -> set_size st' <= Z.max hw b.
Proof.
  induction fuel as [|fuel IH]; intros i inc st inc' st' H Hb; cbn in H.
  { now simplify_eq. }
  destruct (mSkinRequests st) as [|req rest] eqn:Hq; [now simplify_eq|].
  destruct (below_high_water hw st) eqn:Hw; [|now simplify_eq].
  unfold below_high_water in Hw. apply Z.ltb_lt in Hw. fold (set_size st) in Hw.
  destruct (isDelayed now (ur_stats req)).
  { eapply IH; [exact H|]. unfold set_size in *. cbn. exact Hb. }
  destruct (fetchMeshSkinInfo (env i) (ur_mId req) (with_mSkinRequests rest st))
    as [[[] st1]|] eqn:Hf; [| |discriminate].
  all: pose proof (fetch_effect_size _ _ _ _ (fetchMeshSkinInfo_effect _ _ _ _ _ Hf)) as Hs;
    assert (Hs1 : set_size st1 <= Z.max hw b)
      by (unfold set_size in *; cbn [mHttpRequestSet with_mSkinRequests] in Hs; lia).
  - eapply IH; eassumption.
  - destruct (canRetry (ur_stats req)); (eapply IH; [exact H|]);
      unfold set_size in *; cbn; exact Hs1.
Qed.

Lemma run_lod_loop_size fuel env now hw b :
  forall i inc st inc' st',
    run_lod_loop fuel env now hw i inc st = Some (inc', st') ->
    set_size st <= Z.max hw b -> set_size st' <= Z.max hw b.
Proof.
  induction fuel as [|fuel IH]; intros i inc st inc' st' H Hb; cbn in H.
  { now simplify_eq. }
  destruct (mLODReqQ st) as [|req rest] eqn:Hq; [now simplify_eq|].
  destruct (below_high_water hw st) eqn:Hw; [|now simplify_eq].
  unfold below_high_water in Hw. apply Z.ltb_lt in Hw. fold (set_size st) in Hw.
  destruct (isDelayed now (lr_stats req)).
  { eapply IH; [exact H|]. unfold set_size in *. cbn. exact Hb. }
  match type of H with context [fetchMeshLOD ?o ?p ?l ?s] =>
    destruct (fetchMeshLOD o p l s) as [[[] st1]|] eqn:Hf; [| |discriminate]
  end.
  all: pose proof (fetch_effect_size _ _ _ _ (fetchMeshLOD_effect _ _ _ _ _ _ Hf)) as Hs;
    assert (Hs1 : set_size st1 <= Z.max hw b)
      by (unfold set_size in *;
          cbn [mHttpRequestSet with_mLODReqQ count with_mCounters] in Hs; lia).
  - eapply IH; eassumption.
  - destruct (canRetry (lr_stats req)); (eapply IH; [exact H|]);
      unfold set_size in *; cbn; exact Hs1.
Qed.

Lemma run_header_loop_size fuel env now hw b :
  forall i inc R inc' R',
    run_header_loop fuel env now hw i inc R = Some (inc', R') ->
    set_size (mThread R) <= Z.max hw b -> set_size (mThread R') <= Z.max hw b.
Proof.
  induction fuel as [|fuel IH]; intros i inc R inc' R' H Hb; cbn in H.
  { now simplify_eq. }
  destruct (mHeaderReqQ (mThread R)) as [|req rest] eqn:Hq; [now simplify_eq|].
  destruct (below_high_water hw (mThread R)) eqn:Hw; [|now simplify_eq].
  unfold below_high_water in Hw. apply Z.ltb_lt in Hw. fold (set_size (mThread R)) in Hw.
  destruct (isDelayed now (hr_stats req)).
  { eapply IH; [exact H|]. unfold set_size in *. cbn. exact Hb. }
  match type of H with context [fetchMeshHeader ?o ?p ?s] =>
    destruct (fetchMeshHeader o p s) as [[[] R1]|] eqn:Hf; [| |discriminate]
  end.
  all: pose proof (fetchMeshHeader_size _ _ _ _ _ Hf) as Hs;
    assert (Hs1 : set_size (mThread R1) <= Z.max hw b)
      by (unfold set_size in *;
          cbn [mThread with_mThread mHttpRequestSet with_mHeaderReqQ] in Hs; lia).
  - eapply IH; eassumption.
  - destruct (canRetry (hr_stats req)); (eapply IH; [exact H|]); exact Hs1.
Qed.

(** X15.  The worker keeps to the high-water mark: a pass over the
    skin, LOD and header queues never leaves more requests in flight
    than the mark allows, unless more were in flight already when the
    pass began, and then it adds none. *)
Theorem pass_respects_high_water fuel env now high_water R R' :
  run_pass fuel env now high_water R = Some R' ->
  set_size (mThread R') <= Z.max high_water (set_size (mThread R)).
Proof.
  unfold run_pass, run_skin_requests, run_lod_requests, run_header_requests. intros H.
  apply bind_Some in H as (st1 & H1 & H).
  apply bind_Some in H as (st2 & H2 & H).
  apply bind_Some in H1 as ([inc1 s1] & Hl1 & E1). injection E1 as <-.
  apply bind_Some in H2 as ([inc2 s2] & Hl2 & E2). injection E2 as <-.
  apply bind_Some in H as ([inc3 R3] & Hl3 & E3). injection E3 as <-.
  set (b := set_size (mThread R)).
  assert (B0 : set_size (run_work_queue (mThread R)) <= Z.max high_water b).
  { rewrite (same_core_size _ _ (run_work_queue_core (mThread R))). subst b. lia. }
  pose proof (run_skin_loop_size _ _ _ _ b _ _ _ _ _ Hl1 B0) as B1.
  assert (B1' : set_size (with_mSkinRequests (mSkinRequests s1 ++ inc1) s1) <= Z.max high_water b)
    by exact B1.
  pose proof (run_lod_loop_size _ _ _ _ b _ _ _ _ _ Hl2 B1') as B2.
  assert (B2' : set_size (mThread (with_mThread
                   (foldl (fun st req => push_LODRequest req st) s2 inc2) R))
                <= Z.max high_water b).
  { cbn [mThread with_mThread].
    rewrite (same_core_size _ _ (foldl_push_LODRequest_core inc2 s2)). exact B2. }
  pose proof (run_header_loop_size _ _ _ _ b _ _ _ _ _ Hl3 B2') as B3.
  exact B3.
Qed.

(** ** Registry: requests coalesce *)

Lemma quick_search_usable view new_lod last_lod :
  quick_search view new_lod last_lod = new_lod \/
  lod_usable view (quick_search view new_lod last_lod) = true.
Proof.
  unfold quick_search. destruct (has_volume_group view); [|now left].
  destruct ((0 <=? last_lod) && lod_usable view last_lod) eqn:Hl.
  { right. now apply andb_true_iff in Hl as [_ Hl]. }
  destruct (find _ (reverse _)) as [i|] eqn:Hd.
  { right. now apply find_some in Hd as [_ Hd]. }
  destruct (find _ (seqZ _ _)) as [i|] eqn:Hu.
  { right. now apply find_some in Hu as [_ Hu]. }
  now left.
Qed.

Lemma loadMesh_answer_aux view vobj p new_lod last_lod M R :
  exists r M' R', loadMesh view vobj p new_lod last_lod M R = Some (r, M', R').
Proof.
  unfold loadMesh.
  destruct ((new_lod <? 0) || (NUM_LODS <=? new_lod)) eqn:Hr.
  { eexists _, _, _. reflexivity. }
  apply orb_false_iff in Hr as [H0 H3]. apply Z.ltb_ge in H0. apply Z.leb_gt in H3.
  destruct (lod_get_in_range (mLoadingMeshes R) new_lod (conj H0 H3)) as [loading ->].
  eexists _, _, _. reflexivity.
Qed.

(** X16.  [loadMesh] is defined for every LOD value, indexes the
    loading tables only with a LOD in [0, 3], leaves the worker alone,
    and answers either the LOD asked for or a LOD the object's volume
    group can show at once. *)
Theorem loadMesh_answer view vobj p new_lod last_lod M R :
  exists r M' R',
    loadMesh view vobj p new_lod last_lod M R = Some (r, M', R') /\
    mThread R' = mThread R /\
    (r = new_lod \/ lod_usable view r = true).
Proof.
  unfold loadMesh.
  destruct ((new_lod <? 0) || (NUM_LODS <=? new_lod)) eqn:Hr.
  { eexists _, _, _. split; [reflexivity|]. auto. }
  apply orb_false_iff in Hr as [H0 H3]. apply Z.ltb_ge in H0. apply Z.leb_gt in H3.
  destruct (lod_get_in_range (mLoadingMeshes R) new_lod (conj H0 H3)) as [loading ->].
  cbn [mbind option_bind].
  eexists _, _, _. split; [reflexivity|]. split.
  - destruct (loading !! getSculptID p); [destruct (bool_decide _)|]; reflexivity.
  - apply quick_search_usable.
Qed.

(** X17.  Requests for one mesh and LOD coalesce in the loading table:
    [loadMesh] appends a pending request, and counts it in
    [sLODPending], exactly when the table has no entry for the pair; in
    either case the object is among the entry's waiting objects
    afterwards, once, and the objects that waited before still do. *)
Theorem loadMesh_coalesces view vobj p new_lod last_lod M R :
  0 <= new_lod <= 3 ->
  let id := getSculptID p in
  exists r M' R' d',
    loadMesh view vobj p new_lod last_lod M R = Some (r, M', R') /\
    loading_entry R' id new_lod = Some d' /\
    match loading_entry R id new_lod with
    | Some d =>
      mPendingRequests R' = mPendingRequests R /\ sLODPending R' = sLODPending R /\
      mRequest d' = mRequest d /\
      mVolumes d' = if bool_decide (vobj ∈ mVolumes d) then mVolumes d
                    else mVolumes d ++ [vobj]
    | None =>
      mPendingRequests R' = mPendingRequests R ++ [PendingRequestLOD p new_lod] /\
      sLODPending R' = wrapU32 (sLODPending R + 1) /\
      mRequest d' = Some (PendingRequestLOD p new_lod) /\
      mVolumes d' = [vobj]
    end.
Proof.
  intros Hr. cbv zeta. unfold loadMesh, loading_entry.
  assert (Hb : (new_lod <? 0) || (NUM_LODS <=? new_lod) = false).
  { apply orb_false_iff. split; [apply Z.ltb_ge|apply Z.leb_gt]; unfold NUM_LODS; lia. }
  rewrite Hb.
  assert (Hrange : 0 <= new_lod < NUM_LODS) by (unfold NUM_LODS; lia).
  destruct (lod_get_in_range (mLoadingMeshes R) new_lod Hrange) as [loading Hl].
  rewrite Hl. cbn [mbind option_bind].
  destruct (loading !! getSculptID p) as [d|] eqn:Hd.
  - destruct (bool_decide (vobj ∈ mVolumes d)) eqn:Hin.
    + eexists _, _, _, d. split; [reflexivity|]. rewrite Hl. cbn [mbind option_bind].
      rewrite Hd. repeat split.
    + eexists _, _, _, _. split; [reflexivity|]. cbn [mLoadingMeshes with_mLoadingMeshes].
      rewrite lod_get_set by exact Hrange. cbn [mbind option_bind].
      rewrite lookup_insert_eq. split; [reflexivity|]. cbn. repeat split.
  - eexists _, _, _, _. split; [reflexivity|].
    cbn [mLoadingMeshes with_mLoadingMeshes with_mPendingRequests with_sLODPending].
    rewrite lod_get_set by exact Hrange. cbn [mbind option_bind].
    rewrite lookup_insert_eq. split; [reflexivity|]. cbn. repeat split.
Qed.

(** X18.  Skin requests coalesce in [mLoadingSkins]: after one
    [getSkinInfo] for a mesh, a second one by any object adds no
    pending request, a second one by the same object changes nothing
    at all, and a call with a null mesh id or without a requesting
    object never changes the repository. *)
Theorem getSkinInfo_requests_once mesh_id obj1 obj2 R :
  let R1 := snd (getSkinInfo mesh_id (Some obj1) R) in
  let R2 := snd (getSkinInfo mesh_id (Some obj2) R1) in
  mPendingRequests R2 = mPendingRequests R1 /\
  (obj2 = obj1 -> R2 = R1) /\
  snd (getSkinInfo mesh_id None R) = R /\
  snd (getSkinInfo 0%N (Some obj1) R) = R.
Proof.
  cbv zeta. split; [|split; [|split]].
  - unfold getSkinInfo. destruct (negb (mesh_id =? 0)%N); [|reflexivity].
    destruct (gMeshRepo_mSkinMap R !! mesh_id) eqn:Hs; cbn [snd].
    { rewrite Hs. reflexivity. }
    destruct (mLoadingSkins R !! mesh_id) as [d|] eqn:Hl.
    + destruct (bool_decide (obj1 ∈ mVolumes d)); cbn [snd].
      * rewrite Hs, Hl. destruct (bool_decide _); reflexivity.
      * cbn [gMeshRepo_mSkinMap with_mLoadingSkins mLoadingSkins]. rewrite Hs.
        rewrite lookup_insert_eq. destruct (bool_decide _); reflexivity.
    + cbn [snd gMeshRepo_mSkinMap with_mLoadingSkins with_mPendingRequests mLoadingSkins].
      rewrite Hs, lookup_insert_eq. destruct (bool_decide _); reflexivity.
  - intros ->. unfold getSkinInfo. destruct (negb (mesh_id =? 0)%N); [|reflexivity].
    destruct (gMeshRepo_mSkinMap R !! mesh_id) eqn:Hs; cbn [snd].
    { rewrite Hs. reflexivity. }
    destruct (mLoadingSkins R !! mesh_id) as [d|] eqn:Hl.
    + destruct (bool_decide (obj1 ∈ mVolumes d)) eqn:Hin; cbn [snd].
      * rewrite Hs, Hl, Hin. reflexivity.
      * cbn [gMeshRepo_mSkinMap with_mLoadingSkins mLoadingSkins]. rewrite Hs.
        rewrite lookup_insert_eq.
        rewrite bool_decide_eq_true_2; [reflexivity|].
        cbn. apply elem_of_app. right. apply list_elem_of_singleton. reflexivity.
    + cbn [snd gMeshRepo_mSkinMap with_mLoadingSkins with_mPendingRequests mLoadingSkins].
      rewrite Hs, lookup_insert_eq.
      rewrite bool_decide_eq_true_2; [reflexivity|].
      cbn. apply list_elem_of_singleton. reflexivity.
  - unfold getSkinInfo. destruct (negb _); [|reflexivity].
    destruct (gMeshRepo_mSkinMap R !! mesh_id); reflexivity.
  - reflexivity.
Qed.

(** ** Registry: delivery *)

Lemma loadMesh_entry view vobj p lod last_lod M R r M1 R1 :
  0 <= lod <= 3 ->
  loadMesh view vobj p lod last_lod M R = Some (r, M1, R1) ->
  exists d',
    loading_entry R1 (getSculptID p) lod = Some d' /\ vobj ∈ mVolumes d' /\
    mPendingRequests R1
    = mPendingRequests R ++ match loading_entry R (getSculptID p) lod with
                            | Some _ => [] | None => [PendingRequestLOD p lod] end.
Proof.
  intros Hr. unfold loadMesh, loading_entry.
  assert (Hb : (lod <? 0) || (NUM_LODS <=? lod) = false).
  { apply orb_false_iff. split; [apply Z.ltb_ge|apply Z.leb_gt]; unfold NUM_LODS; lia. }
  rewrite Hb.
  assert (Hrange : 0 <= lod < NUM_LODS) by (unfold NUM_LODS; lia).
  destruct (lod_get_in_range (mLoadingMeshes R) lod Hrange) as [loading Hl].
  rewrite Hl. cbn [mbind option_bind].
  destruct (loading !! getSculptID p) as [d|] eqn:Hd.
  - destruct (bool_decide (vobj ∈ mVolumes d)) eqn:Hin; intros [= <- <- <-].
    + exists d. rewrite Hl. cbn [mbind option_bind]. rewrite Hd.
      split; [reflexivity|]. split; [|now rewrite app_nil_r].
      now apply bool_decide_eq_true in Hin.
    + eexists. cbn [mLoadingMeshes with_mLoadingMeshes mPendingRequests].
      rewrite lod_get_set by exact Hrange. cbn [mbind option_bind].
      rewrite lookup_insert_eq. split; [reflexivity|]. split; [|now rewrite app_nil_r].
      cbn. apply elem_of_app. right. apply list_elem_of_singleton. reflexivity.
  - intros [= <- <- <-]. eexists.
    cbn [mLoadingMeshes with_mLoadingMeshes with_mPendingRequests with_sLODPending].
    rewrite lod_get_set by exact Hrange. cbn [mbind option_bind].
    rewrite lookup_insert_eq. split; [reflexivity|]. split; [|reflexivity].
    cbn. apply list_elem_of_singleton. reflexivity.
Qed.

(** X19.  Delivering a LOD ends its request: after [loadMesh] for an
    in-range LOD, [notifyMeshLoaded] with a volume notifies the object
    that asked, erases the entry of the loading table, and leaves the
    pending list alone, so that the next [loadMesh] for the same mesh
    and LOD is a first request again and appends a pending request. *)
Theorem delivered_lod_ends_request view vobj p lod last_lod M R r M1 R1 volume :
  0 <= lod <= 3 ->
  loadMesh view vobj p lod last_lod M R = Some (r, M1, R1) ->
  exists objs R2,
    notifyMeshLoaded p (Some volume) lod R1 = Some (objs, R2) /\
    vobj ∈ objs /\
    loading_entry R2 (getSculptID p) lod = None /\
    mPendingRequests R2 = mPendingRequests R1 /\
    exists r' M3 R3,
      loadMesh view vobj p lod last_lod M1 R2 = Some (r', M3, R3) /\
      mPendingRequests R3 = mPendingRequests R1 ++ [PendingRequestLOD p lod].
Proof.
  intros Hr Hload.
  destruct (loadMesh_entry _ _ _ _ _ _ _ _ _ _ Hr Hload) as (d' & He & Hin & _).
  assert (Hrange : 0 <= lod < NUM_LODS) by (unfold NUM_LODS; lia).
  unfold loading_entry in He.
  destruct (lod_get (mLoadingMeshes R1) lod) as [loading|] eqn:Hg; [|discriminate].
  cbn [mbind option_bind] in He.
  unfold notifyMeshLoaded. rewrite Hg. cbn [mbind option_bind]. rewrite He.
  eexists _, _. split; [reflexivity|]. split; [exact Hin|].
  set (R2 := with_mLoadingMeshes _ R1).
  assert (Hnone : loading_entry R2 (getSculptID p) lod = None).
  { unfold loading_entry, R2. cbn [mLoadingMeshes with_mLoadingMeshes].
    rewrite lod_get_set by exact Hrange. cbn [mbind option_bind].
    apply lookup_delete_eq. }
  split; [exact Hnone|]. split; [reflexivity|].
  destruct (loadMesh_answer_aux view vobj p lod last_lod M1 R2) as (r3 & M3 & R3 & Hl3).
  destruct (loadMesh_entry _ _ _ _ _ _ _ _ _ _ Hr Hl3) as (_ & _ & _ & Hp).
  rewrite Hnone in Hp.
  eexists _, _, _. split; [exact Hl3|]. exact Hp.
Qed.

(** X20.  A received skin is found: [notifySkinInfoReceived] stores
    the descriptor under its mesh id, notifies exactly the objects
    that waited in [mLoadingSkins], and erases that entry; a later
    [getSkinInfo] for the id answers the descriptor and changes
    nothing, so that no new request is made. *)
Theorem received_skin_is_found info refs R obj :
  si_mMeshID info <> 0%N ->
  let res := notifySkinInfoReceived info refs R in
  fst res = match mLoadingSkins R !! si_mMeshID info with
            | Some d => mVolumes d | None => [] end /\
  mLoadingSkins (snd res) !! si_mMeshID info = None /\
  getSkinInfo (si_mMeshID info) obj (snd res)
  = (Some {| sr_info := info; getNumRefs := refs |}, snd res).
Proof.
  intros Hid. cbv zeta. unfold notifySkinInfoReceived.
  cbn [mLoadingSkins with_gMeshRepo_mSkinMap].
  assert (Hnz : negb (si_mMeshID info =? 0)%N = true).
  { apply negb_true_iff, N.eqb_neq, Hid. }
  destruct (mLoadingSkins R !! si_mMeshID info) as [d|] eqn:Hl; cbn [fst snd].
  - split; [reflexivity|]. split.
    + cbn [mLoadingSkins with_mLoadingSkins]. apply lookup_delete_eq.
    + unfold getSkinInfo. rewrite Hnz.
      cbn [gMeshRepo_mSkinMap with_mLoadingSkins with_gMeshRepo_mSkinMap].
      rewrite lookup_insert_eq. reflexivity.
  - split; [reflexivity|]. split.
    + cbn [mLoadingSkins with_gMeshRepo_mSkinMap]. exact Hl.
    + unfold getSkinInfo. rewrite Hnz.
      cbn [gMeshRepo_mSkinMap with_gMeshRepo_mSkinMap].
      rewrite lookup_insert_eq. reflexivity.
Qed.

(** X27.  A report of failure ends a LOD request as a delivery does:
    [notifyMeshUnavailable] goes through the objects that wait for the
    mesh and LOD, the one that asked among them, erases the entry of
    the loading table and leaves the pending list alone. *)
Theorem unavailable_lod_ends_request view vobj p lod last_lod volume_lod M R r M1 R1 :
  0 <= lod <= 3 ->
  loadMesh view vobj p lod last_lod M R = Some (r, M1, R1) ->
  exists objs R2,
    notifyMeshUnavailable p lod volume_lod R1 = Some (objs, R2) /\
    vobj ∈ objs /\
    loading_entry R2 (getSculptID p) lod = None /\
    mPendingRequests R2 = mPendingRequests R1.
Proof.
  intros Hr Hload.
  destruct (loadMesh_entry _ _ _ _ _ _ _ _ _ _ Hr Hload) as (d' & He & Hin & _).
  assert (Hrange : 0 <= lod < NUM_LODS) by (unfold NUM_LODS; lia).
  unfold loading_entry in He.
  destruct (lod_get (mLoadingMeshes R1) lod) as [loading|] eqn:Hg; [|discriminate].
  cbn [mbind option_bind] in He.
  unfold notifyMeshUnavailable. rewrite Hg. cbn [mbind option_bind]. rewrite He.
  eexists _, _. split; [reflexivity|]. split; [exact Hin|].
  split; [|reflexivity].
  unfold loading_entry. cbn [mLoadingMeshes with_mLoadingMeshes].
  rewrite lod_get_set by exact Hrange. cbn [mbind option_bind].
  apply lookup_delete_eq.
Qed.

(** X28.  An unavailable skin is asked for again.  After a
    [getSkinInfo] that found no skin, [notifySkinInfoUnavailable]
    informs the object that asked, erases the entry of
    [mLoadingSkins] and stores nothing in [mSkinMap]; the next
    [getSkinInfo] for the mesh therefore queues a new request. *)
Theorem unavailable_skin_is_asked_again mesh_id obj R Rs :
  mesh_id <> 0%N ->
  getSkinInfo mesh_id (Some obj) R = (None, Rs) ->
  let res := notifySkinInfoUnavailable mesh_id Rs in
  obj ∈ fst res /\
  mLoadingSkins (snd res) !! mesh_id = None /\
  gMeshRepo_mSkinMap (snd res) = gMeshRepo_mSkinMap R /\
  mPendingRequests (snd (getSkinInfo mesh_id (Some obj) (snd res)))
  = mPendingRequests Rs ++ [PendingRequestUUID mesh_id].
Proof.
  intros Hid Hget. cbv zeta.
  assert (Hnz : negb (mesh_id =? 0)%N = true) by (apply negb_true_iff, N.eqb_neq, Hid).
  unfold getSkinInfo in Hget. rewrite Hnz in Hget.
  destruct (gMeshRepo_mSkinMap R !! mesh_id) eqn:Hs; [discriminate|].
  assert (Hafter : exists d, mLoadingSkins Rs !! mesh_id = Some d /\ obj ∈ mVolumes d /\
                             gMeshRepo_mSkinMap Rs = gMeshRepo_mSkinMap R).
  { destruct (mLoadingSkins R !! mesh_id) as [d|] eqn:Hl.
    - destruct (bool_decide (obj ∈ mVolumes d)) eqn:Hin; injection Hget as <-.
      + exists d. split; [exact Hl|]. split; [|reflexivity].
        now apply bool_decide_eq_true in Hin.
      + eexists. cbn [mLoadingSkins with_mLoadingSkins]. rewrite lookup_insert_eq.
        split; [reflexivity|]. split; [|reflexivity].
        cbn. apply elem_of_app. right. apply list_elem_of_singleton. reflexivity.
    - injection Hget as <-. eexists.
      cbn [mLoadingSkins with_mLoadingSkins with_mPendingRequests]. rewrite lookup_insert_eq.
      split; [reflexivity|]. split; [|reflexivity].
      cbn. apply list_elem_of_singleton. reflexivity. }
  destruct Hafter as (d & Hd & Hin & Hmap).
  unfold notifySkinInfoUnavailable. rewrite Hd. cbn [fst snd].
  split; [exact Hin|].
  split; [cbn [mLoadingSkins with_mLoadingSkins]; apply lookup_delete_eq|].
  split; [exact Hmap|].
  unfold getSkinInfo. rewrite Hnz.
  cbn [gMeshRepo_mSkinMap with_mLoadingSkins mLoadingSkins]. rewrite Hmap, Hs.
  rewrite lookup_delete_eq. reflexivity.
Qed.

(** ** Registry: the push into the worker's queues *)

Lemma loadMeshLOD_queued p lod st st' :
  loadMeshLOD p lod st = Some st' ->
  mSkinRequests st' = mSkinRequests st /\
  (length (mLODReqQ st') + length (mHeaderReqQ st')
   <= S (length (mLODReqQ st) + length (mHeaderReqQ st)))%nat.
Proof.
  unfold loadMeshLOD. destruct (hasHeader st (getSculptID p)).
  { intros [= <-]. cbn. rewrite length_app. cbn. split; [reflexivity|lia]. }
  destruct (mPendingLOD st !! getSculptID p) as [pending|].
  { destruct (lod_get pending lod); intros [= <-]; cbn; split; try reflexivity; lia. }
  destruct (lod_get (lod_fill 0) lod); [|discriminate].
  intros [= <-]. cbn. rewrite length_app. cbn. split; [reflexivity|lia].
Qed.

Lemma push_pending_spec pending : forall push_count R R',
  mPendingRequests R = pending ->
  push_pending pending push_count R = Some R' ->
  mPendingRequests R' = drop push_count pending /\
  (queued (mThread R') <= queued (mThread R) + min push_count (length pending))%nat.
Proof.
  induction pending as [|req rest IH]; intros n R R' Hp Hpush.
  { cbn in Hpush. injection Hpush as <-. rewrite drop_nil. split; [exact Hp|lia]. }
  destruct n as [|n].
  { cbn in Hpush. injection Hpush as <-. split; [exact Hp|cbn; lia]. }
  cbn [push_pending] in Hpush.
  destruct req as [mesh_params lod|id]; cbn [mbind option_bind] in Hpush.
  - destruct (loadMeshLOD mesh_params lod (mThread R)) as [st|] eqn:Hl;
      cbn [mbind option_bind] in Hpush; [|discriminate].
    apply IH in Hpush; [|reflexivity]. destruct Hpush as [Hd Hq].
    split; [exact Hd|].
    apply loadMeshLOD_queued in Hl as [Hs Hl].
    unfold queued in *. cbn [mThread with_mPendingRequests with_sLODPending with_mThread] in Hq.
    cbn [length]. rewrite Hs in Hq. lia.
  - apply IH in Hpush; [|reflexivity]. destruct Hpush as [Hd Hq].
    split; [exact Hd|].
    unfold queued, loadMeshSkinInfo in *.
    cbn [mThread with_mPendingRequests with_mThread mLODReqQ mHeaderReqQ mSkinRequests
         with_mSkinRequests] in Hq.
    rewrite length_app in Hq. cbn [length] in *. lia.
Qed.

(** X21.  The push of pending requests respects the high-water mark:
    with [active] requests counted against [high_water], it does
    nothing when [active] is not below the mark, and otherwise takes
    at most [high_water - active] requests, from the front of the
    pending list (after the partial sort, when there are more), and
    adds at most that many entries to the worker's queues. *)
Theorem dispatch_within_room partial_sort high_water R R' :
  dispatch_pending partial_sort high_water R = Some R' ->
  let active := active_count (mThread R) in
  let room := high_water - active in
  let ordered := if room <? Z.of_nat (length (mPendingRequests R))
                 then partial_sort room (mPendingRequests R)
                 else mPendingRequests R in
  (high_water <= active -> R' = R) /\
  (active < high_water ->
   mPendingRequests R' = drop (Z.to_nat room) ordered /\
   Z.of_nat (queued (mThread R')) <= Z.of_nat (queued (mThread R)) + room).
Proof.
  intros Hd. cbv zeta. unfold dispatch_pending in Hd. split.
  - intros Hle. apply Z.ltb_ge in Hle. rewrite Hle in Hd. now injection Hd.
  - intros Hlt. pose proof Hlt as Hb. apply Z.ltb_lt in Hb. rewrite Hb in Hd.
    destruct (high_water - active_count (mThread R)
              <? Z.of_nat (length (mPendingRequests R))) eqn:Hmore.
    + apply push_pending_spec in Hd; [|reflexivity]. destruct Hd as [Hp Hq].
      cbn [mPendingRequests with_mPendingRequests mThread] in Hp, Hq.
      split; [exact Hp|]. lia.
    + apply push_pending_spec in Hd; [|reflexivity]. destruct Hd as [Hp Hq].
      split; [exact Hp|]. lia.
Qed.

(** ** Blocks the header does not offer *)

Lemma subsection_ok_size version offset size :
  size <= 0 -> subsection_ok version offset size = false.
Proof.
  intros Hs. unfold subsection_ok.
  replace (0 <? size) with false by (symmetry; apply Z.ltb_ge; exact Hs).
  apply andb_false_r.
Qed.

(** X22.  A block the stored header gives no size for is never looked
    up in the cache nor asked from the network, and the request is
    over (the fetch answers [true]): a LOD goes to [mUnavailableQ], a
    skin to [mSkinUnavailableQ], and a convex decomposition is dropped
    without any report. *)
Theorem undeclared_blocks o p lod st header :
  let id := getSculptID p in
  let st1 := count (add_sMeshRequestCount 1) st in
  mMeshHeader st !! id = Some header ->
  0 < wrapU32 (mHeaderSize header) ->
  (forall size, lod_get (mLodSize header) lod = Some size -> size <= 0 ->
     fetchMeshLOD o p lod st
     = Some (true, with_mUnavailableQ (mUnavailableQ st1 ++ [new_LODRequest p lod]) st1)) /\
  (mSkinSize header <= 0 ->
     fetchMeshSkinInfo o id st
     = Some (true, with_mSkinUnavailableQ
                     (mSkinUnavailableQ st1 ++ [new_UUIDBasedRequest id]) st1)) /\
  (mPhysicsConvexSize header <= 0 ->
     fetchMeshDecomposition o id st = Some (true, st1)).
Proof.
  cbv zeta. intros Hh Hhs. apply Z.ltb_lt in Hhs. split; [|split].
  - intros size Hsz Hle. unfold fetchMeshLOD. rewrite Hh, Hhs.
    destruct (lod_get_same_range (mLodSize header) (mLodOffset header) lod
                (ex_intro _ _ Hsz)) as [off Hoff].
    destruct (lod_get_same_range (mLodSize header) (mLodInCache header) lod
                (ex_intro _ _ Hsz)) as [bit Hbit].
    rewrite Hoff, Hsz, Hbit. cbn [mbind option_bind].
    rewrite subsection_ok_size by exact Hle. reflexivity.
  - intros Hle. unfold fetchMeshSkinInfo. rewrite Hh, Hhs.
    rewrite subsection_ok_size by exact Hle. reflexivity.
  - intros Hle. unfold fetchMeshDecomposition. rewrite Hh, Hhs.
    rewrite subsection_ok_size by exact Hle. reflexivity.
Qed.

(** ** The physics-shape block *)

(** X23.  The physics-shape handler caches a block whether or not it
    unpacks.  [physicsShapeReceived] answers [MESH_OK] for a block
    that does not unpack and delivers an empty shape, so
    [processData] marks the block present and stores its bytes; the
    next [fetchMeshPhysicsShape] then reads them back, delivers the
    empty shape again and makes no request. *)
Theorem physics_block_cached_unchecked o handle data st header mesh_id :
  let size := mPhysicsMeshSize header in
  let offset := mHeaderSize header + mPhysicsMeshOffset header in
  let handler := with_mHttpHandle handle
                   (new_handler LLMeshPhysicsShapeHandler mesh_id offset size) in
  let nothing := {| dc_mMeshID := mesh_id; dc_decomp := None;
                    dc_mPhysicsShapeMesh := [] |} in
  mMeshHeader st !! mesh_id = Some header ->
  0 < mHeaderSize header -> mVersion header <= MAX_MESH_VERSION ->
  0 <= mPhysicsMeshOffset header -> 0 < size ->
  offset + CACHE_PREAMBLE_SIZE + size < 2 ^ 31 ->
  Z.of_nat (length data) = size ->
  unpackVolumeFaces data size = None ->
  offset + CACHE_PREAMBLE_SIZE + size <= file_getSize st mesh_id ->
  first_kb_zero data size = false -> new_ok o = true ->
  exists st' st'',
    LLMeshPhysicsShapeHandler_processData handler (Some data) size st = Some st' /\
    mDecompositionQ st' = mDecompositionQ st ++ [nothing] /\
    (mPhysicsMeshInCache <$> mMeshHeader st' !! mesh_id) = Some true /\
    file_read st' mesh_id (offset + CACHE_PREAMBLE_SIZE) size = data /\
    fetchMeshPhysicsShape o mesh_id st' = Some (true, st'') /\
    mDecompositionQ st'' = mDecompositionQ st' ++ [nothing] /\
    mHttpRequestSet st'' = mHttpRequestSet st' /\ mHttpRequest st'' = mHttpRequest st'.
Proof.
  cbv zeta. unfold CACHE_PREAMBLE_SIZE.
  intros Hh Hhs Hv Hlo Hsize Hmax Hlen Hun Hfile Hkb Hnew.
  set (handler := with_mHttpHandle handle
                    (new_handler LLMeshPhysicsShapeHandler mesh_id
                       (mHeaderSize header + mPhysicsMeshOffset header)
                       (mPhysicsMeshSize header))).
  assert (HmO : mOffset handler = mHeaderSize header + mPhysicsMeshOffset header)
    by (cbn; apply wrapU32_id; lia).
  assert (HmR : mRequestedBytes handler = mPhysicsMeshSize header)
    by (cbn; apply wrapU32_id; lia).
  assert (HmI : hMeshID handler = mesh_id) by reflexivity.
  clearbody handler.
  unfold LLMeshPhysicsShapeHandler_processData, data_matches_size.
  assert (Hpos : (0 <? mPhysicsMeshSize header) = true) by (apply Z.ltb_lt; lia).
  rewrite Hpos.
  rewrite bool_decide_eq_true_2 by (eexists; reflexivity).
  cbn [Bool.eqb]. unfold physicsShapeReceived at 1. rewrite Hun, HmI.
  cbn [default]. unfold Datatypes.id.
  match goal with |- context [write_fetched ?h ?d ?ic ?mk ?s] =>
    destruct (write_fetched_spec h d ic mk s header (mPhysicsMeshInCache header)) as
      (st' & b' & Hwf & Hmh & Hd & Hl & Hs & _ & _ & Hlq & Hsq & Hdq & _ & _ & Hset & _)
  end.
  all: rewrite ?HmO, ?HmR, ?HmI; unfold CACHE_PREAMBLE_SIZE in *;
    try (unfold file_getSize in *; cbn [mDisk with_mDecompositionQ mMeshHeader]; lia);
    try assumption; try (symmetry; assumption); try reflexivity.
  rewrite HmI in Hmh, Hd, Hl. rewrite HmO, HmR in Hs.
  cbn [mMeshHeader with_mDecompositionQ mDisk mDecompositionQ mHttpRequestSet] in Hmh, Hd, Hl, Hdq, Hset.
  unfold Datatypes.id in *.
  set (h' := if mPhysicsMeshInCache header then header else mark_physics_in_cache header) in *.
  assert (Hsame : mPhysicsMeshOffset h' = mPhysicsMeshOffset header /\
                  mPhysicsMeshSize h' = mPhysicsMeshSize header /\
                  mHeaderSize h' = mHeaderSize header /\ mVersion h' = mVersion header /\
                  mPhysicsMeshInCache h' = true).
  { subst h'. destruct (mPhysicsMeshInCache header) eqn:Hb; [auto|]. repeat split. }
  destruct Hsame as (So & Ss & Sh & Sv & Sc).
  assert (Hlenb : Z.of_nat (length b') = file_getSize st mesh_id).
  { rewrite Hl. unfold file_getSize. destruct (mDisk st !! mesh_id); reflexivity. }
  assert (Hread : file_read st' mesh_id
                    (mHeaderSize header + mPhysicsMeshOffset header + 12)
                    (mPhysicsMeshSize header) = data).
  { unfold file_read. rewrite Hd. exact Hs. }
  eexists st', _. split; [exact Hwf|]. split; [exact Hdq|].
  split; [rewrite Hmh, lookup_insert_eq; cbn; now rewrite Sc|].
  split; [exact Hread|].
  unfold fetchMeshPhysicsShape. rewrite Hmh, lookup_insert_eq. rewrite So, Ss, Sh, Sv, Sc.
  rewrite wrapU32_id by lia. rewrite !wrapS32_id by (unfold CACHE_PREAMBLE_SIZE; lia).
  unfold subsection_ok, cache_covers, CACHE_PREAMBLE_SIZE.
  rewrite wrapS32_id by lia.
  assert (Hfs : forall f g, file_getSize (count f (count g st')) mesh_id
                            = file_getSize st mesh_id).
  { intros f g. unfold file_getSize. unfold count; cbn [with_mCounters mDisk]. rewrite Hd. exact Hlenb. }
  assert (Hfs0 : forall f, file_getSize (count f st') mesh_id = file_getSize st mesh_id).
  { intros f. unfold file_getSize. unfold count; cbn [with_mCounters mDisk]. rewrite Hd. exact Hlenb. }
  rewrite Hfs0.
  repeat match goal with
         | |- context [?a <? ?b] => rewrite (proj2 (Z.ltb_lt a b)) by lia
         | |- context [?a <=? ?b] => rewrite (proj2 (Z.leb_le a b)) by lia
         end.
  cbn [andb]. rewrite Hnew. cbn [negb].
  assert (Hrd : forall f g h, file_read (count f (count g (count h st'))) mesh_id
                  (mHeaderSize header + mPhysicsMeshOffset header + 12)
                  (mPhysicsMeshSize header) = data).
  { intros f g h. unfold file_read. unfold count; cbn [with_mCounters mDisk]. rewrite Hd. exact Hs. }
  rewrite Hrd, Hkb. cbn [negb]. unfold physicsShapeReceived. rewrite Hun.
  split; [reflexivity|]. cbn. split; [reflexivity|].
  split; reflexivity.
Qed.

(** ** Answers that are not parsed *)

Lemma data_matches_size_false (data : option buffer) data_size :
  ~ (is_Some data <-> 0 < data_size) -> data_matches_size data data_size = false.
Proof.
  intros Hn. unfold data_matches_size.
  destruct (bool_decide (is_Some data)) eqn:Hd, (0 <? data_size) eqn:Hs; try reflexivity.
  - exfalso. apply Hn. apply bool_decide_eq_true in Hd. apply Z.ltb_lt in Hs. tauto.
  - exfalso. apply Hn. apply bool_decide_eq_false in Hd. apply Z.ltb_ge in Hs.
    split; [tauto|lia].
Qed.

(** X24.  An answer with data but no size, or a size but no data, is
    never parsed and never cached: the LOD and the skin handler report
    the request unavailable at once, without a task for the parse
    pool, and the decomposition and the physics-shape handler leave
    the worker as it was, with no report at all. *)
Theorem mismatched_answer o handler lod data data_size st :
  ~ (is_Some data <-> 0 < data_size) ->
  LLMeshLODHandler_processData o handler lod data data_size st
  = Some (None, with_mUnavailableQ
                  (mUnavailableQ st
                     ++ [new_LODRequest {| getSculptID := hMeshID handler |} lod]) st) /\
  LLMeshSkinInfoHandler_processData o handler data data_size st
  = Some (None, with_mSkinUnavailableQ
                  (mSkinUnavailableQ st ++ [new_UUIDBasedRequest (hMeshID handler)]) st) /\
  LLMeshDecompositionHandler_processData handler data data_size st = Some st /\
  LLMeshPhysicsShapeHandler_processData handler data data_size st = Some st.
Proof.
  intros Hn. apply data_matches_size_false in Hn.
  unfold LLMeshLODHandler_processData, LLMeshSkinInfoHandler_processData,
    LLMeshDecompositionHandler_processData, LLMeshPhysicsShapeHandler_processData.
  rewrite Hn. repeat split.
Qed.

(** ** Cost data *)

(** X25.  The sizes [getCostData] reports: an index outside [0, 3] has
    size 0; a LOD the header gives no size takes the size reported for
    the next higher LOD, so a LOD reported with size 0 has every
    higher LOD at 0 too; and when the call answers [false] every size
    is 0.  A stored header with a positive size, no 404 mark, a
    version up to 999 and a lowest LOD of positive size makes the call
    answer [true] with the header's own size for the lowest and the
    highest LOD. *)
Theorem cost_data_sizes mesh_id st :
  let ok := fst (getCostData mesh_id st) in
  let d := snd (getCostData mesh_id st) in
  (forall lod, lod < 0 \/ 3 < lod -> getSizeByLOD d lod = 0) /\
  (forall lod, 0 <= lod < 3 -> getSizeByLOD d lod = 0 -> getSizeByLOD d (lod + 1) = 0) /\
  (ok = false -> forall lod, getSizeByLOD d lod = 0) /\
  (forall header,
     mMeshHeader st !! mesh_id = Some header -> mesh_id <> 0%N ->
     0 < mHeaderSize header -> m404 header = false ->
     0 < lowest_lod (mLodSize header) -> mVersion header <= MAX_MESH_VERSION ->
     ok = true /\
     getSizeByLOD d 0 = lowest_lod (mLodSize header) /\
     getSizeByLOD d 3 = high_lod (mLodSize header) /\
     forall lod size, 0 <= lod < 3 -> lod_get (mLodSize header) lod = Some size ->
       getSizeByLOD d lod = if size =? 0 then getSizeByLOD d (lod + 1) else size).
Proof.
  cbv zeta.
  assert (Hout : forall d lod, lod < 0 \/ 3 < lod -> getSizeByLOD d lod = 0).
  { intros d lod Hl. unfold getSizeByLOD.
    replace (llclamp lod 0 3 =? lod) with false; [reflexivity|].
    symmetry. apply Z.eqb_neq. destruct (llclamp_0_3 lod) as [-> | [-> | [-> | ->]]]; lia. }
  assert (Hnew : forall lod, getSizeByLOD LLMeshCostData_new lod = 0).
  { intros lod. unfold getSizeByLOD. destruct (negb _); [reflexivity|].
    destruct lod as [|[[|[]|]|[|[]|]|]|]; reflexivity. }
  assert (Hinit : forall header lod, 0 <= lod < 3 ->
            getSizeByLOD (snd (LLMeshCostData_init header)) lod
            = if default 0 (lod_get (mLodSize header) lod) =? 0
              then getSizeByLOD (snd (LLMeshCostData_init header)) (lod + 1)
              else default 0 (lod_get (mLodSize header) lod)).
  { intros header lod Hl.
    assert (Hc : lod = 0 \/ lod = 1 \/ lod = 2) by lia.
    unfold getSizeByLOD, LLMeshCostData_init.
    destruct (mLodSize header) as [s0 s1 s2 s3].
    destruct Hc as [-> | [-> | ->]]; cbn;
      repeat (case_match; try reflexivity; try lia). }
  split; [intros lod; apply Hout|]. split; [|split].
  - intros lod Hl. unfold getCostData.
    destruct (negb (mesh_id =? 0)%N); [|intros _; apply Hnew].
    destruct (mMeshHeader st !! mesh_id) as [header|]; [|intros _; apply Hnew].
    destruct (0 <? mHeaderSize header); [|intros _; apply Hnew].
    destruct (negb _); [|intros _; apply Hnew].
    unfold getCostData_header.
    change (LLMeshCostData_init header) with (true, snd (LLMeshCostData_init header)).
    cbn [snd]. rewrite (Hinit header lod Hl).
    destruct (default 0 (lod_get (mLodSize header) lod) =? 0) eqn:Hz; [auto|].
    apply Z.eqb_neq in Hz. intros Hs. contradiction.
  - unfold getCostData.
    destruct (negb (mesh_id =? 0)%N); [|intros _; apply Hnew].
    destruct (mMeshHeader st !! mesh_id) as [header|]; [|intros _; apply Hnew].
    destruct (0 <? mHeaderSize header); [|intros _; apply Hnew].
    destruct (negb _); [|intros _; apply Hnew].
    unfold getCostData_header.
    change (LLMeshCostData_init header) with (true, snd (LLMeshCostData_init header)).
    cbn [fst]. discriminate.
  - intros header Hh Hid Hhs H404 Hlow Hv. unfold getCostData.
    replace (negb (mesh_id =? 0)%N) with true
      by (symmetry; apply negb_true_iff, N.eqb_neq, Hid).
    rewrite Hh. replace (0 <? mHeaderSize header) with true by (symmetry; apply Z.ltb_lt, Hhs).
    rewrite H404.
    replace (lowest_lod (mLodSize header) <=? 0) with false by (symmetry; apply Z.leb_gt, Hlow).
    replace (MAX_MESH_VERSION <? mVersion header) with false by (symmetry; apply Z.ltb_ge, Hv).
    cbn [orb negb]. unfold getCostData_header.
    change (LLMeshCostData_init header) with (true, snd (LLMeshCostData_init header)).
    cbn [fst snd]. split; [reflexivity|]. split; [|split].
    + unfold getSizeByLOD, LLMeshCostData_init. cbn.
      destruct (lowest_lod (mLodSize header) =? 0) eqn:Hz; [apply Z.eqb_eq in Hz; lia|reflexivity].
    + reflexivity.
    + intros lod size Hl Hsz. rewrite (Hinit header lod Hl), Hsz. reflexivity.
Qed.

(** ** The worker's view of the actual LOD *)

Lemma getActualMeshLOD_facts h lod :
  -1 <= fst (getActualMeshLOD h lod) <= 3 /\
  True /\
  getActualMeshLOD (snd (getActualMeshLOD h lod)) lod = getActualMeshLOD h lod /\
  mHeaderSize (snd (getActualMeshLOD h lod)) = mHeaderSize h.
Proof.
  assert (Hshape : (snd (getActualMeshLOD h lod) = h /\ -1 <= fst (getActualMeshLOD h lod) <= 3)
                   \/ getActualMeshLOD h lod = (-1, set_m404 true h)).
  { unfold getActualMeshLOD.
    destruct (m404 h); [left; cbn; split; [reflexivity|lia]|].
    destruct (MAX_MESH_VERSION <? mVersion h); [left; cbn; split; [reflexivity|lia]|].
    destruct (lod_size_positive h (llclamp lod 0 3)) eqn:Hp.
    { left. cbn. split; [reflexivity|].
      destruct (llclamp_0_3 lod) as [-> | [-> | [-> | ->]]]; lia. }
    destruct (find _ (reverse _)) as [i|] eqn:Hd.
    { left. cbn. split; [reflexivity|]. apply find_some in Hd as [_ Hd].
      destruct (lod_size_positive_range h i Hd) as [-> | [-> | [-> | ->]]]; lia. }
    destruct (find _ (seqZ _ _)) as [i|] eqn:Hu.
    { left. cbn. split; [reflexivity|]. apply find_some in Hu as [_ Hu].
      destruct (lod_size_positive_range h i Hu) as [-> | [-> | [-> | ->]]]; lia. }
    now right. }
  destruct Hshape as [[Hs Hr] | He].
  - split; [exact Hr|]. split; [exact I|]. rewrite Hs. split; reflexivity.
  - rewrite He. cbn [fst snd]. split; [lia|]. split; [exact I|]. split; reflexivity.
Qed.

(** X26.  [LLMeshRepoThread::getActualMeshLOD] settles after one call:
    asked again for the same mesh and LOD it gives the same answer and
    changes nothing more.  Without a stored header of positive size
    the LOD asked for comes back as it is, not clamped, and nothing is
    written. *)
Theorem worker_actual_lod_settles p lod st :
  let r := fst (LLMeshRepoThread_getActualMeshLOD p lod st) in
  let st1 := snd (LLMeshRepoThread_getActualMeshLOD p lod st) in
  LLMeshRepoThread_getActualMeshLOD p lod st1 = (r, st1) /\
  (r = lod \/ -1 <= r <= 3) /\
  ((forall header, mMeshHeader st !! getSculptID p = Some header ->
                   mHeaderSize header <= 0) -> r = lod /\ st1 = st).
Proof.
  cbv zeta. unfold LLMeshRepoThread_getActualMeshLOD.
  destruct (mMeshHeader st !! getSculptID p) as [header|] eqn:Hh.
  2:{ cbn [fst snd]. rewrite Hh. split; [reflexivity|]. split; [now left|]. now intros _. }
  destruct (0 <? mHeaderSize header) eqn:Hhs.
  2:{ cbn [fst snd]. rewrite Hh, Hhs. split; [reflexivity|]. split; [now left|]. now intros _. }
  pose proof (getActualMeshLOD_facts header lod) as (Hr & _ & Hidem & Hsz).
  destruct (getActualMeshLOD header lod) as [r h'] eqn:Hg. cbn [fst snd] in *.
  split; [|split].
  - cbn [mMeshHeader with_mMeshHeader]. rewrite lookup_insert_eq.
    rewrite Hsz, Hhs, Hidem. cbn [mMeshHeader with_mMeshHeader].
    f_equal. unfold with_mMeshHeader. cbn. f_equal. apply insert_insert_eq.
  - right. exact Hr.
  - intros Hno. specialize (Hno header eq_refl). apply Z.ltb_lt in Hhs. lia.
Qed.

End PipelineFacts.

(** * The statements at sample inputs *)

Lemma rigged_pass2_reachable : @repo_reachable rigged_externals rigged_pass2.
Proof.
  assert (H0 : @repo_reachable rigged_externals rigged_start).
  { apply reachable_initial. vm_compute. repeat split. }
  assert (H1 : @repo_reachable rigged_externals rigged_asked).
  { eapply reachable_step;
      [eapply reachable_step;
         [exact H0|apply (step_getSkinInfo _ 10%N (Some 1%N))]|].
    eapply (step_loadMesh _ rigged_view 1%N {| getSculptID := 10%N |} 2 (-1)
              example_metrics 2 (metricsProgress 1 example_metrics)).
    vm_compute. reflexivity. }
  assert (H2 : @repo_reachable rigged_externals rigged_dispatched).
  { eapply reachable_step; [exact H1|].
    eapply (step_dispatch _ (fun _ l => l) 100). vm_compute. reflexivity. }
  assert (H3 : @repo_reachable rigged_externals rigged_pass1).
  { eapply reachable_step; [exact H2|].
    eapply (step_run_pass _ 10 (rigged_env 100) 0%Q 100). vm_compute. reflexivity. }
  assert (H4 : @repo_reachable rigged_externals rigged_header_in).
  { eapply reachable_step; [exact H3|].
    eapply (step_header_completed _ (example_oracle 0) rigged_header_handler
              rigged_response).
    - vm_compute. left.
    - reflexivity.
    - vm_compute. reflexivity. }
  eapply reachable_step; [exact H4|].
  eapply (step_run_pass _ 10 (rigged_env 200) 1%Q 100). vm_compute. reflexivity.
Qed.

(** C2.  The bound of one outstanding handle per mesh and sub-section
    does not hold for skin blocks: object 1 asks for the skin and for
    LOD 2 of mesh 10, the worker's first pass defers the skin request
    for want of a header, the header answer queues a skin request of
    its own, and the second pass submits both, so that two skin
    handlers for mesh 10 are in flight in a state the system reaches. *)
Theorem two_skin_handles_in_flight :
  @repo_reachable rigged_externals rigged_pass2 /\
  @outstanding rigged_externals (mThread rigged_pass2) 10%N LLMeshSkinInfoHandler = 2%nat.
Proof. split; [exact rigged_pass2_reachable|vm_compute; reflexivity]. Qed.




Lemma blank_cache_block_goes_to_network_witness :
  exists b st',
    @fetchMeshLOD rigged_externals (example_oracle 7) {| getSculptID := 10%N |} 2 blank_thread
      = Some (b, st') /\
    @untouched rigged_externals blank_thread st'.
Proof.
  destruct (proj1 (@blank_cache_block_goes_to_network rigged_externals)
              (example_oracle 7) {| getSculptID := 10%N |} 2 blank_thread
              (replicate 4 x00) 8 4)
    as (b & st' & Hfetch & Hsame & _).
  - vm_compute. reflexivity.
  - reflexivity.
  - reflexivity.
  - exists b, st'. split; assumption.
Defined.

(** A blank cached LOD block: the request goes to the network, the
    presence bits stay set and the cache blob, preamble included, is
    not written. *)
Lemma blank_block_nothing_invalidated :
  @cached_lod_block rigged_externals blank_thread 10%N 2 = Some (replicate 4 x00, 8, 4) /\
  first_kb_zero (replicate 4 x00) 4 = true /\
  exists st',
    @fetchMeshLOD rigged_externals (example_oracle 7) {| getSculptID := 10%N |} 2 blank_thread
      = Some (true, st') /\
    mMeshHeader st' !! 10%N = Some blank_header /\
    mLodInCache blank_header = mkLods false false true false /\
    mSkinInCache blank_header = true /\
    mDisk st' !! 10%N = Some (replicate 200 x00) /\
    sCacheWrites (mCounters st') = 0 /\
    length (mHttpRequestSet st') = 1%nat.
Proof.
  split; [vm_compute; reflexivity|split; [reflexivity|]].
  eexists. split; [vm_compute; reflexivity|]. repeat split.
Qed.




Lemma partial_content_without_range_witness :
  onCompleted_calls 108 partial_response true
    = ([processData 0 (Some rigged_body) 16], 0, 16).
Proof.
  apply (partial_content_without_range 108 partial_response true 0).
  - lia.
  - reflexivity.
  - reflexivity.
  - intros body [= <-]. vm_compute. reflexivity.
Defined.



Lemma loadMesh_out_of_range_witness :
  @loadMesh rigged_externals rigged_view 1%N {| getSculptID := 10%N |} 4 0
     example_metrics rigged_start
  = Some (4, metricsProgress 1 example_metrics, rigged_start).
Proof.
  apply (@loadMesh_out_of_range rigged_externals). right. lia.
Defined.

(** The out-of-range call still rings the load-metrics bell: the
    first call starts the timer and counts a start. *)
Lemma loadMesh_out_of_range_rings_metrics :
  exists M',
    @loadMesh rigged_externals rigged_view 1%N {| getSculptID := 10%N |} 4 0
       example_metrics rigged_start = Some (4, M', rigged_start) /\
    first_start example_metrics = true /\ first_start M' = false /\
    metrics_teleport_start_count example_metrics = 0 /\
    metrics_teleport_start_count M' = 1 /\
    sQuiescentTimer M' = [dm_start; dm_ringBell 1].
Proof. eexists. split; [vm_compute; reflexivity|]. repeat split. Qed.
